(** * EPL analysis: the transform stage (scripts/02_transform.py)

    A shallow embedding of the aggregation stage that turns the cleaned
    match table and the optional enrichment tables into the dashboard
    document, together with the properties the specification states
    about it.

    Conventions of the embedding.
    - Python [int] is [Z]; counts obtained with [len] are [Z.of_nat] of a
      list length.
    - Python [float] is idealised as an exact rational [Q]; a table cell
      that may hold NaN is an [option] ([None] is NaN).  Values that went
      through [round] are kept in lowest terms ([Qred]) so that they can
      be compared with [=].  What is stated of a rounded figure that the
      code computes from a quotient is stated up to half a unit of its
      last decimal ([rounds_to]), which holds whichever way a tie or the
      last bit of the quotient falls.  The regression is modelled a
      second time in binary64 (module [B64]), where the rounding of the
      arithmetic decides a branch.
    - A DataFrame is the list of its rows, in row order.
    - Text is [string]; non-ASCII text is its UTF-8 byte sequence, whose
      byte-wise lexicographic order is the code-point order Python uses.
    - An uncaught exception is a [Raise] in the small error monad [py]. *)

From Stdlib Require Import ZArith QArith Qround Qabs Qfield Lqa String Ascii
  List Sorted Permutation Lia Bool DecimalString DecimalZ DecimalPos.
From Stdlib Require Floats.
From stdpp Require Import gmap strings list fin_maps sorting.

Local Open Scope string_scope.
Local Open Scope list_scope.
Local Open Scope Z_scope.

(** ** Python run-time conventions *)

Inductive py_error : Type :=
  | ZeroDivisionError
  | IndexError.

Inductive py (A : Type) : Type :=
  | Ret (a : A)
  | Raise (e : py_error).

Arguments Ret {A} a.
Arguments Raise {A} e.

Definition py_bind {A B : Type} (m : py A) (k : A -> py B) : py B :=
  match m with
  | Ret a => k a
  | Raise e => Raise e
  end.

Notation "x <- m ;; k" := (py_bind m (fun x => k))
  (at level 100, m at next level, right associativity).

(** A list comprehension whose body may raise. *)
Fixpoint py_for {A B : Type} (f : A -> py B) (l : list A) : py (list B) :=
  match l with
  | [] => Ret []
  | x :: l' => y <- f x ;; ys <- py_for f l' ;; Ret (y :: ys)
  end.

(** [a / b] on numbers: raises on a zero divisor. *)
Definition py_div (a b : Q) : py Q :=
  if Qeq_bool b 0 then Raise ZeroDivisionError else Ret (a / b)%Q.

(** [seq.iloc[0]] and [seq[0]]. *)
Definition py_first {A : Type} (l : list A) : py A :=
  match l with
  | [] => Raise IndexError
  | x :: _ => Ret x
  end.

(** Round to the nearest integer, ties to the even neighbour. *)
Definition round_half_even (q : Q) : Z :=
  let f := Qfloor q in
  match Qcompare (q - inject_Z f) (1 # 2) with
  | Lt => f
  | Gt => f + 1
  | Eq => if Z.even f then f else f + 1
  end.

Definition pow10 (decimals : nat) : Z := 10 ^ Z.of_nat decimals.

(** [round(x, decimals)] of the number [x] itself: half to even.  Python
    rounds the binary64 number it has computed, which for a quotient may
    lie an ulp to either side of the exact one, so that at a tie (and only
    there, for the small integers of a season) the last decimal may come
    out one unit off this value; [rounds_to] below is what holds of
    both. *)
Definition py_round (x : Q) (decimals : nat) : Q :=
  Qred (inject_Z (round_half_even (x * inject_Z (pow10 decimals)))
        / inject_Z (pow10 decimals)).

(** [safe_int]: NaN becomes 0. *)
Definition safe_int (val : option Z) : Z :=
  match val with
  | None => 0
  | Some v => v
  end.

(** [safe_float]: NaN becomes 0.0, anything else is rounded. *)
Definition safe_float (val : option Q) (decimals : nat) : Q :=
  match val with
  | None => 0%Q
  | Some v => py_round v decimals
  end.

(** [safe_str]: NaN becomes the empty string. *)
Definition safe_str (val : option string) : string :=
  match val with
  | None => ""
  | Some s => s
  end.

(** [list.sort] and [sorted]: a stable sort.  The result of a stable sort
    under a total preorder is unique, so the insertion sort below returns
    what Python's merge-based sort returns. *)
Section StableSort.
Context {A : Type} (leb : A -> A -> bool).

Fixpoint insert_stable (x : A) (l : list A) : list A :=
  match l with
  | [] => [x]
  | y :: l' => if leb x y then x :: l else y :: insert_stable x l'
  end.

Definition py_sort (l : list A) : list A := foldr insert_stable [] l.
End StableSort.

(** [sum] of an integer column. *)
Definition col_sum {A : Type} (f : A -> Z) (l : list A) : Z :=
  foldr (fun x acc => f x + acc) 0 l.

(** [len]. *)
Definition len {A : Type} (l : list A) : Z := Z.of_nat (length l).

(** ** config.py *)

Definition CURRENT_SEASON : string := "2025-26".
Definition FULL_SEASON_MATCHES : Z := 380.

(** ** Data model *)

Module Result.
(** The full-time result code of a fixture: home win, draw, away win,
    the three codes a match record carries. *)
Inductive t : Type := H | D | A.

Definition eqb (a b : t) : bool :=
  match a, b with
  | H, H | D, D | A, A => true
  | _, _ => false
  end.
End Result.

Module Match.
(** One row of matches_clean.csv, with the columns the modelled
    sections read. *)
Record t : Type := mk {
  season : string;
  date : string;
  home_team : string;
  away_team : string;
  home_goals : Z;
  away_goals : Z;
  result : Result.t;
  home_shots : Z;
  away_shots : Z;
  home_shots_on_target : Z;
  away_shots_on_target : Z;
  total_goals : Z
}.
End Match.

Module Team.
(** The dictionary returned by [build_team_stats]; ['position'] is
    absent until the table has been ranked. *)
Record t : Type := mk {
  team : string;
  played : Z;
  won : Z;
  drawn : Z;
  lost : Z;
  goals_for : Z;
  goals_against : Z;
  goal_difference : Z;
  points : Z;
  home_won : Z;
  home_drawn : Z;
  home_lost : Z;
  away_won : Z;
  away_drawn : Z;
  away_lost : Z;
  clean_sheets : Z;
  total_shots : Z;
  total_shots_on_target : Z;
  shot_accuracy : Q;
  goals_per_game : Q;
  position : option Z
}.

Definition set_position (p : Z) (r : t) : t :=
  mk (team r) (played r) (won r) (drawn r) (lost r) (goals_for r)
     (goals_against r) (goal_difference r) (points r) (home_won r)
     (home_drawn r) (home_lost r) (away_won r) (away_drawn r)
     (away_lost r) (clean_sheets r) (total_shots r)
     (total_shots_on_target r) (shot_accuracy r) (goals_per_game r)
     (Some p).
End Team.

(** ** Standings engine *)

Definition has_result (c : Result.t) (m : Match.t) : bool :=
  Result.eqb (Match.result m) c.

(** [total_sot / total_shots * 100], guarded. *)
Definition shot_acc_of (total_sot total_shots : Z) : py Q :=
  if 0 <? total_shots
  then q <- py_div (inject_Z total_sot) (inject_Z total_shots) ;;
       Ret (safe_float (Some (q * 100)%Q) 2)
  else Ret 0%Q.

Definition goals_per_game_of (gf played : Z) : py Q :=
  if 0 <? played
  then q <- py_div (inject_Z gf) (inject_Z played) ;;
       Ret (safe_float (Some q) 2)
  else Ret 0%Q.

Definition build_team_stats (team_matches : list Match.t) (team_name : string)
  : py Team.t :=
  let home := List.filter (fun m => String.eqb (Match.home_team m) team_name) team_matches in
  let away := List.filter (fun m => String.eqb (Match.away_team m) team_name) team_matches in
  let hw := len (List.filter (has_result Result.H) home) in
  let hd := len (List.filter (has_result Result.D) home) in
  let hl := len (List.filter (has_result Result.A) home) in
  let aw := len (List.filter (has_result Result.A) away) in
  let ad := len (List.filter (has_result Result.D) away) in
  let al := len (List.filter (has_result Result.H) away) in
  let gf := safe_int (Some (col_sum Match.home_goals home
                            + col_sum Match.away_goals away)) in
  let ga := safe_int (Some (col_sum Match.away_goals home
                            + col_sum Match.home_goals away)) in
  let total_shots := safe_int (Some (col_sum Match.home_shots home
                                     + col_sum Match.away_shots away)) in
  let total_sot := safe_int (Some (col_sum Match.home_shots_on_target home
                                   + col_sum Match.away_shots_on_target away)) in
  shot_acc <- shot_acc_of total_sot total_shots ;;
  let cs_home := len (List.filter (fun m => Match.away_goals m =? 0) home) in
  let cs_away := len (List.filter (fun m => Match.home_goals m =? 0) away) in
  let played := hw + hd + hl + aw + ad + al in
  let won := hw + aw in
  let drawn := hd + ad in
  let lost := hl + al in
  let pts := won * 3 + drawn in
  gpg <- goals_per_game_of gf played ;;
  Ret (Team.mk team_name played won drawn lost gf ga (gf - ga) pts
         hw hd hl aw ad al (cs_home + cs_away) total_shots total_sot
         shot_acc gpg None).

(** [sorted(set(home_team) | set(away_team))]: the team names of the
    season, each once, in ascending string order. *)
Definition team_set (current : list Match.t) : gset string :=
  list_to_set (map Match.home_team current)
  ∪ list_to_set (map Match.away_team current).

Definition teams_of (current : list Match.t) : list string :=
  py_sort String.leb (elements (team_set current)).

(** Comparison of the 3-tuples used as sort keys. *)
Definition tuple3_ltb (a b : Z * Z * Z) : bool :=
  let '(a1, a2, a3) := a in
  let '(b1, b2, b3) := b in
  (a1 <? b1) || ((a1 =? b1) && ((a2 <? b2) || ((a2 =? b2) && (a3 <? b3)))).

(** [key=lambda x: (-x['points'], -x['goal_difference'], -x['goals_for'])] *)
Definition table_key (x : Team.t) : Z * Z * Z :=
  (- Team.points x, - Team.goal_difference x, - Team.goals_for x).

Definition table_leb (x y : Team.t) : bool :=
  negb (tuple3_ltb (table_key y) (table_key x)).

(** [for i, row in enumerate(rows): row['position'] = i + 1] *)
Definition number_rows (rows : list Team.t) : list Team.t :=
  imap (fun i row => Team.set_position (Z.of_nat i + 1) row) rows.

Definition league_table (current : list Match.t) : py (list Team.t) :=
  table_rows <- py_for (build_team_stats current) (teams_of current) ;;
  Ret (number_rows (py_sort table_leb table_rows)).

(** [df.sort_values(col)] on a text column, ascending.  pandas leaves the
    relative order of rows with equal keys unspecified; the embedding
    keeps them in row order. *)
Definition sort_values {A : Type} (col : A -> string) (df : list A) : list A :=
  py_sort (fun a b => String.leb (col a) (col b)) df.

Module CumPoint.
Record t : Type := mk { matchday : Z; points : Z }.
End CumPoint.

(** [{'H': 3, 'D': 1, 'A': 0}] and [{'A': 3, 'D': 1, 'H': 0}] *)
Definition home_pts (r : Result.t) : Z :=
  match r with
  | Result.H => 3
  | Result.D => 1
  | Result.A => 0
  end.

Definition away_pts (r : Result.t) : Z :=
  match r with
  | Result.A => 3
  | Result.D => 1
  | Result.H => 0
  end.

Fixpoint cumsum_from (acc : Z) (l : list Z) : list Z :=
  match l with
  | [] => []
  | x :: l' => (acc + x) :: cumsum_from (acc + x) l'
  end.

Definition cumsum (l : list Z) : list Z := cumsum_from 0 l.

Definition team_cumulative (current_sorted : list Match.t) (team : string)
  : list CumPoint.t :=
  let home_matches :=
    List.filter (fun m => String.eqb (Match.home_team m) team) current_sorted in
  let away_matches :=
    List.filter (fun m => String.eqb (Match.away_team m) team) current_sorted in
  let home_rows :=
    map (fun m => (Match.date m, home_pts (Match.result m))) home_matches in
  let away_rows :=
    map (fun m => (Match.date m, away_pts (Match.result m))) away_matches in
  let all_matches := sort_values fst (home_rows ++ away_rows) in
  let cumulative := cumsum (map snd all_matches) in
  imap (fun i c => CumPoint.mk (Z.of_nat i + 1) (safe_int (Some c))) cumulative.

(** The [cumulative_points] dictionary, as its items in insertion order. *)
Definition cumulative_points (current : list Match.t)
  : list (string * list CumPoint.t) :=
  let current_sorted := sort_values Match.date current in
  map (fun team => (team, team_cumulative current_sorted team))
      (teams_of current).

(** ** Cross-source analytics: the xG team table *)

Module XGTeam.
(** One row of xg_teams.csv.  A [None] cell is NaN or an absent column
    ([row.get(col, 0)]); both are read as 0. *)
Record t : Type := mk {
  team : string;
  xg_for : option Q;
  xg_against : option Q;
  goals_for : option Z;
  goals_against : option Z
}.
End XGTeam.

Module XGTableRow.
Record t : Type := mk {
  team : string;
  xg_for : Q;
  xg_against : Q;
  goals_for : Z;
  goals_against : Z;
  xg_difference : Q;
  actual_points : Z
}.
End XGTableRow.

Module Scatter.
Record t : Type := mk {
  team : string;
  total_xg : Q;
  actual_goals : Z;
  difference : Q
}.
End Scatter.

Module ShotQuality.
Record t : Type := mk {
  team : string;
  total_shots : Z;
  xg_per_shot : Q
}.
End ShotQuality.

(** [next((t for t in table_rows if t['team'] == team), None)] *)
Definition find_team (table_rows : list Team.t) (team : string)
  : option Team.t :=
  List.find (fun tr => String.eqb (Team.team tr) team) table_rows.

(** The loop that looks the team's points up, starting from 0. *)
Definition actual_points_of (table_rows : list Team.t) (team : string) : Z :=
  match find_team table_rows team with
  | Some tr => Team.points tr
  | None => 0
  end.

Definition xg_table_row (table_rows : list Team.t) (row : XGTeam.t)
  : XGTableRow.t :=
  let team := XGTeam.team row in
  let xg_for := safe_float (XGTeam.xg_for row) 2 in
  let xg_against := safe_float (XGTeam.xg_against row) 2 in
  let goals_for := safe_int (XGTeam.goals_for row) in
  let goals_against := safe_int (XGTeam.goals_against row) in
  let xg_diff := (xg_for - xg_against)%Q in
  XGTableRow.mk team xg_for xg_against goals_for goals_against
    (safe_float (Some xg_diff) 2) (actual_points_of table_rows team).

Definition xg_scatter_row (row : XGTeam.t) : Scatter.t :=
  let xg_for := safe_float (XGTeam.xg_for row) 2 in
  let goals_for := safe_int (XGTeam.goals_for row) in
  Scatter.mk (XGTeam.team row) xg_for goals_for
    (safe_float (Some (inject_Z goals_for - xg_for)%Q) 2).

(** The shot-quality row of a team, if the guard lets one be appended. *)
Definition shot_quality_row (table_rows : list Team.t) (row : XGTeam.t)
  : py (option ShotQuality.t) :=
  let team := XGTeam.team row in
  let xg_for := safe_float (XGTeam.xg_for row) 2 in
  match find_team table_rows team with
  | Some team_table =>
      if 0 <? Team.total_shots team_table
      then
        let total_shots_team := Team.total_shots team_table in
        q <- py_div xg_for (inject_Z total_shots_team) ;;
        Ret (Some (ShotQuality.mk team total_shots_team
                     (safe_float (Some q) 3)))
      else Ret None
  | None => Ret None
  end.

(** [rows.sort(key=lambda x: -x[field])] *)
Definition sort_desc_Q {A : Type} (field : A -> Q) (rows : list A) : list A :=
  py_sort (fun a b => Qle_bool (- field a) (- field b)) rows.

Definition sort_desc_Z {A : Type} (field : A -> Z) (rows : list A) : list A :=
  py_sort (fun a b => (- field a <=? - field b)) rows.

Definition xg_table_of (table_rows : list Team.t) (xg_teams_df : list XGTeam.t)
  : list XGTableRow.t :=
  sort_desc_Q XGTableRow.xg_difference (map (xg_table_row table_rows) xg_teams_df).

Definition xg_vs_actual_of (xg_teams_df : list XGTeam.t) : list Scatter.t :=
  map xg_scatter_row xg_teams_df.

Definition shot_quality_of (table_rows : list Team.t)
  (xg_teams_df : list XGTeam.t) : py (list ShotQuality.t) :=
  rows <- py_for (shot_quality_row table_rows) xg_teams_df ;;
  Ret (sort_desc_Q ShotQuality.xg_per_shot (omap id rows)).

(** ** Text operations of [str] *)

(** ASCII white space as [str.split()] and [str.strip()] see it.  The
    white space outside ASCII that Python splits on as well (U+0085,
    U+00A0, U+2000 and the like) is not recognised: the words of a name
    are taken to be separated by ASCII white space. *)
Definition is_space (c : ascii) : bool :=
  let n := N_of_ascii c in
  (((9 <=? n) && (n <=? 13)) || ((28 <=? n) && (n <=? 32)))%N.

(** [s.split(sep)] for a one-character separator. *)
Fixpoint split_on (sep : ascii) (s : string) : list string :=
  match s with
  | EmptyString => [""]
  | String c s' =>
      if Ascii.eqb c sep then "" :: split_on sep s'
      else match split_on sep s' with
           | [] => [String c ""]
           | w :: ws => String c w :: ws
           end
  end.

(** [s.split()]: the maximal runs of non-space characters. *)
Fixpoint split_ws (s : string) : list string :=
  match s with
  | EmptyString => []
  | String c s' =>
      if is_space c then split_ws s'
      else match s' with
           | EmptyString => [String c ""]
           | String c' _ =>
               if is_space c' then String c "" :: split_ws s'
               else match split_ws s' with
                    | [] => [String c ""]
                    | w :: ws => String c w :: ws
                    end
           end
  end.

Fixpoint lstrip (s : string) : string :=
  match s with
  | EmptyString => ""
  | String c s' => if is_space c then lstrip s' else s
  end.

(** Drop the longest suffix made of characters satisfying [p]. *)
Fixpoint rstrip_with (p : ascii -> bool) (s : string) : string :=
  match s with
  | EmptyString => ""
  | String c s' =>
      match rstrip_with p s' with
      | EmptyString => if p c then "" else String c ""
      | r => String c r
      end
  end.

(** [s.strip()] *)
Definition strip (s : string) : string := lstrip (rstrip_with is_space s).

(** [s.rstrip('.')] *)
Definition rstrip_dot (s : string) : string := rstrip_with (Ascii.eqb ".") s.

(** [needle in hay] *)
Fixpoint is_substring (needle hay : string) : bool :=
  String.prefix needle hay
  || match hay with
     | EmptyString => false
     | String _ hay' => is_substring needle hay'
     end.

(** [len(s)]: the number of code points, that is of bytes that are not
    UTF-8 continuation bytes. *)
Definition is_continuation (c : ascii) : bool :=
  let n := N_of_ascii c in ((128 <=? n) && (n <? 192))%N.

Fixpoint py_len (s : string) : Z :=
  match s with
  | EmptyString => 0
  | String c s' => (if is_continuation c then 0 else 1) + py_len s'
  end.

(** The first element of [l] on which [f] answers. *)
Fixpoint first_hit {A B : Type} (f : A -> option B) (l : list A) : option B :=
  match l with
  | [] => None
  | x :: l' => match f x with
               | Some y => Some y
               | None => first_hit f l'
               end
  end.

(** ** Player reconciliation *)

Module Player.
(** One row of players.csv.  The text cells that the transform reads
    through [safe_str] may be NaN. *)
Record t : Type := mk {
  player_name : option string;
  full_name : option string;
  team : string;
  position : string;
  goals : Z;
  assists : Z;
  minutes : Z;
  yellow_cards : Z;
  red_cards : Z;
  price : Q
}.
End Player.

Module XGPlayer.
(** One row of xg_players.csv. *)
Record t : Type := mk {
  player_name : option string;
  team : option string;
  xg : option Q;
  xa : option Q;
  shots : option Z;
  key_passes : option Z;
  npxg : option Q
}.
End XGPlayer.

Module XGData.
(** The enrichment dictionary stored in the lookup indexes. *)
Record t : Type := mk {
  xg : Q;
  xa : Q;
  shots : Z;
  key_passes : Z;
  npxg : Q
}.
End XGData.

Module XGIndex.
(** The three lookup dictionaries built from the xG player table. *)
Record t : Type := mk {
  xg_by_name : gmap (string * string) XGData.t;
  xg_by_last : gmap (string * string) XGData.t;
  xg_by_team : gmap string (list (string * XGData.t))
}.

Definition empty : t := mk ∅ ∅ ∅.
End XGIndex.

Definition xg_data_of (xr : XGPlayer.t) : XGData.t :=
  XGData.mk (safe_float (XGPlayer.xg xr) 2) (safe_float (XGPlayer.xa xr) 2)
            (safe_int (XGPlayer.shots xr)) (safe_int (XGPlayer.key_passes xr))
            (safe_float (XGPlayer.npxg xr) 2).

(** [[t.strip() for t in teams_raw.split(',')]] *)
Definition split_teams (teams_raw : string) : list string :=
  map strip (split_on "," teams_raw).

Section NameMatching.
(** [unicodedata] and [str.lower] depend on the Unicode character
    database, which is not part of the repository: [strip_accents] (NFKD
    decomposition with the combining marks removed) and [lower] are
    parameters of the matching code. *)
Variable strip_accents : string -> string.
Variable lower : string -> string.

Definition normalize (s : string) : string := lower (strip_accents s).

(** [parts[-1] if parts else name_norm] *)
Definition last_name (name_norm : string) : string :=
  List.last (split_ws name_norm) name_norm.

(** The body of the inner [for team in teams] loop. *)
Definition index_under (name last name_norm : string) (data : XGData.t)
  (idx : XGIndex.t) (team : string) : XGIndex.t :=
  XGIndex.mk
    (<[(name, team) := data]> (XGIndex.xg_by_name idx))
    (<[(last, team) := data]> (XGIndex.xg_by_last idx))
    (<[team := (XGIndex.xg_by_team idx !!! team) ++ [(name_norm, data)]]>
       (XGIndex.xg_by_team idx)).

(** The body of the loop over the xG player rows; rows without a player
    name were dropped by [dropna]. *)
Definition index_row (idx : XGIndex.t) (xr : XGPlayer.t) : XGIndex.t :=
  match XGPlayer.player_name xr with
  | None => idx
  | Some _ =>
      let name := safe_str (XGPlayer.player_name xr) in
      let teams_raw := safe_str (XGPlayer.team xr) in
      let data := xg_data_of xr in
      let name_norm := normalize name in
      let last := last_name name_norm in
      fold_left (index_under name last name_norm data)
                (split_teams teams_raw) idx
  end.

Definition build_index (xg_players_df : list XGPlayer.t) : XGIndex.t :=
  fold_left index_row xg_players_df XGIndex.empty.

(** The five lookups of [enrich], each answering [None] on a miss. *)
Definition by_short_name (idx : XGIndex.t) (pname team : string)
  : option XGData.t :=
  XGIndex.xg_by_name idx !! (pname, team).

Definition by_full_name (idx : XGIndex.t) (fname team : string)
  : option XGData.t :=
  if String.eqb fname "" then None
  else XGIndex.xg_by_name idx !! (fname, team).

Definition by_last_name (idx : XGIndex.t) (pname team : string)
  : option XGData.t :=
  XGIndex.xg_by_last idx !! (normalize pname, team).

Definition dot_parts (pname : string) : list string :=
  map normalize (List.filter (fun p => 2 <? py_len p) (split_on "." pname)).

Definition by_dot_part (idx : XGIndex.t) (pname team : string)
  : option XGData.t :=
  if is_substring "." pname
  then first_hit (fun part => XGIndex.xg_by_last idx !! (part, team))
                 (dot_parts pname)
  else None.

Definition by_substring (idx : XGIndex.t) (pname team : string)
  : option XGData.t :=
  let candidates := XGIndex.xg_by_team idx !!! team in
  let clean := rstrip_dot (normalize pname) in
  first_hit (fun c : string * XGData.t =>
               if is_substring clean (fst c) then Some (snd c) else None)
            candidates.

(** [enrich(row)]: [None] is the empty dictionary. *)
Definition enrich (idx : XGIndex.t) (row : Player.t) : option XGData.t :=
  let pname := safe_str (Player.player_name row) in
  let fname := safe_str (Player.full_name row) in
  let team := safe_str (Some (Player.team row)) in
  match by_short_name idx pname team with
  | Some result => Some result
  | None =>
  match by_full_name idx fname team with
  | Some result => Some result
  | None =>
  match by_last_name idx pname team with
  | Some result => Some result
  | None =>
  match by_dot_part idx pname team with
  | Some result => Some result
  | None => by_substring idx pname team
  end end end end.
End NameMatching.



Definition ascii_lower_char (c : ascii) : ascii :=
  let n := N_of_ascii c in
  if ((65 <=? n) && (n <=? 90))%N then ascii_of_N (n + 32) else c.

Fixpoint ascii_lower (s : string) : string :=
  match s with
  | EmptyString => ""
  | String c s' => String (ascii_lower_char c) (ascii_lower s')
  end.

(** ** Player leaderboards *)

Module GoalScorer.
Record t : Type := mk {
  rank : Z;
  player_name : string;
  team : string;
  position : string;
  goals : Z;
  assists : Z;
  minutes : Z;
  goals_per_90 : Q;
  price : Q;
  xg : option Q;
  shots : option Z
}.
End GoalScorer.

Module AssistLeader.
Record t : Type := mk {
  rank : Z;
  player_name : string;
  team : string;
  position : string;
  assists : Z;
  goals : Z;
  minutes : Z;
  assists_per_90 : Q;
  xa : option Q;
  key_passes : option Z;
  price : Q
}.
End AssistLeader.

Module IronMan.
Record t : Type := mk {
  player_name : string;
  team : string;
  position : string;
  minutes : Z;
  games_equivalent : Q;
  goals : Z;
  assists : Z
}.
End IronMan.

Module PositionGoals.
Record t : Type := mk {
  position : string;
  total_goals : Z;
  total_assists : Z;
  player_count : Z;
  avg_goals : Q
}.
End PositionGoals.

Module ValuePlayer.
Record t : Type := mk {
  rank : Z;
  player_name : string;
  team : string;
  position : string;
  price : Q;
  goals : Z;
  assists : Z;
  ga_per_million : Q;
  minutes : Z
}.
End ValuePlayer.

Module CardRow.
Record t : Type := mk {
  player_name : string;
  team : string;
  position : string;
  yellows : Z;
  reds : Z;
  total_cards : Z;
  minutes : Z
}.
End CardRow.

Module Leaderboards.
Record t : Type := mk {
  goal_scorers : list GoalScorer.t;
  assist_leaders : list AssistLeader.t;
  iron_men : list IronMan.t;
  goals_by_position : list PositionGoals.t;
  best_value : list ValuePlayer.t;
  most_cards : list CardRow.t
}.
End Leaderboards.

(** [per90(stat, minutes)] *)
Definition per90 (stat minutes : Z) : py Q :=
  if minutes <? 90 then Ret 0%Q
  else q <- py_div (inject_Z stat) (inject_Z minutes) ;;
       Ret (safe_float (Some (q * 90)%Q) 2).

(** [sorted(fpl['team'].unique())] *)
Definition player_teams (fpl : list Player.t) : list string :=
  py_sort String.leb
    (elements (list_to_set (map Player.team fpl) : gset string)).

Definition iron_man_of (fpl : list Player.t) (team_name : string)
  : py IronMan.t :=
  let team_players :=
    List.filter (fun p => String.eqb (Player.team p) team_name) fpl in
  top_player <- py_first (sort_desc_Z Player.minutes team_players) ;;
  let mins := safe_int (Some (Player.minutes top_player)) in
  Ret (IronMan.mk (safe_str (Player.player_name top_player)) team_name
         (safe_str (Some (Player.position top_player))) mins
         (safe_float (Some (inject_Z mins / 90)%Q) 1)
         (safe_int (Some (Player.goals top_player)))
         (safe_int (Some (Player.assists top_player)))).

Definition position_goals_of (fpl : list Player.t) (pos : string)
  : py PositionGoals.t :=
  let pos_df := List.filter (fun p => String.eqb (Player.position p) pos) fpl in
  let total_g := safe_int (Some (col_sum Player.goals pos_df)) in
  let total_a := safe_int (Some (col_sum Player.assists pos_df)) in
  let count := len (List.filter (fun p => 0 <? Player.minutes p) pos_df) in
  avg <- (if 0 <? count
          then py_div (inject_Z total_g) (inject_Z count)
          else Ret 0%Q) ;;
  Ret (PositionGoals.mk pos total_g total_a count (safe_float (Some avg) 2)).

(** [(active['ga'] / active['price']).round(2)]: an element-wise division,
    which never raises. *)
Definition ga_per_million_of (p : Player.t) : Q :=
  py_round (inject_Z (Player.goals p + Player.assists p) / Player.price p) 2.

Definition Qlt_bool (a b : Q) : bool := negb (Qle_bool b a).

Section Leaderboards.
Variable strip_accents : string -> string.
Variable lower : string -> string.
Variable idx : XGIndex.t.

Definition goal_scorer_row (i : nat) (row : Player.t) : py GoalScorer.t :=
  let xg_data := enrich strip_accents lower idx row in
  let mins := safe_int (Some (Player.minutes row)) in
  let goals := safe_int (Some (Player.goals row)) in
  g90 <- per90 goals mins ;;
  Ret (GoalScorer.mk (Z.of_nat i + 1)
         (safe_str (Player.player_name row))
         (safe_str (Some (Player.team row)))
         (safe_str (Some (Player.position row)))
         goals (safe_int (Some (Player.assists row))) mins g90
         (safe_float (Some (Player.price row)) 1)
         (XGData.xg <$> xg_data) (XGData.shots <$> xg_data)).

Definition assist_leader_row (i : nat) (row : Player.t)
  : py AssistLeader.t :=
  let xg_data := enrich strip_accents lower idx row in
  let mins := safe_int (Some (Player.minutes row)) in
  let assists := safe_int (Some (Player.assists row)) in
  a90 <- per90 assists mins ;;
  Ret (AssistLeader.mk (Z.of_nat i + 1)
         (safe_str (Player.player_name row))
         (safe_str (Some (Player.team row)))
         (safe_str (Some (Player.position row)))
         assists (safe_int (Some (Player.goals row))) mins a90
         (XGData.xa <$> xg_data) (XGData.key_passes <$> xg_data)
         (safe_float (Some (Player.price row)) 1)).

Definition value_player_row (i : nat) (row : Player.t) : ValuePlayer.t :=
  ValuePlayer.mk (Z.of_nat i + 1)
    (safe_str (Player.player_name row))
    (safe_str (Some (Player.team row)))
    (safe_str (Some (Player.position row)))
    (safe_float (Some (Player.price row)) 1)
    (safe_int (Some (Player.goals row)))
    (safe_int (Some (Player.assists row)))
    (safe_float (Some (ga_per_million_of row)) 2)
    (safe_int (Some (Player.minutes row))).

Definition card_row (row : Player.t) : CardRow.t :=
  CardRow.mk
    (safe_str (Player.player_name row))
    (safe_str (Some (Player.team row)))
    (safe_str (Some (Player.position row)))
    (safe_int (Some (Player.yellow_cards row)))
    (safe_int (Some (Player.red_cards row)))
    (safe_int (Some (Player.yellow_cards row + Player.red_cards row)))
    (safe_int (Some (Player.minutes row))).

(** The body of [if has_fpl and players_df is not None] that builds
    [player_leaderboards].  Where pandas sorts ([sort_values]) the
    embedding keeps rows with equal keys in row order. *)
Definition player_leaderboards_of (fpl : list Player.t)
  : py Leaderboards.t :=
  let scorers_df :=
    take 20 (sort_desc_Z Player.goals
               (List.filter (fun p => 0 <? Player.goals p) fpl)) in
  goal_scorers <- py_for (fun ir => goal_scorer_row (fst ir) (snd ir))
                         (imap pair scorers_df) ;;
  let assists_df :=
    take 15 (sort_desc_Z Player.assists
               (List.filter (fun p => 0 <? Player.assists p) fpl)) in
  assist_leaders <- py_for (fun ir => assist_leader_row (fst ir) (snd ir))
                           (imap pair assists_df) ;;
  iron_men <- py_for (iron_man_of fpl) (player_teams fpl) ;;
  let iron_men := sort_desc_Z IronMan.minutes iron_men in
  goals_by_pos <- py_for (position_goals_of fpl) ["FWD"; "MID"; "DEF"; "GK"] ;;
  let active :=
    List.filter (fun p => (450 <=? Player.minutes p)
                          && Qlt_bool 0 (Player.price p)) fpl in
  let best_value := take 15 (sort_desc_Q ga_per_million_of active) in
  let value_players := imap value_player_row best_value in
  let card_df :=
    take 10 (sort_desc_Z (fun p => Player.yellow_cards p + Player.red_cards p)
               (List.filter
                  (fun p => 0 <? Player.yellow_cards p + Player.red_cards p)
                  fpl)) in
  let most_cards := map card_row card_df in
  Ret (Leaderboards.mk goal_scorers assist_leaders iron_men goals_by_pos
         value_players most_cards).
End Leaderboards.

(** ** Money vs points *)

Module MoneyBase.
(** A [money_rows] entry as first appended. *)
Record t : Type := mk {
  team : string;
  squad_value : Q;
  points : Z;
  played : Z;
  points_per_match : Q
}.
End MoneyBase.

Module MoneyRow.
(** A [money_rows] entry once the fitted line has been applied. *)
Record t : Type := mk {
  team : string;
  squad_value : Q;
  points : Z;
  played : Z;
  points_per_match : Q;
  expected_points : Q;
  over_under : Q
}.
End MoneyRow.

Module Regression.
Record t : Type := mk {
  slope : Q;
  intercept : Q;
  r_squared : Q
}.
End Regression.

Module MoneyVsPoints.
Record t : Type := mk {
  teams : list MoneyRow.t;
  regression : Regression.t
}.
End MoneyVsPoints.

(** [sum] over floats, left to right from 0. *)
Definition q_sum (l : list Q) : Q := fold_left Qplus l 0%Q.

(** [players_df.groupby('team')['price'].sum()]: one entry per team, in
    ascending team order. *)
Definition squad_values_of (players_df : list Player.t) : list (string * Q) :=
  map (fun team =>
         (team,
          q_sum (map Player.price
                   (List.filter (fun p => String.eqb (Player.team p) team)
                      players_df))))
      (player_teams players_df).

(** The body of the loop over [squad_values]; [None] is [continue]. *)
Definition money_base_row (table_rows : list Team.t) (sv : string * Q)
  : py (option MoneyBase.t) :=
  let team := fst sv in
  let value := safe_float (Some (snd sv)) 1 in
  match find_team table_rows team with
  | None => Ret None
  | Some team_row =>
      let pts := Team.points team_row in
      let played := Team.played team_row in
      ppm <- (if 0 <? played
              then py_div (inject_Z pts) (inject_Z played)
              else Ret 0%Q) ;;
      Ret (Some (MoneyBase.mk team value pts played (safe_float (Some ppm) 2)))
  end.

Module Fit.
(** The intermediate quantities of the least-squares fit. *)
Record t : Type := mk {
  mean_v : Q;
  mean_p : Q;
  cov : Q;
  var : Q;
  var_p : Q;
  slope : Q;
  intercept : Q;
  r2 : Q
}.
End Fit.

(** The regression of [points] on [values], before rounding, in exact
    arithmetic; [B64.linear_fit] below is the same computation in
    binary64. *)
Definition linear_fit (values : list Q) (points : list Z) : py Fit.t :=
  let n := len values in
  mean_v <- py_div (q_sum values) (inject_Z n) ;;
  mean_p <- py_div (inject_Z (col_sum id points)) (inject_Z n) ;;
  let cov :=
    q_sum (map (fun vp => ((fst vp - mean_v) * (inject_Z (snd vp) - mean_p))%Q)
               (zip values points)) in
  let var := q_sum (map (fun v => ((v - mean_v) ^ 2)%Q) values) in
  slope <- (if Qlt_bool 0 var then py_div cov var else Ret 0%Q) ;;
  let intercept := (mean_p - slope * mean_v)%Q in
  let var_p := q_sum (map (fun p => ((inject_Z p - mean_p) ^ 2)%Q) points) in
  r2 <- (if Qlt_bool 0 var && Qlt_bool 0 var_p
         then py_div (cov ^ 2)%Q (var * var_p)%Q
         else Ret 0%Q) ;;
  Ret (Fit.mk mean_v mean_p cov var var_p slope intercept r2).

Definition regression_of (f : Fit.t) : Regression.t :=
  Regression.mk (safe_float (Some (Fit.slope f)) 4)
                (safe_float (Some (Fit.intercept f)) 2)
                (safe_float (Some (Fit.r2 f)) 3).

Definition money_row (f : Fit.t) (row : MoneyBase.t) : MoneyRow.t :=
  let expected :=
    (Fit.slope f * MoneyBase.squad_value row + Fit.intercept f)%Q in
  MoneyRow.mk (MoneyBase.team row) (MoneyBase.squad_value row)
    (MoneyBase.points row) (MoneyBase.played row)
    (MoneyBase.points_per_match row)
    (safe_float (Some expected) 2)
    (safe_float (Some (inject_Z (MoneyBase.points row) - expected)%Q) 2).

(** The body of [if money_rows:]. *)
Definition money_fit (money_rows : list MoneyBase.t) : py MoneyVsPoints.t :=
  let values := map MoneyBase.squad_value money_rows in
  let points := map MoneyBase.points money_rows in
  f <- linear_fit values points ;;
  Ret (MoneyVsPoints.mk
         (sort_desc_Q MoneyRow.over_under (map (money_row f) money_rows))
         (regression_of f)).

Definition money_vs_points_of (table_rows : list Team.t)
  (players_df : list Player.t) : py (option MoneyVsPoints.t) :=
  rows <- py_for (money_base_row table_rows) (squad_values_of players_df) ;;
  let money_rows := omap id rows in
  match money_rows with
  | [] => Ret None
  | _ :: _ => m <- money_fit money_rows ;; Ret (Some m)
  end.

(** ** The run *)

Module Inputs.
(** The four files under data/cleaned; [None] is a file that does not
    exist, [Some []] a table without rows. *)
Record t : Type := mk {
  matches_clean : option (list Match.t);
  players : option (list Player.t);
  xg_teams : option (list XGTeam.t);
  xg_players : option (list XGPlayer.t)
}.
End Inputs.

Module SeasonStatus.
Record t : Type := mk {
  matches_played : Z;
  matches_total : Z;
  matchdays_played : Z;
  matchdays_total : Z;
  is_complete : bool;
  last_match_date : string
}.
End SeasonStatus.

Module Document.
(** The output document: the 14 entries named here.  The other 7 (the
    monthly trends, the home/away split, the referee statistics, the
    scoreline frequency, the season comparison, the top scorers and the
    player values) read further columns of the files; [Dashboard.t] below
    has all 21. *)
Record t : Type := mk {
  generated_at : string;
  season : string;
  source : string;
  total_matches : Z;
  total_goals : Z;
  goals_per_match : Q;
  season_status : SeasonStatus.t;
  league_table : list Team.t;
  cumulative_points : list (string * list CumPoint.t);
  xg_table : option (list XGTableRow.t);
  xg_vs_actual : option (list Scatter.t);
  shot_quality : option (list ShotQuality.t);
  player_leaderboards : option Leaderboards.t;
  money_vs_points : option MoneyVsPoints.t
}.

Definition set_generated_at (s : string) (d : t) : t :=
  mk s (season d) (source d) (total_matches d) (total_goals d)
     (goals_per_match d) (season_status d) (league_table d)
     (cumulative_points d) (xg_table d) (xg_vs_actual d) (shot_quality d)
     (player_leaderboards d) (money_vs_points d).
End Document.

(** How a run ends. *)
Inductive Outcome : Type :=
  | Exit (code : Z)
  | Crashed (e : py_error)
  | Saved (doc : Document.t).

(** [max] of a column; NaN on an empty one. *)
Definition z_max (l : list Z) : option Z :=
  match l with
  | [] => None
  | x :: l' => Some (fold_left Z.max l' x)
  end.

Definition string_max (l : list string) : option string :=
  match l with
  | [] => None
  | x :: l' =>
      Some (fold_left (fun a b => if String.ltb a b then b else a) l' x)
  end.

Definition games_per_team (current : list Match.t) : list Z :=
  map (fun t =>
         len (List.filter (fun m => String.eqb (Match.home_team m) t) current)
         + len (List.filter (fun m => String.eqb (Match.away_team m) t) current))
      (teams_of current).

Definition season_status_of (current : list Match.t) : SeasonStatus.t :=
  let matches_played := len current in
  let matchdays_played := safe_int (z_max (games_per_team current)) in
  let season_complete := FULL_SEASON_MATCHES <=? matches_played in
  let last_date :=
    if 0 <? len current
    then safe_str (string_max (map Match.date current))
    else "" in
  SeasonStatus.mk (safe_int (Some matches_played)) FULL_SEASON_MATCHES
    matchdays_played 38 season_complete last_date.

(** [has_xg]: both xG files were read. *)
Definition has_xg (inp : Inputs.t) : bool :=
  match Inputs.xg_teams inp, Inputs.xg_players inp with
  | Some _, Some _ => true
  | _, _ => false
  end.

Section Run.
Variable strip_accents : string -> string.
Variable lower : string -> string.

(** [main] once matches_clean.csv has been read into [df]. *)
Definition transform (df : list Match.t) (inp : Inputs.t) (now : string)
  : py Document.t :=
  let current :=
    List.filter (fun m => String.eqb (Match.season m) CURRENT_SEASON) df in
  let matches_played := len current in
  let season_status := season_status_of current in
  table_rows <- league_table current ;;
  let cumulative := cumulative_points current in
  let total := if 0 <? matches_played then matches_played else 1 in
  xg <- (match has_xg inp, Inputs.xg_teams inp with
         | true, Some xg_teams_df =>
             sq <- shot_quality_of table_rows xg_teams_df ;;
             Ret (Some (xg_table_of table_rows xg_teams_df),
                  Some (xg_vs_actual_of xg_teams_df),
                  Some sq)
         | _, _ => Ret (None, None, None)
         end) ;;
  player_leaderboards <-
    (match Inputs.players inp with
     | Some players_df =>
         let idx :=
           match has_xg inp, Inputs.xg_players inp with
           | true, Some xg_players_df =>
               build_index strip_accents lower xg_players_df
           | _, _ => XGIndex.empty
           end in
         lb <- player_leaderboards_of strip_accents lower idx players_df ;;
         Ret (Some lb)
     | None => Ret None
     end) ;;
  money_vs_points <-
    (match Inputs.players inp with
     | Some players_df => money_vs_points_of table_rows players_df
     | None => Ret None
     end) ;;
  let total_goals := safe_int (Some (col_sum Match.total_goals current)) in
  gpm <- (if 0 <? total
          then py_div (inject_Z total_goals) (inject_Z total)
          else Ret 0%Q) ;;
  Ret (Document.mk now CURRENT_SEASON "football-data.co.uk"
         (safe_int (Some matches_played)) total_goals
         (safe_float (Some gpm) 2) season_status table_rows cumulative
         (fst (fst xg)) (snd (fst xg)) (snd xg)
         player_leaderboards money_vs_points).

(** [main()]; [now] is what [pd.Timestamp.now().isoformat()] returns. *)
Definition main (inp : Inputs.t) (now : string) : Outcome :=
  match Inputs.matches_clean inp with
  | None => Exit 1
  | Some df =>
      match transform df inp now with
      | Ret doc => Saved doc
      | Raise e => Crashed e
      end
  end.
End Run.

(** ** Sample inputs of the examples *)

(** A goalless draw in which the home side had five shots, none on
    target, and the visitors none at all. *)
Definition sample_goalless : Match.t :=
  Match.mk CURRENT_SEASON "2025-08-16" "Burnley" "Arsenal" 0 0 Result.D
    5 0 0 0 0.

Definition sample_xg_arsenal : XGTeam.t :=
  XGTeam.mk "Arsenal" (Some (6 # 5)%Q) (Some (1 # 2)%Q) (Some 0) (Some 0).

(** ** Vocabulary of the statements *)

(** What a stable sort guarantees.  [before] is a relation that holds
    between an element of the input and every element after it: the sort
    puts [a] ahead of [b] only if [a]'s key is not larger, and, when the
    keys are equal, only if [a] was ahead of [b] already. *)
Definition ranked {A : Type} (leb : A -> A -> bool)
  (before : A -> A -> Prop) (a b : A) : Prop :=
  leb a b = true /\ (leb b a = true -> before a b).

(** The order of 3-tuples, as a proposition. *)
Definition tuple3_le (a b : Z * Z * Z) : Prop :=
  a.1.1 < b.1.1
  \/ (a.1.1 = b.1.1 /\ (a.1.2 < b.1.2 \/ (a.1.2 = b.1.2 /\ a.2 <= b.2))).

(** The quantities of the least-squares fit of points on squad values:
    the two means, the sum of the products of the deviations (the
    covariance, up to the common factor 1/n) and the sums of the squared
    deviations (the variances, up to the same factor). *)
Definition mean_values (values : list Q) : Q :=
  (q_sum values / inject_Z (len values))%Q.

Definition mean_points (values : list Q) (points : list Z) : Q :=
  (inject_Z (col_sum id points) / inject_Z (len values))%Q.

Definition covariance (values : list Q) (points : list Z) : Q :=
  q_sum (map (fun vp => ((fst vp - mean_values values)
                         * (inject_Z (snd vp) - mean_points values points))%Q)
             (zip values points)).

Definition variance (values : list Q) : Q :=
  q_sum (map (fun v => ((v - mean_values values) ^ 2)%Q) values).

Definition variance_points (values : list Q) (points : list Z) : Q :=
  q_sum (map (fun p => ((inject_Z p - mean_points values points) ^ 2)%Q)
             points).

Definition ols_slope (values : list Q) (points : list Z) : Q :=
  if Qlt_bool 0 (variance values)
  then (covariance values points / variance values)%Q
  else 0%Q.

Definition ols_intercept (values : list Q) (points : list Z) : Q :=
  (mean_points values points
   - ols_slope values points * mean_values values)%Q.

Definition ols_r_squared (values : list Q) (points : list Z) : Q :=
  if Qlt_bool 0 (variance values) && Qlt_bool 0 (variance_points values points)
  then (covariance values points ^ 2
        / (variance values * variance_points values points))%Q
  else 0%Q.

(** The leaderboards built from a player table without rows. *)
Definition empty_leaderboards : Leaderboards.t :=
  Leaderboards.mk [] [] []
    [PositionGoals.mk "FWD" 0 0 0 0; PositionGoals.mk "MID" 0 0 0 0;
     PositionGoals.mk "DEF" 0 0 0 0; PositionGoals.mk "GK" 0 0 0 0]
    [] [].

(** The status section of a season without a match. *)
Definition empty_season_status : SeasonStatus.t :=
  SeasonStatus.mk 0 FULL_SEASON_MATCHES 0 38 false "".

(** Inputs of the examples: the match table alone, without a row or with
    one match, and the same with a player table without rows. *)
Definition sample_no_match : Inputs.t := Inputs.mk (Some []) None None None.

Definition sample_one_match : Inputs.t :=
  Inputs.mk (Some [sample_goalless]) None None None.

Definition sample_no_player : Inputs.t :=
  Inputs.mk (Some [sample_goalless]) (Some []) None None.

(** The teams an xG player row is indexed under. *)
Definition record_teams (xr : XGPlayer.t) : list string :=
  split_teams (safe_str (XGPlayer.team xr)).


(** Every key of [idx2] that [idx1] has, and every candidate. *)
Definition index_le (idx1 idx2 : XGIndex.t) : Prop :=
  (forall k, is_Some (XGIndex.xg_by_name idx1 !! k) ->
             is_Some (XGIndex.xg_by_name idx2 !! k))
  /\ (forall k, is_Some (XGIndex.xg_by_last idx1 !! k) ->
                is_Some (XGIndex.xg_by_last idx2 !! k))
  /\ (forall t c, In c (XGIndex.xg_by_team idx1 !!! t) ->
                  In c (XGIndex.xg_by_team idx2 !!! t)).

(** A player is found under [team] by full name, by last name and among
    the team's candidates. *)
Definition index_covers (idx : XGIndex.t) (name last name_norm : string)
  (data : XGData.t) (team : string) : Prop :=
  is_Some (XGIndex.xg_by_name idx !! (name, team))
  /\ is_Some (XGIndex.xg_by_last idx !! (last, team))
  /\ In (name_norm, data) (XGIndex.xg_by_team idx !!! team).

Section MatchingVocabulary.
Variable strip_accents : string -> string.
Variable lower : string -> string.

End MatchingVocabulary.

(** The example of the specification: the xG row of Erling Haaland and
    the fantasy row of Haaland, whose full name is not given. *)
Definition sample_xg_haaland : XGPlayer.t :=
  XGPlayer.mk (Some "Erling Haaland") (Some "Manchester City")
    (Some (181 # 10)%Q) (Some (21 # 10)%Q) (Some 95) (Some 18)
    (Some (152 # 10)%Q).

Definition sample_haaland : Player.t :=
  Player.mk (Some "Haaland") None "Manchester City" "FWD" 20 3 1800 1 0
    (141 # 10)%Q.

(** The fixtures of a team in a season, each with its date and the points
    it brought the team, home fixtures first. *)
Definition team_fixtures (current : list Match.t) (team : string)
  : list (string * Z) :=
  map (fun m => (Match.date m, home_pts (Match.result m)))
      (List.filter (fun m => String.eqb (Match.home_team m) team) current)
  ++ map (fun m => (Match.date m, away_pts (Match.result m)))
         (List.filter (fun m => String.eqb (Match.away_team m) team) current).

(** ** Vocabulary of the further properties *)

(** The fixtures a team played at home and away. *)
Definition home_fixtures (ms : list Match.t) (team : string) : list Match.t :=
  List.filter (fun m => String.eqb (Match.home_team m) team) ms.

Definition away_fixtures (ms : list Match.t) (team : string) : list Match.t :=
  List.filter (fun m => String.eqb (Match.away_team m) team) ms.

(** [kept] are the [n] best rows of [pool], best first: [before a b] says
    that [a] ranks at least as high as [b]. *)
Definition top_of {A : Type} (before : A -> A -> Prop) (n : nat)
  (pool kept : list A) : Prop :=
  length kept = Nat.min n (length pool)
  /\ StronglySorted before kept
  /\ exists rest,
       Permutation (kept ++ rest) pool
       /\ forall x y, In x kept -> In y rest -> before x y.

(** [v] is [x] rounded to [decimals] decimals: a number with that many
    decimals that is nearest to [x].  Where [x] lies midway between two
    such numbers either of them is one, so the relation does not depend on
    how a tie is broken, nor on the last bit of the quotient that was
    rounded. *)
Definition rounds_to (decimals : nat) (x v : Q) : Prop :=
  (exists k : Z, (v == inject_Z k / inject_Z (pow10 decimals))%Q)
  /\ (Qabs (v - x) <= (1 # 2) / inject_Z (pow10 decimals))%Q.

(** The number in a cell that [safe_float] reads: an empty cell counts as
    0. *)
Definition cell_or_zero (cell : option Q) : Q :=
  match cell with
  | Some x => x
  | None => 0%Q
  end.

(** What [per90] returns. *)
Definition per90_value (stat minutes : Z) : Q :=
  if minutes <? 90 then 0%Q
  else py_round (inject_Z stat / inject_Z minutes * 90) 2.

(** A per-90 rate: 0 below 90 minutes, else the statistic over the minutes
    times 90, to 2 decimals. *)
Definition per90_of (stat minutes : Z) (v : Q) : Prop :=
  if minutes <? 90 then v = 0%Q
  else rounds_to 2 (inject_Z stat / inject_Z minutes * 90) v.

Section BoardVocabulary.
Variable strip_accents : string -> string.
Variable lower : string -> string.
Variable idx : XGIndex.t.

(** A board row and the player row it was made from. *)
Definition goal_scorer_of (p : Player.t) (g : GoalScorer.t) : Prop :=
  GoalScorer.player_name g = safe_str (Player.player_name p)
  /\ GoalScorer.team g = Player.team p
  /\ GoalScorer.position g = Player.position p
  /\ GoalScorer.goals g = Player.goals p
  /\ GoalScorer.assists g = Player.assists p
  /\ GoalScorer.minutes g = Player.minutes p
  /\ per90_of (Player.goals p) (Player.minutes p) (GoalScorer.goals_per_90 g)
  /\ GoalScorer.price g = py_round (Player.price p) 1
  /\ GoalScorer.xg g = XGData.xg <$> enrich strip_accents lower idx p
  /\ GoalScorer.shots g = XGData.shots <$> enrich strip_accents lower idx p.

Definition assist_leader_of (p : Player.t) (a : AssistLeader.t) : Prop :=
  AssistLeader.player_name a = safe_str (Player.player_name p)
  /\ AssistLeader.team a = Player.team p
  /\ AssistLeader.position a = Player.position p
  /\ AssistLeader.assists a = Player.assists p
  /\ AssistLeader.goals a = Player.goals p
  /\ AssistLeader.minutes a = Player.minutes p
  /\ per90_of (Player.assists p) (Player.minutes p)
       (AssistLeader.assists_per_90 a)
  /\ AssistLeader.xa a = XGData.xa <$> enrich strip_accents lower idx p
  /\ AssistLeader.key_passes a
     = XGData.key_passes <$> enrich strip_accents lower idx p
  /\ AssistLeader.price a = py_round (Player.price p) 1.
End BoardVocabulary.

Definition value_player_of (p : Player.t) (v : ValuePlayer.t) : Prop :=
  ValuePlayer.player_name v = safe_str (Player.player_name p)
  /\ ValuePlayer.team v = Player.team p
  /\ ValuePlayer.position v = Player.position p
  /\ ValuePlayer.price v = py_round (Player.price p) 1
  /\ ValuePlayer.goals v = Player.goals p
  /\ ValuePlayer.assists v = Player.assists p
  /\ ValuePlayer.ga_per_million v = ga_per_million_of p
  /\ ValuePlayer.minutes v = Player.minutes p.

Definition card_row_of (p : Player.t) (c : CardRow.t) : Prop :=
  CardRow.player_name c = safe_str (Player.player_name p)
  /\ CardRow.team c = Player.team p
  /\ CardRow.position c = Player.position p
  /\ CardRow.yellows c = Player.yellow_cards p
  /\ CardRow.reds c = Player.red_cards p
  /\ CardRow.total_cards c = Player.yellow_cards p + Player.red_cards p
  /\ CardRow.minutes c = Player.minutes p.

Definition iron_man_row_of (p : Player.t) (r : IronMan.t) : Prop :=
  IronMan.player_name r = safe_str (Player.player_name p)
  /\ IronMan.team r = Player.team p
  /\ IronMan.position r = Player.position p
  /\ IronMan.minutes r = Player.minutes p
  /\ IronMan.games_equivalent r = py_round (inject_Z (Player.minutes p) / 90) 1
  /\ IronMan.goals r = Player.goals p
  /\ IronMan.assists r = Player.assists p.

(** The lookup indexes a run builds: empty unless both xG files were
    read. *)
Definition xg_index_of (strip_accents lower : string -> string)
  (inp : Inputs.t) : XGIndex.t :=
  match has_xg inp, Inputs.xg_players inp with
  | true, Some xg_players_df => build_index strip_accents lower xg_players_df
  | _, _ => XGIndex.empty
  end.

(** Inputs of the examples: one match and one player, without xG files. *)
Definition sample_no_xg : Inputs.t :=
  Inputs.mk (Some [sample_goalless]) (Some [sample_haaland]) None None.

(** The teams of the player table that have a row in the league table, in
    ascending order of name. *)
Definition listed_teams (table_rows : list Team.t)
  (players_df : list Player.t) : list string :=
  List.filter (fun t => match find_team table_rows t with
                        | Some _ => true
                        | None => false
                        end)
    (player_teams players_df).

(** The columns of a money row, against the league-table row and the
    player prices they were made from. *)
Definition money_columns (table_rows : list Team.t)
  (players_df : list Player.t) (team : string) (squad_value : Q)
  (pts played : Z) (points_per_match : Q) : Prop :=
  exists tr,
    find_team table_rows team = Some tr
    /\ pts = Team.points tr
    /\ played = Team.played tr
    /\ squad_value
       = py_round
           (q_sum (map Player.price
                     (List.filter (fun p => String.eqb (Player.team p) team)
                        players_df))) 1
    /\ points_per_match
       = (if 0 <? Team.played tr
          then py_round (inject_Z (Team.points tr)
                         / inject_Z (Team.played tr)) 2
          else 0%Q).

Definition money_row_of (table_rows : list Team.t)
  (players_df : list Player.t) (r : MoneyRow.t) : Prop :=
  money_columns table_rows players_df (MoneyRow.team r)
    (MoneyRow.squad_value r) (MoneyRow.points r) (MoneyRow.played r)
    (MoneyRow.points_per_match r).

Definition money_base_of (table_rows : list Team.t)
  (players_df : list Player.t) (b : MoneyBase.t) : Prop :=
  money_columns table_rows players_df (MoneyBase.team b)
    (MoneyBase.squad_value b) (MoneyBase.points b) (MoneyBase.played b)
    (MoneyBase.points_per_match b).

(** An xG row that has a player name with key [key] and lists [team]. *)
Definition keyed_under (name_key : string -> string) (key team : string)
  (xr : XGPlayer.t) : bool :=
  match XGPlayer.player_name xr with
  | Some n =>
      String.eqb (name_key n) key
      && existsb (String.eqb team) (record_teams xr)
  | None => false
  end.

(** An xG row that has a player name whose normal form contains [clean]
    and that lists [team]. *)
Definition contains_under (strip_accents lower : string -> string)
  (clean team : string) (xr : XGPlayer.t) : bool :=
  match XGPlayer.player_name xr with
  | Some n =>
      is_substring clean (normalize strip_accents lower n)
      && existsb (String.eqb team) (record_teams xr)
  | None => false
  end.

(** The candidates an xG row adds to the list of [team]: one for each time
    the row lists the team. *)
Definition candidates_of (strip_accents lower : string -> string)
  (team : string) (xr : XGPlayer.t) : list (string * XGData.t) :=
  match XGPlayer.player_name xr with
  | Some n =>
      map (fun _ => (normalize strip_accents lower n, xg_data_of xr))
          (List.filter (String.eqb team) (record_teams xr))
  | None => []
  end.

(** ** JSON values and [sanitize_for_json] *)

Module PyFloat.
(** A Python float: a finite number, or one of the three values that are
    not. *)
Inductive t : Type :=
  | Finite (q : Q)
  | NaN
  | PosInf
  | NegInf.
End PyFloat.

Module Json.
(** The values the output document is made of.  A dictionary keeps its
    keys in insertion order. *)
Inductive t : Type :=
  | JNone
  | JBool (b : bool)
  | JInt (z : Z)
  | JFloat (f : PyFloat.t)
  | JStr (s : string)
  | JList (l : list t)
  | JDict (d : list (string * t)).

(** Structural induction, through the lists and the dictionaries. *)
Fixpoint induction (P : t -> Prop)
  (HNone : P JNone) (HBool : forall b, P (JBool b))
  (HInt : forall z, P (JInt z)) (HFloat : forall f, P (JFloat f))
  (HStr : forall s, P (JStr s))
  (HList : forall l, List.Forall P l -> P (JList l))
  (HDict : forall d, List.Forall (fun kv => P (snd kv)) d -> P (JDict d))
  (j : t) {struct j} : P j :=
  match j with
  | JNone => HNone
  | JBool b => HBool b
  | JInt z => HInt z
  | JFloat f => HFloat f
  | JStr s => HStr s
  | JList l =>
      HList l
        ((fix go (l : list t) : List.Forall P l :=
            match l with
            | [] => @List.Forall_nil _ P
            | x :: l' =>
                @List.Forall_cons _ P x l'
                  (induction P HNone HBool HInt HFloat HStr HList HDict x)
                  (go l')
            end) l)
  | JDict d =>
      HDict d
        ((fix go (d : list (string * t))
            : List.Forall (fun kv => P (snd kv)) d :=
            match d with
            | [] => @List.Forall_nil _ (fun kv => P (snd kv))
            | (k, v) :: d' =>
                @List.Forall_cons _ (fun kv => P (snd kv)) (k, v) d'
                  (induction P HNone HBool HInt HFloat HStr HList HDict v)
                  (go d')
            end) d)
  end.
End Json.

(** [sanitize_for_json(obj)] *)
Fixpoint sanitize_for_json (obj : Json.t) : Json.t :=
  match obj with
  | Json.JDict d =>
      Json.JDict (map (fun kv => let '(k, v) := kv in (k, sanitize_for_json v))
                      d)
  | Json.JList l => Json.JList (map sanitize_for_json l)
  | Json.JFloat f =>
      match f with
      | PyFloat.NaN => Json.JFloat (PyFloat.Finite 0)
      | PyFloat.PosInf | PyFloat.NegInf => Json.JFloat (PyFloat.Finite 0)
      | PyFloat.Finite _ => obj
      end
  | _ => obj
  end.

(** No float anywhere in the value is NaN or infinite. *)
Fixpoint json_finite (j : Json.t) : bool :=
  match j with
  | Json.JFloat (PyFloat.Finite _) => true
  | Json.JFloat _ => false
  | Json.JList l => forallb json_finite l
  | Json.JDict d => forallb (fun kv => let '(_, v) := kv in json_finite v) d
  | _ => true
  end.

(** The keys of a dictionary, in order; no keys for any other value. *)
Definition json_keys (j : Json.t) : list string :=
  match j with
  | Json.JDict d => map fst d
  | _ => []
  end.

(** ** The match aggregators *)

(** [s[:n]]: the first [n] characters of a text, a character being a byte
    that is not a UTF-8 continuation byte together with the continuation
    bytes that follow it. *)
Fixpoint str_prefix (n : nat) (s : string) : string :=
  match s with
  | EmptyString => ""
  | String c s' =>
      if is_continuation c then String c (str_prefix n s')
      else match n with
           | O => ""
           | S n' => String c (str_prefix n' s')
           end
  end.

Module MonthRow.
Record t : Type := mk {
  month : string;
  matches : Z;
  total_goals : Z;
  avg_goals : Q;
  home_wins : Z;
  draws : Z;
  away_wins : Z
}.
End MonthRow.

(** [current_with_month['date'].str[:7]] *)
Definition month_of (m : Match.t) : string := str_prefix 7 (Match.date m).

(** The keys of [groupby('month')], which come in ascending order. *)
Definition months_of (current : list Match.t) : list string :=
  py_sort String.leb
    (elements (list_to_set (map month_of current) : gset string)).

(** One group of [groupby('month').agg(...)] with its [avg_goals], as the
    list comprehension reads it.  [matches] counts the match ids of the
    group, and every row has one.  A group has at least one match, so the
    division is by a positive count. *)
Definition monthly_row (current : list Match.t) (month : string) : MonthRow.t :=
  let group := List.filter (fun m => String.eqb (month_of m) month) current in
  let matches := len group in
  let total_goals := col_sum Match.total_goals group in
  let avg_goals := py_round (inject_Z total_goals / inject_Z matches) 2 in
  MonthRow.mk month (safe_int (Some matches)) (safe_int (Some total_goals))
    (safe_float (Some avg_goals) 2)
    (safe_int (Some (len (List.filter (has_result Result.H) group))))
    (safe_int (Some (len (List.filter (has_result Result.D) group))))
    (safe_int (Some (len (List.filter (has_result Result.A) group)))).

Definition monthly_trends_of (current : list Match.t) : list MonthRow.t :=
  sort_values MonthRow.month (map (monthly_row current) (months_of current)).

Module HomeAway.
Record t : Type := mk {
  home_wins : Z;
  draws : Z;
  away_wins : Z;
  home_goals_avg : Q;
  away_goals_avg : Q;
  total_matches : Z;
  home_win_pct : Q;
  draw_pct : Q;
  away_win_pct : Q
}.
End HomeAway.

(** [col.mean()]: NaN on a column without rows. *)
Definition col_mean {A : Type} (f : A -> Z) (l : list A) : option Q :=
  match l with
  | [] => None
  | _ :: _ => Some (inject_Z (col_sum f l) / inject_Z (len l))%Q
  end.

Definition home_away_of (current : list Match.t) : py HomeAway.t :=
  let matches_played := len current in
  let home_wins :=
    safe_int (Some (len (List.filter (has_result Result.H) current))) in
  let draws :=
    safe_int (Some (len (List.filter (has_result Result.D) current))) in
  let away_wins :=
    safe_int (Some (len (List.filter (has_result Result.A) current))) in
  let total := if 0 <? matches_played then matches_played else 1 in
  hq <- py_div (inject_Z home_wins) (inject_Z total) ;;
  dq <- py_div (inject_Z draws) (inject_Z total) ;;
  aq <- py_div (inject_Z away_wins) (inject_Z total) ;;
  Ret (HomeAway.mk home_wins draws away_wins
         (safe_float (col_mean Match.home_goals current) 2)
         (safe_float (col_mean Match.away_goals current) 2)
         (safe_int (Some matches_played))
         (safe_float (Some (hq * 100)%Q) 2)
         (safe_float (Some (dq * 100)%Q) 2)
         (safe_float (Some (aq * 100)%Q) 2)).

(** ** Scoreline frequency *)

(** [str(n)] of an integer. *)
Definition py_str_int (z : Z) : string := NilZero.string_of_int (Z.to_int z).

(** [home_goals.astype(str) + '-' + away_goals.astype(str)] *)
Definition score_of (m : Match.t) : string :=
  py_str_int (Match.home_goals m) ++ "-" ++ py_str_int (Match.away_goals m).

(** The distinct values of a column, in order of first appearance. *)
Definition unique (l : list string) : list string :=
  rev (nodup string_dec (rev l)).

(** [col.value_counts()]: each distinct value with the number of its
    occurrences, most frequent first.  pandas leaves the relative order of
    values with equal counts unspecified; the embedding keeps them in order
    of first appearance. *)
Definition value_counts (l : list string) : list (string * Z) :=
  sort_desc_Z snd
    (map (fun v => (v, len (List.filter (String.eqb v) l))) (unique l)).

Module ScoreCount.
Record t : Type := mk { score : string; count : Z }.
End ScoreCount.

Definition scoreline_frequency_of (current : list Match.t)
  : list ScoreCount.t :=
  map (fun sc => ScoreCount.mk (fst sc) (safe_int (Some (snd sc))))
      (take 10 (value_counts (map score_of current))).

(** The number of matches of the season that ended [score]. *)
Definition matches_with_score (current : list Match.t) (score : string) : Z :=
  len (List.filter (fun m => String.eqb (score_of m) score) current).

(** ** Player value *)

Module PlayerValue.
Record t : Type := mk {
  player_name : string;
  team : string;
  price : Q;
  goals : Z;
  goals_per_million : Q
}.
End PlayerValue.

(** [(value_df['goals'] / value_df['price']).round(2)]: an element-wise
    division, which never raises. *)
Definition goals_per_million_of (p : Player.t) : Q :=
  py_round (inject_Z (Player.goals p) / Player.price p) 2.

Definition player_value_row (row : Player.t) : PlayerValue.t :=
  PlayerValue.mk
    (safe_str (Player.player_name row))
    (safe_str (Some (Player.team row)))
    (safe_float (Some (Player.price row)) 1)
    (safe_int (Some (Player.goals row)))
    (safe_float (Some (goals_per_million_of row)) 2).

(** The body of [if has_fpl and players_df is not None] that builds
    [player_value]; the player table has its [price] column. *)
Definition player_value_of (players_df : list Player.t)
  : list PlayerValue.t :=
  let value_df := List.filter (fun p => 0 <? Player.goals p) players_df in
  let value_df := List.filter (fun p => Qlt_bool 0 (Player.price p)) value_df in
  map player_value_row (take 10 (sort_desc_Q goals_per_million_of value_df)).

(** A [player_value] row and the player row it was made from. *)
Definition player_value_row_of (p : Player.t) (v : PlayerValue.t) : Prop :=
  PlayerValue.player_name v = safe_str (Player.player_name p)
  /\ PlayerValue.team v = Player.team p
  /\ PlayerValue.price v = py_round (Player.price p) 1
  /\ PlayerValue.goals v = Player.goals p
  /\ PlayerValue.goals_per_million v
     = py_round (inject_Z (Player.goals p) / Player.price p) 2.
(** A text without a minus sign. *)
Fixpoint dash_free (s : string) : bool :=
  match s with
  | EmptyString => true
  | String c s' => negb (Ascii.eqb c "-") && dash_free s'
  end.

(** The number of matches of the season with the goals of [m]. *)
Definition matches_with_goals (current : list Match.t) (m : Match.t) : Z :=
  len (List.filter
         (fun m' => (Match.home_goals m' =? Match.home_goals m)
                    && (Match.away_goals m' =? Match.away_goals m))
         current).

(** ** Referee statistics and the season comparison *)

Module MatchStats.
(** A row of matches_clean.csv with the further columns the referee
    statistics and the season comparison read.  A referee cell may be
    empty. *)
Record t : Type := mk {
  row : Match.t;
  referee : option string;
  total_fouls : Z;
  total_cards : Z;
  home_reds : Z;
  away_reds : Z
}.

Definition total_goals (m : t) : Z := Match.total_goals (row m).
Definition season (m : t) : string := Match.season (row m).
End MatchStats.

Module RefRow.
Record t : Type := mk {
  referee : string;
  matches : Z;
  avg_goals : Q;
  avg_fouls : Q;
  avg_cards : Q;
  total_reds : Z
}.
End RefRow.

Definition refereed_by (ref : string) (m : MatchStats.t) : bool :=
  match MatchStats.referee m with
  | Some r => String.eqb r ref
  | None => false
  end.

(** The keys of [groupby('referee')]: the referees in ascending order,
    rows without one being left out. *)
Definition referees_of (current : list MatchStats.t) : list string :=
  py_sort String.leb
    (elements (list_to_set (omap MatchStats.referee current) : gset string)).

(** The body of the loop over the groups; [None] is [continue]. *)
Definition referee_row (current : list MatchStats.t) (ref : string)
  : option RefRow.t :=
  let group := List.filter (refereed_by ref) current in
  let n := len group in
  if n <? 3 then None
  else Some (RefRow.mk ref (safe_int (Some n))
               (safe_float (col_mean MatchStats.total_goals group) 2)
               (safe_float (col_mean MatchStats.total_fouls group) 2)
               (safe_float (col_mean MatchStats.total_cards group) 2)
               (safe_int (Some (col_sum MatchStats.home_reds group
                                + col_sum MatchStats.away_reds group)))).

Definition referee_stats_of (current : list MatchStats.t) : list RefRow.t :=
  sort_desc_Q RefRow.avg_cards
    (omap (referee_row current) (referees_of current)).

(** The seasons of [ACTIVE_SEASONS], in the order of the dictionary. *)
Definition ACTIVE_SEASONS : list string :=
  ["2022-23"; "2023-24"; "2024-25"; "2025-26"].

Module SeasonRow.
Record t : Type := mk {
  season : string;
  matches : Z;
  avg_goals : Q;
  avg_cards : Q;
  home_win_pct : Q;
  avg_fouls : Q
}.
End SeasonRow.

Definition in_season (label : string) (m : MatchStats.t) : bool :=
  String.eqb (MatchStats.season m) label.

Definition home_win (m : MatchStats.t) : bool :=
  has_result Result.H (MatchStats.row m).

(** The body of the loop over the seasons; [None] is [continue].  The
    share of home wins divides a column sum by the positive length of the
    season's table. *)
Definition season_row (df : list MatchStats.t) (season_label : string)
  : option SeasonRow.t :=
  let s := List.filter (in_season season_label) df in
  if len s =? 0 then None
  else Some (SeasonRow.mk season_label (safe_int (Some (len s)))
               (safe_float (col_mean MatchStats.total_goals s) 2)
               (safe_float (col_mean MatchStats.total_cards s) 2)
               (safe_float
                  (Some (inject_Z (len (List.filter home_win s))
                         / inject_Z (len s) * 100)%Q) 2)
               (safe_float (col_mean MatchStats.total_fouls s) 2)).

Definition season_comparison_of (df : list MatchStats.t) : list SeasonRow.t :=
  omap (season_row df) ACTIVE_SEASONS.

(** The rounded mean of a column over a group with at least one row. *)
Definition rounded_mean {A : Type} (f : A -> Z) (group : list A) : Q :=
  py_round (inject_Z (col_sum f group) / inject_Z (len group)) 2.

(** The mean of a column over a group with at least one row. *)
Definition mean_of {A : Type} (f : A -> Z) (group : list A) : Q :=
  (inject_Z (col_sum f group) / inject_Z (len group))%Q.

(** ** Top scorers *)

Module XGPlayerStats.
(** A row of xg_players.csv with the further columns [top_scorers]
    reads; a [None] cell is NaN. *)
Record t : Type := mk {
  player : XGPlayer.t;
  goals : option Z;
  assists : option Z;
  minutes : option Z;
  position : option string
}.
End XGPlayerStats.

Module TopScorer.
Record t : Type := mk {
  player_name : string;
  team : string;
  goals : Z;
  assists : Z;
  xg : Q;
  xa : Q;
  minutes : Z;
  goals_minus_xg : Q;
  position : string
}.
End TopScorer.

(** [str(cell)] of a text cell: NaN prints as nan. *)
Definition py_str_cell (val : option string) : string :=
  match val with
  | Some s => s
  | None => "nan"
  end.

Definition top_scorer_row (row : XGPlayerStats.t) : TopScorer.t :=
  let goals := safe_int (XGPlayerStats.goals row) in
  let xg_val := safe_float (XGPlayer.xg (XGPlayerStats.player row)) 2 in
  TopScorer.mk
    (safe_str (XGPlayer.player_name (XGPlayerStats.player row)))
    (safe_str (XGPlayer.team (XGPlayerStats.player row)))
    goals
    (safe_int (XGPlayerStats.assists row))
    xg_val
    (safe_float (XGPlayer.xa (XGPlayerStats.player row)) 2)
    (safe_int (XGPlayerStats.minutes row))
    (safe_float (Some (inject_Z goals - xg_val)%Q) 2)
    (py_str_cell (XGPlayerStats.position row)).

(** A named row with at least one goal; a NaN goal cell compares false. *)
Definition is_scorer (row : XGPlayerStats.t) : bool :=
  match XGPlayer.player_name (XGPlayerStats.player row) with
  | Some _ =>
      match XGPlayerStats.goals row with
      | Some g => 0 <? g
      | None => false
      end
  | None => false
  end.

(** The body of [if has_xg and xg_players_df is not None] that builds
    [top_scorers]. *)
Definition top_scorers_of (xg_players_df : list XGPlayerStats.t)
  : list TopScorer.t :=
  let xg_players_clean :=
    List.filter
      (fun r => match XGPlayer.player_name (XGPlayerStats.player r) with
                | Some _ => true
                | None => false
                end) xg_players_df in
  let scorers :=
    List.filter
      (fun r => match XGPlayerStats.goals r with
                | Some g => 0 <? g
                | None => false
                end) xg_players_clean in
  map top_scorer_row
    (take 10 (sort_desc_Z (fun r => safe_int (XGPlayerStats.goals r)) scorers)).

(** A [top_scorers] row and the xG row it was made from. *)
Definition top_scorer_of (p : XGPlayerStats.t) (s : TopScorer.t) : Prop :=
  Some (TopScorer.player_name s) = XGPlayer.player_name (XGPlayerStats.player p)
  /\ TopScorer.team s = safe_str (XGPlayer.team (XGPlayerStats.player p))
  /\ Some (TopScorer.goals s) = XGPlayerStats.goals p
  /\ TopScorer.assists s = safe_int (XGPlayerStats.assists p)
  /\ TopScorer.xg s = safe_float (XGPlayer.xg (XGPlayerStats.player p)) 2
  /\ TopScorer.xa s = safe_float (XGPlayer.xa (XGPlayerStats.player p)) 2
  /\ TopScorer.minutes s = safe_int (XGPlayerStats.minutes p)
  /\ TopScorer.goals_minus_xg s
     = py_round (inject_Z (TopScorer.goals s) - TopScorer.xg s) 2
  /\ TopScorer.position s = py_str_cell (XGPlayerStats.position p).

(** ** Team names: config.py and the three normalisers *)

(** [CANONICAL_TEAMS] *)
Definition CANONICAL_TEAMS : list (string * list string) :=
  [("2022-23",
    ["Arsenal"; "Aston Villa"; "Bournemouth"; "Brentford"; "Brighton";
     "Chelsea"; "Crystal Palace"; "Everton"; "Fulham";
     "Leeds United"; "Leicester City"; "Liverpool"; "Manchester City";
     "Manchester United"; "Newcastle United"; "Nottingham Forest";
     "Southampton"; "Tottenham Hotspur"; "West Ham United"; "Wolverhampton"]);
   ("2023-24",
    ["Arsenal"; "Aston Villa"; "Bournemouth"; "Brentford"; "Brighton";
     "Burnley"; "Chelsea"; "Crystal Palace"; "Everton"; "Fulham";
     "Liverpool"; "Luton Town"; "Manchester City"; "Manchester United";
     "Newcastle United"; "Nottingham Forest"; "Sheffield United";
     "Tottenham Hotspur"; "West Ham United"; "Wolverhampton"]);
   ("2024-25",
    ["Arsenal"; "Aston Villa"; "Bournemouth"; "Brentford"; "Brighton";
     "Chelsea"; "Crystal Palace"; "Everton"; "Fulham"; "Ipswich";
     "Leicester City"; "Liverpool"; "Manchester City"; "Manchester United";
     "Newcastle United"; "Nottingham Forest"; "Southampton";
     "Tottenham Hotspur"; "West Ham United"; "Wolverhampton"]);
   ("2025-26",
    ["Arsenal"; "Aston Villa"; "Bournemouth"; "Brentford"; "Brighton";
     "Burnley"; "Chelsea"; "Crystal Palace"; "Everton"; "Fulham";
     "Leeds United"; "Liverpool"; "Manchester City"; "Manchester United";
     "Newcastle United"; "Nottingham Forest"; "Sunderland";
     "Tottenham Hotspur"; "West Ham United"; "Wolverhampton"])].

(** [FOOTBALL_DATA_NAME_MAP] *)
Definition FOOTBALL_DATA_NAME_MAP : list (string * string) :=
  [("Man United", "Manchester United");
   ("Man City", "Manchester City");
   ("Nott'm Forest", "Nottingham Forest");
   ("Tottenham", "Tottenham Hotspur");
   ("Newcastle", "Newcastle United");
   ("West Ham", "West Ham United");
   ("Wolves", "Wolverhampton");
   ("Luton", "Luton Town");
   ("Leicester", "Leicester City");
   ("Sheffield United", "Sheffield United");
   ("Leeds", "Leeds United");
   ("Sunderland", "Sunderland")].

(** [FPL_NAME_MAP] *)
Definition FPL_NAME_MAP : list (string * string) :=
  [("Man Utd", "Manchester United");
   ("Man City", "Manchester City");
   ("Nott'm Forest", "Nottingham Forest");
   ("Spurs", "Tottenham Hotspur");
   ("Newcastle", "Newcastle United");
   ("West Ham", "West Ham United");
   ("Wolves", "Wolverhampton");
   ("Luton", "Luton Town");
   ("Leicester", "Leicester City");
   ("Sheffield Utd", "Sheffield United");
   ("Leeds", "Leeds United")].

(** [UNDERSTAT_NAME_MAP] *)
Definition UNDERSTAT_NAME_MAP : list (string * string) :=
  [("Manchester United", "Manchester United");
   ("Manchester City", "Manchester City");
   ("Nottingham Forest", "Nottingham Forest");
   ("Tottenham", "Tottenham Hotspur");
   ("Newcastle United", "Newcastle United");
   ("West Ham", "West Ham United");
   ("Wolverhampton Wanderers", "Wolverhampton");
   ("Luton Town", "Luton Town");
   ("Leicester City", "Leicester City");
   ("Leicester", "Leicester City");
   ("Sheffield United", "Sheffield United");
   ("Leeds United", "Leeds United");
   ("Leeds", "Leeds United")].

(** [d.get(key, default)] on a dictionary written with distinct keys. *)
Definition dict_get (d : list (string * string)) (key default : string)
  : string :=
  match List.find (fun kv => String.eqb (fst kv) key) d with
  | Some kv => snd kv
  | None => default
  end.

(** [s.replace(a, b)] for one-character [a] and [b]. *)
Fixpoint replace_char (a b : ascii) (s : string) : string :=
  match s with
  | EmptyString => ""
  | String c s' =>
      String (if Ascii.eqb c a then b else c) (replace_char a b s')
  end.

Module Clean.
(** 01_clean.py: what [col.replace(FOOTBALL_DATA_NAME_MAP)] does to a team
    name. *)
Definition standardize_team (name : string) : string :=
  dict_get FOOTBALL_DATA_NAME_MAP name name.
End Clean.

Module FetchFpl.
(** 03_fetch_fpl.py *)
Definition normalize_team (name : string) : string :=
  dict_get FPL_NAME_MAP name name.
End FetchFpl.

Module FetchXg.
(** 04_fetch_xg.py *)
Definition normalize_team (name : string) : string :=
  let clean := replace_char "_" " " name in
  dict_get UNDERSTAT_NAME_MAP clean clean.
End FetchXg.

(** A team name of one of the seasons of [CANONICAL_TEAMS]. *)
Definition is_canonical (name : string) : bool :=
  existsb (fun st => existsb (String.eqb name) (snd st)) CANONICAL_TEAMS.

(** The four positions of the goals-by-position board. *)
Definition POSITIONS : list string := ["FWD"; "MID"; "DEF"; "GK"].

(** The players of a position, and those of them who have played. *)
Definition position_players (fpl : list Player.t) (pos : string)
  : list Player.t :=
  List.filter (fun p => String.eqb (Player.position p) pos) fpl.

Definition position_active (fpl : list Player.t) (pos : string)
  : list Player.t :=
  List.filter (fun p => 0 <? Player.minutes p) (position_players fpl pos).

(** The matches of the current season. *)
Definition current_of (df : list Match.t) : list Match.t :=
  List.filter (fun m => String.eqb (Match.season m) CURRENT_SEASON) df.

(** The league table of the goalless draw, and a player of each side. *)
Definition sample_table : list Team.t :=
  match league_table [sample_goalless] with
  | Ret table => table
  | Raise _ => []
  end.

Definition sample_squads : list Player.t :=
  [Player.mk (Some "Saka") None "Arsenal" "MID" 5 4 900 1 0 (95 # 10)%Q;
   Player.mk (Some "Flemming") None "Burnley" "FWD" 3 1 800 2 0 (55 # 10)%Q].

(** ** Name matching, as searches of the xG player file *)

Section MatchingSearches.
(** What the five strategies of [enrich] look for, said of the rows of
    xg_players.csv themselves rather than of the lookup dictionaries built
    from them.  Each search answers with the enrichment of one row that
    has a player name and lists the player's team among its
    comma-separated teams. *)
Variable strip_accents : string -> string.
Variable lower : string -> string.








End MatchingSearches.





(** ** The regression in binary64 *)

Module B64.
(** Python's [float] as it is: an IEEE 754 binary64 number, every
    operation rounded to nearest, ties to even.  The regression is the one
    place of the transform where that rounding can decide a branch (the
    guard [var > 0]) and so change a reported figure by more than its last
    decimal. *)
Definition float : Set := PrimFloat.float.

(** [float(z)], for an integer below 2^63 in absolute value. *)
Definition of_int (z : Z) : float :=
  if z <? 0
  then PrimFloat.opp (PrimFloat.of_uint63 (Uint63.of_Z (- z)))
  else PrimFloat.of_uint63 (Uint63.of_Z z).

Definition zero : float := of_int 0.

(** The float a decimal with one digit after the point denotes, as
    [round(x, 1)] returns it: the binary64 number nearest to k / 10. *)
Definition of_tenths (k : Z) : float :=
  PrimFloat.div (of_int k) (of_int 10).

Definition is_finite (x : float) : bool :=
  match FloatOps.Prim2SF x with
  | SpecFloat.S754_zero _ | SpecFloat.S754_finite _ _ _ => true
  | _ => false
  end.

(** The rational number a finite float is. *)
Definition to_Q (x : float) : Q :=
  match FloatOps.Prim2SF x with
  | SpecFloat.S754_finite s m e =>
      let v := (inject_Z (Z.pos m) * Qpower 2 e)%Q in
      Qred (if s then - v else v)
  | _ => 0%Q
  end.

(** [safe_float]: NaN and the infinities become 0.0; [round] rounds the
    number the float is, half to even, to [decimals] places. *)
Definition safe_float (x : float) (decimals : nat) : Q :=
  if is_finite x then py_round (to_Q x) decimals else 0%Q.

(** [a / b]: raises on a zero divisor. *)
Definition py_div (a b : float) : py float :=
  if PrimFloat.is_zero b then Raise ZeroDivisionError
  else Ret (PrimFloat.div a b).

(** [x ** 2], taken as x * x. *)
Definition square (x : float) : float := PrimFloat.mul x x.

(** [sum] over floats as Python up to 3.11 computes it: left to right
    from 0. *)
Definition sum_left (l : list float) : float :=
  fold_left PrimFloat.add l zero.

(** [sum] over floats as Python from 3.12 computes it: left to right with
    a compensation term, added at the end if it is finite and not zero. *)
Definition sum_compensated (l : list float) : float :=
  let '(s, c) :=
    fold_left
      (fun (acc : float * float) (x : float) =>
         let '(s, c) := acc in
         let t := PrimFloat.add s x in
         (t,
          if PrimFloat.leb (PrimFloat.abs x) (PrimFloat.abs s)
          then PrimFloat.add c (PrimFloat.add (PrimFloat.sub s t) x)
          else PrimFloat.add c (PrimFloat.add (PrimFloat.sub x t) s)))
      l (zero, zero) in
  if negb (PrimFloat.is_zero c) && is_finite c
  then PrimFloat.add s c
  else s.

Module Fit.
Record t : Set := mk {
  mean_v : float;
  mean_p : float;
  cov : float;
  var : float;
  var_p : float;
  slope : float;
  intercept : float;
  r2 : float
}.
End Fit.

(** The regression of [points] on [values], lines 660-668 and 683-685,
    with [sum] either of the two above. *)
Definition linear_fit (sum : list float -> float) (values : list float)
  (points : list Z) : py Fit.t :=
  let n := len values in
  mean_v <- py_div (sum values) (of_int n) ;;
  mean_p <- py_div (of_int (col_sum id points)) (of_int n) ;;
  let cov :=
    sum (map (fun vp =>
                PrimFloat.mul (PrimFloat.sub (fst vp) mean_v)
                  (PrimFloat.sub (of_int (snd vp)) mean_p))
             (zip values points)) in
  let var := sum (map (fun v => square (PrimFloat.sub v mean_v)) values) in
  slope <- (if PrimFloat.ltb zero var then py_div cov var else Ret zero) ;;
  let intercept := PrimFloat.sub mean_p (PrimFloat.mul slope mean_v) in
  let var_p :=
    sum (map (fun p => square (PrimFloat.sub (of_int p) mean_p)) points) in
  r2 <- (if PrimFloat.ltb zero var && PrimFloat.ltb zero var_p
         then py_div (square cov) (PrimFloat.mul var var_p)
         else Ret zero) ;;
  Ret (Fit.mk mean_v mean_p cov var var_p slope intercept r2).

(** The [regression] entry of the document. *)
Definition regression_of (f : Fit.t) : Regression.t :=
  Regression.mk (safe_float (Fit.slope f) 4)
                (safe_float (Fit.intercept f) 2)
                (safe_float (Fit.r2 f) 3).

(** The regression the run reports for these squad values and points. *)
Definition reported (sum : list float -> float) (values : list float)
  (points : list Z) : py Regression.t :=
  f <- linear_fit sum values points ;; Ret (regression_of f).
End B64.

(** Three teams whose squads cost the same, 185.3 each. *)
Definition equal_squad_values : list B64.float :=
  [B64.of_tenths 1853; B64.of_tenths 1853; B64.of_tenths 1853].

Definition equal_squad_points : list Z := [40; 50; 62].

(** ** The whole run, and what it does not read from its files *)

Module Env.
(** What a run takes from its surroundings rather than from the four
    files: the clock, and the order in which the interpreter enumerates a
    set of strings, which follows the hash seed of the process and so
    changes from one run to the next. *)
Record t : Type := mk {
  now : string;
  set_order : gset string -> list string
}.

(** Whatever the order, a set is enumerated without omission or
    repetition. *)
Definition valid (env : t) : Prop :=
  forall s : gset string, Permutation (set_order env s) (elements s).
End Env.

(** [sorted(set(home_team) | set(away_team))], the set enumerated as the
    run finds it. *)
Definition teams_in (env : Env.t) (current : list Match.t) : list string :=
  py_sort String.leb (Env.set_order env (team_set current)).

Definition league_table_in (env : Env.t) (current : list Match.t)
  : py (list Team.t) :=
  table_rows <- py_for (build_team_stats current) (teams_in env current) ;;
  Ret (number_rows (py_sort table_leb table_rows)).

Definition cumulative_points_in (env : Env.t) (current : list Match.t)
  : list (string * list CumPoint.t) :=
  let current_sorted := sort_values Match.date current in
  map (fun team => (team, team_cumulative current_sorted team))
      (teams_in env current).

Module Files.
(** The four files under data/cleaned with all the columns the run
    reads; [None] is a file that does not exist. *)
Record t : Type := mk {
  matches_clean : option (list MatchStats.t);
  players : option (list Player.t);
  xg_teams : option (list XGTeam.t);
  xg_players : option (list XGPlayerStats.t)
}.

(** The same files without the columns that only the referee statistics,
    the season comparison and the top scorers read. *)
Definition inputs (files : t) : Inputs.t :=
  Inputs.mk (map MatchStats.row <$> matches_clean files) (players files)
    (xg_teams files) (map XGPlayerStats.player <$> xg_players files).
End Files.

Module Dashboard.
(** dashboard_data.json with its 21 entries: the 14 of [Document.t] and
    the five match aggregations, the top scorers and the player values. *)
Record t : Type := mk {
  document : Document.t;
  monthly_trends : list MonthRow.t;
  home_away : HomeAway.t;
  referee_stats : list RefRow.t;
  scoreline_frequency : list ScoreCount.t;
  season_comparison : list SeasonRow.t;
  top_scorers : option (list TopScorer.t);
  player_value : option (list PlayerValue.t)
}.

Definition generated_at (d : t) : string :=
  Document.generated_at (document d).

Definition set_generated_at (s : string) (d : t) : t :=
  mk (Document.set_generated_at s (document d)) (monthly_trends d)
     (home_away d) (referee_stats d) (scoreline_frequency d)
     (season_comparison d) (top_scorers d) (player_value d).
End Dashboard.

(** How a run on the full files ends. *)
Inductive RunOutcome : Type :=
  | Stopped (code : Z)
  | Failed (e : py_error)
  | Written (doc : Dashboard.t).

(** What a run leaves of the 14 entries of [Document.t]. *)
Definition document_of (o : RunOutcome) : Outcome :=
  match o with
  | Stopped code => Exit code
  | Failed e => Crashed e
  | Written doc => Saved (Dashboard.document doc)
  end.

(** Two runs that end alike, but for the time stamp of the document. *)
Definition same_run_but_timestamp (o1 o2 : RunOutcome) : Prop :=
  match o1, o2 with
  | Stopped c1, Stopped c2 => c1 = c2
  | Written d1, Written d2 =>
      Dashboard.set_generated_at "" d1 = Dashboard.set_generated_at "" d2
  | _, _ => False
  end.

Section RunInEnv.
Variable strip_accents : string -> string.
Variable lower : string -> string.

(** [main] from the current-season filter to the output dictionary, in
    the order of the source, once matches_clean.csv has been read into
    [dfs]. *)
Definition dashboard (env : Env.t) (dfs : list MatchStats.t)
  (files : Files.t) : py Dashboard.t :=
  let inp := Files.inputs files in
  let current := current_of (map MatchStats.row dfs) in
  let current_stats :=
    List.filter (fun m => String.eqb (MatchStats.season m) CURRENT_SEASON)
      dfs in
  let matches_played := len current in
  let season_status := season_status_of current in
  table_rows <- league_table_in env current ;;
  let cumulative := cumulative_points_in env current in
  let monthly_trends := monthly_trends_of current in
  home_away <- home_away_of current ;;
  let total := if 0 <? matches_played then matches_played else 1 in
  let ref_stats := referee_stats_of current_stats in
  let scoreline_frequency := scoreline_frequency_of current in
  let season_comparison := season_comparison_of dfs in
  xg <- (match has_xg inp, Files.xg_teams files with
         | true, Some xg_teams_df =>
             sq <- shot_quality_of table_rows xg_teams_df ;;
             Ret (Some (xg_table_of table_rows xg_teams_df),
                  Some (xg_vs_actual_of xg_teams_df),
                  Some sq)
         | _, _ => Ret (None, None, None)
         end) ;;
  let top_scorers :=
    match has_xg inp, Files.xg_players files with
    | true, Some xg_players_df => Some (top_scorers_of xg_players_df)
    | _, _ => None
    end in
  let player_value :=
    match Files.players files with
    | Some players_df => Some (player_value_of players_df)
    | None => None
    end in
  player_leaderboards <-
    (match Files.players files with
     | Some players_df =>
         let idx :=
           match has_xg inp, Files.xg_players files with
           | true, Some xg_players_df =>
               build_index strip_accents lower
                 (map XGPlayerStats.player xg_players_df)
           | _, _ => XGIndex.empty
           end in
         lb <- player_leaderboards_of strip_accents lower idx players_df ;;
         Ret (Some lb)
     | None => Ret None
     end) ;;
  money_vs_points <-
    (match Files.players files with
     | Some players_df => money_vs_points_of table_rows players_df
     | None => Ret None
     end) ;;
  let total_goals := safe_int (Some (col_sum Match.total_goals current)) in
  gpm <- (if 0 <? total
          then py_div (inject_Z total_goals) (inject_Z total)
          else Ret 0%Q) ;;
  Ret (Dashboard.mk
         (Document.mk (Env.now env) CURRENT_SEASON "football-data.co.uk"
            (safe_int (Some matches_played)) total_goals
            (safe_float (Some gpm) 2) season_status table_rows cumulative
            (fst (fst xg)) (snd (fst xg)) (snd xg)
            player_leaderboards money_vs_points)
         monthly_trends home_away ref_stats scoreline_frequency
         season_comparison top_scorers player_value).

(** [main()] in the surroundings [env]. *)
Definition run (env : Env.t) (files : Files.t) : RunOutcome :=
  match Files.matches_clean files with
  | None => Stopped 1
  | Some dfs =>
      match dashboard env dfs files with
      | Ret doc => Written doc
      | Raise e => Failed e
      end
  end.
End RunInEnv.

(** Two runs of the examples: in the morning, with the set of team names
    enumerated one way, and in the evening, with the set enumerated the
    other way round. *)
Definition morning : Env.t := Env.mk "2026-01-05T09:00:00" elements.

Definition evening : Env.t :=
  Env.mk "2026-01-05T21:30:00" (fun s => rev (elements s)).

(** Two matches between four sides, with their referees, and a second
    season. *)
Definition sample_files : Files.t :=
  Files.mk
    (Some [MatchStats.mk sample_goalless (Some "M Oliver") 21 3 0 0;
           MatchStats.mk
             (Match.mk CURRENT_SEASON "2025-08-17" "Chelsea" "Everton" 2 1
                Result.H 14 6 4 2 3)
             (Some "A Taylor") 25 5 1 0;
           MatchStats.mk
             (Match.mk "2024-25" "2025-05-25" "Everton" "Arsenal" 1 1
                Result.D 9 3 8 3 2)
             None 18 2 0 0])
    (Some sample_squads) None None.

(** * Properties *)

(** ** The error monad *)

Lemma py_bind_ret {A B : Type} (m : py A) (k : A -> py B) (b : B) :
  py_bind m k = Ret b -> exists a, m = Ret a /\ k a = Ret b.
Proof.
  destruct m as [a|e]; simpl; intros Hk; [|discriminate].
  exists a. split; [reflexivity|exact Hk].
Qed.

Lemma py_for_total {A B : Type} (f : A -> py B) (l : list A) :
  (forall x, In x l -> exists y, f x = Ret y) ->
  exists ys, py_for f l = Ret ys.
Proof.
  induction l as [|x l IH]; intros Hf; simpl.
  - exists []. reflexivity.
  - destruct (Hf x (or_introl eq_refl)) as [y Hy].
    destruct IH as [ys Hys]; [intros z Hz; apply Hf; right; exact Hz|].
    exists (y :: ys). rewrite Hy, Hys. reflexivity.
Qed.

Lemma py_for_Forall2 {A B : Type} (f : A -> py B) (l : list A) (ys : list B) :
  py_for f l = Ret ys -> Forall2 (fun x y => f x = Ret y) l ys.
Proof.
  revert ys. induction l as [|x l IH]; simpl; intros ys Hys.
  - injection Hys as <-. constructor.
  - apply py_bind_ret in Hys as (y & Hy & Hys).
    apply py_bind_ret in Hys as (ys' & Hys' & Hret).
    injection Hret as <-. constructor; [exact Hy|apply IH; exact Hys'].
Qed.

Lemma py_div_pos (a : Q) (n : Z) :
  0 < n -> py_div a (inject_Z n) = Ret (a / inject_Z n)%Q.
Proof.
  intros Hn. unfold py_div.
  destruct (Qeq_bool (inject_Z n) 0) eqn:E; [|reflexivity].
  apply Qeq_bool_eq in E. unfold Qeq in E. simpl in E. lia.
Qed.

(** ** The stable sort *)

Section StableSortFacts.
Context {A : Type} (leb : A -> A -> bool).

Lemma insert_stable_perm (x : A) (l : list A) :
  Permutation (insert_stable leb x l) (x :: l).
Proof.
  induction l as [|y l IH]; simpl; [reflexivity|].
  destruct (leb x y); [reflexivity|].
  rewrite IH. apply perm_swap.
Qed.

Lemma py_sort_perm (l : list A) : Permutation (py_sort leb l) l.
Proof.
  induction l as [|x l IH]; simpl; [reflexivity|].
  rewrite insert_stable_perm. constructor. exact IH.
Qed.

Lemma py_sort_In (x : A) (l : list A) : In x (py_sort leb l) <-> In x l.
Proof.
  split; apply Permutation_in;
    [apply py_sort_perm | symmetry; apply py_sort_perm].
Qed.

Lemma py_sort_length (l : list A) : length (py_sort leb l) = length l.
Proof. apply Permutation_length, py_sort_perm. Qed.

Hypothesis leb_total : forall x y, leb x y = true \/ leb y x = true.
Hypothesis leb_trans :
  forall x y z, leb x y = true -> leb y z = true -> leb x z = true.

Variable before : A -> A -> Prop.

Lemma insert_stable_ranked (x : A) (l : list A) :
  Forall (before x) l ->
  StronglySorted (ranked leb before) l ->
  StronglySorted (ranked leb before) (insert_stable leb x l).
Proof.
  induction l as [|y l IH]; simpl; intros Hx Hs.
  - repeat constructor.
  - apply Forall_cons_1 in Hx as [Hxy Hxl].
    apply StronglySorted_inv in Hs as [Hs Hy].
    destruct (leb x y) eqn:E.
    + constructor; [constructor; assumption|].
      constructor; [split; auto|].
      apply List.Forall_forall. intros z Hz. split.
      * rewrite List.Forall_forall in Hy. apply (leb_trans x y z E), Hy, Hz.
      * intros _. rewrite List.Forall_forall in Hxl. apply Hxl, Hz.
    + constructor; [apply IH; assumption|].
      apply List.Forall_forall. intros z Hz.
      apply (Permutation_in _ (insert_stable_perm x l)) in Hz.
      destruct Hz as [<-|Hz].
      * split; [destruct (leb_total x y); congruence|congruence].
      * rewrite List.Forall_forall in Hy. apply Hy, Hz.
Qed.

Lemma py_sort_ranked (l : list A) :
  StronglySorted before l -> StronglySorted (ranked leb before) (py_sort leb l).
Proof.
  induction l as [|x l IH]; simpl; intros Hs; [constructor|].
  apply StronglySorted_inv in Hs as [Hs Hx].
  apply insert_stable_ranked; [|apply IH; exact Hs].
  apply List.Forall_forall. intros z Hz. rewrite List.Forall_forall in Hx.
  apply Hx, py_sort_In, Hz.
Qed.
End StableSortFacts.

(** Reading a strongly sorted list by index. *)
Lemma StronglySorted_lookup {A : Type} (R : A -> A -> Prop) (l : list A) :
  StronglySorted R l ->
  forall (i j : nat) (a b : A),
    (i < j)%nat -> l !! i = Some a -> l !! j = Some b -> R a b.
Proof.
  induction 1 as [|x l Hs IH Hx]; intros i j a b Hij Ha Hb.
  - rewrite lookup_nil in Ha. discriminate.
  - destruct j as [|j]; [lia|]. simpl in Hb.
    destruct i as [|i]; simpl in Ha.
    + injection Ha as <-. rewrite List.Forall_forall in Hx.
      apply Hx. apply list_elem_of_In. eapply list_elem_of_lookup_2, Hb.
    + apply (IH i j); [lia|assumption..].
Qed.

(** A sort without ties to break: every list is strongly sorted for the
    relation that always holds. *)
Lemma StronglySorted_True {A : Type} (l : list A) :
  StronglySorted (fun _ _ => True) l.
Proof.
  induction l; constructor; [assumption|].
  apply List.Forall_forall. intros; exact I.
Qed.

Lemma py_sort_sorted {A : Type} (leb : A -> A -> bool) (l : list A) :
  (forall x y, leb x y = true \/ leb y x = true) ->
  (forall x y z, leb x y = true -> leb y z = true -> leb x z = true) ->
  StronglySorted (fun a b => leb a b = true) (py_sort leb l).
Proof.
  intros Htot Htrans.
  pose proof (py_sort_ranked leb Htot Htrans (fun _ _ => True) l
                (StronglySorted_True l)) as Hs.
  induction Hs as [|x l' Hs IH Hx]; constructor; [exact IH|].
  eapply List.Forall_impl; [|exact Hx]. intros a [Ha _]. exact Ha.
Qed.

(** ** Orders used as sort keys *)

Lemma string_leb_total (x y : string) :
  String.leb x y = true \/ String.leb y x = true.
Proof. apply String.leb_total. Qed.

Lemma string_leb_trans (x y z : string) :
  String.leb x y = true -> String.leb y z = true -> String.leb x z = true.
Proof.
  intros Hxy Hyz. apply Is_true_true.
  apply Is_true_true in Hxy, Hyz.
  exact (@transitivity _ String.le _ x y z Hxy Hyz).
Qed.

Lemma string_leb_ne_ltb (x y : string) :
  String.leb x y = true -> x <> y -> String.ltb x y = true.
Proof.
  unfold String.leb, String.ltb. intros Hle Hne.
  destruct (String.compare x y) eqn:E; try reflexivity; try discriminate.
  apply String.compare_eq_iff in E. contradiction.
Qed.

Lemma string_ltb_irrefl (x : string) : String.ltb x x = false.
Proof.
  unfold String.ltb.
  assert (E : String.compare x x = Eq).
  { induction x as [|c x IH]; simpl; [reflexivity|].
    unfold Ascii.compare. rewrite N.compare_refl. exact IH. }
  rewrite E. reflexivity.
Qed.

Lemma tuple3_leb_iff (a b : Z * Z * Z) :
  negb (tuple3_ltb b a) = true <-> tuple3_le a b.
Proof.
  destruct a as [[a1 a2] a3], b as [[b1 b2] b3].
  unfold tuple3_ltb, tuple3_le. simpl.
  destruct (Z.ltb_spec b1 a1), (Z.eqb_spec b1 a1), (Z.ltb_spec b2 a2),
    (Z.eqb_spec b2 a2), (Z.ltb_spec b3 a3); simpl; split; intros Hx;
    try discriminate; try reflexivity; lia.
Qed.

Lemma table_leb_iff (x y : Team.t) :
  table_leb x y = true <-> tuple3_le (table_key x) (table_key y).
Proof. apply tuple3_leb_iff. Qed.

Lemma table_leb_total (x y : Team.t) :
  table_leb x y = true \/ table_leb y x = true.
Proof.
  rewrite !table_leb_iff.
  destruct (table_key x) as [[a1 a2] a3], (table_key y) as [[b1 b2] b3].
  unfold tuple3_le. simpl. lia.
Qed.

Lemma table_leb_trans (x y z : Team.t) :
  table_leb x y = true -> table_leb y z = true -> table_leb x z = true.
Proof.
  rewrite !table_leb_iff.
  destruct (table_key x) as [[a1 a2] a3], (table_key y) as [[b1 b2] b3],
    (table_key z) as [[c1 c2] c3].
  unfold tuple3_le. simpl. lia.
Qed.

(** What [table_leb] says about the three ranking columns. *)
Lemma table_leb_columns (a b : Team.t) :
  table_leb a b = true ->
  Team.points a > Team.points b
  \/ (Team.points a = Team.points b
      /\ Team.goal_difference a > Team.goal_difference b)
  \/ (Team.points a = Team.points b
      /\ Team.goal_difference a = Team.goal_difference b
      /\ Team.goals_for a >= Team.goals_for b).
Proof.
  rewrite table_leb_iff. unfold tuple3_le, table_key. simpl. lia.
Qed.

Lemma table_leb_tied (a b : Team.t) :
  Team.points a = Team.points b ->
  Team.goal_difference a = Team.goal_difference b ->
  Team.goals_for a = Team.goals_for b ->
  table_leb b a = true.
Proof.
  intros Hp Hg Hf. rewrite table_leb_iff.
  unfold tuple3_le, table_key. simpl. lia.
Qed.

(** ** The team list *)

Lemma teams_of_In (current : list Match.t) (t : string) :
  In t (teams_of current) <->
  exists m, In m current /\ (Match.home_team m = t \/ Match.away_team m = t).
Proof.
  unfold teams_of, team_set. rewrite py_sort_In, <- list_elem_of_In.
  rewrite elem_of_elements, elem_of_union, !elem_of_list_to_set.
  rewrite !list_elem_of_In, !in_map_iff. split.
  - intros [(m & Hm & Hin)|(m & Hm & Hin)]; exists m; auto.
  - intros (m & Hin & [Hm|Hm]); [left|right]; exists m; auto.
Qed.

Lemma NoDup_sorted_strict (l : list string) :
  List.NoDup l ->
  StronglySorted (fun a b => String.ltb a b = true) (py_sort String.leb l).
Proof.
  intros Hnd.
  assert (Hnd' : List.NoDup (py_sort String.leb l)).
  { eapply Permutation_NoDup; [symmetry; apply py_sort_perm|exact Hnd]. }
  pose proof (py_sort_sorted String.leb l string_leb_total string_leb_trans)
    as Hs.
  induction Hs as [|x l' Hs IH Hx]; constructor.
  - apply IH. inversion Hnd'; assumption.
  - apply List.Forall_forall. intros y Hy.
    rewrite List.Forall_forall in Hx.
    apply string_leb_ne_ltb; [apply Hx, Hy|].
    intros ->. inversion Hnd'; contradiction.
Qed.

Lemma teams_of_strict (current : list Match.t) :
  StronglySorted (fun a b => String.ltb a b = true) (teams_of current).
Proof.
  apply NoDup_sorted_strict, NoDup_ListNoDup, NoDup_elements.
Qed.

Lemma teams_of_NoDup (current : list Match.t) : List.NoDup (teams_of current).
Proof.
  eapply Permutation_NoDup; [symmetry; apply py_sort_perm|].
  apply NoDup_ListNoDup, NoDup_elements.
Qed.

(** The team list does not depend on the order in which the set of names
    is enumerated. *)
Lemma sorted_strict_unique (l1 l2 : list string) :
  StronglySorted (fun a b => String.ltb a b = true) l1 ->
  StronglySorted (fun a b => String.ltb a b = true) l2 ->
  (forall x, In x l1 <-> In x l2) ->
  l1 = l2.
Proof.
  intros H1. revert l2.
  induction H1 as [|x l1 Hs1 IH Hx]; intros l2 H2 Hin.
  - destruct l2 as [|y l2]; [reflexivity|].
    exfalso. apply (Hin y). left. reflexivity.
  - destruct H2 as [|y l2 Hs2 Hy].
    { exfalso. apply (Hin x). left. reflexivity. }
    rewrite List.Forall_forall in Hx, Hy.
    assert (x = y) as <-.
    { destruct (proj1 (Hin x) (or_introl eq_refl)) as [E|Hxl2]; [auto|].
      destruct (proj2 (Hin y) (or_introl eq_refl)) as [E|Hyl1]; [auto|].
      specialize (Hx _ Hyl1). specialize (Hy _ Hxl2).
      unfold String.ltb in Hx, Hy.
      rewrite String.compare_antisym in Hy.
      destruct (String.compare x y); simpl in *; discriminate. }
    f_equal. apply IH; [exact Hs2|].
    intros z. split; intros Hz.
    + destruct (proj1 (Hin z) (or_intror Hz)) as [<-|Hz']; [|exact Hz'].
      specialize (Hx _ Hz). rewrite string_ltb_irrefl in Hx. discriminate.
    + destruct (proj2 (Hin z) (or_intror Hz)) as [<-|Hz']; [|exact Hz'].
      specialize (Hy _ Hz). rewrite string_ltb_irrefl in Hy. discriminate.
Qed.

Lemma sorted_enumeration_unique (l1 l2 : list string) :
  List.NoDup l1 -> Permutation l1 l2 ->
  py_sort String.leb l1 = py_sort String.leb l2.
Proof.
  intros Hnd Hp. apply sorted_strict_unique.
  - apply NoDup_sorted_strict, Hnd.
  - apply NoDup_sorted_strict. eapply Permutation_NoDup; eassumption.
  - intros x. rewrite !py_sort_In. split; apply Permutation_in;
      [exact Hp|symmetry; exact Hp].
Qed.

(** ** The league table *)

Lemma shot_acc_of_eq (total_sot total_shots : Z) :
  shot_acc_of total_sot total_shots =
  Ret (if 0 <? total_shots
       then safe_float
              (Some (inject_Z total_sot / inject_Z total_shots * 100)%Q) 2
       else 0%Q).
Proof.
  unfold shot_acc_of. destruct (Z.ltb_spec 0 total_shots); [|reflexivity].
  rewrite py_div_pos by assumption. reflexivity.
Qed.

Lemma goals_per_game_of_eq (gf played : Z) :
  goals_per_game_of gf played =
  Ret (if 0 <? played
       then safe_float (Some (inject_Z gf / inject_Z played)%Q) 2
       else 0%Q).
Proof.
  unfold goals_per_game_of. destruct (Z.ltb_spec 0 played); [|reflexivity].
  rewrite py_div_pos by assumption. reflexivity.
Qed.

(** [build_team_stats] never raises, and these are the columns the later
    sections read. *)
Lemma build_team_stats_ret (ms : list Match.t) (t : string) :
  exists r,
    build_team_stats ms t = Ret r
    /\ Team.team r = t
    /\ Team.position r = None
    /\ shot_acc_of (Team.total_shots_on_target r) (Team.total_shots r)
       = Ret (Team.shot_accuracy r)
    /\ Team.points r =
       (let home := List.filter (fun m => String.eqb (Match.home_team m) t) ms in
        let away := List.filter (fun m => String.eqb (Match.away_team m) t) ms in
        (len (List.filter (has_result Result.H) home)
         + len (List.filter (has_result Result.A) away)) * 3
        + (len (List.filter (has_result Result.D) home)
           + len (List.filter (has_result Result.D) away))).
Proof.
  unfold build_team_stats.
  rewrite shot_acc_of_eq. cbn [py_bind].
  rewrite goals_per_game_of_eq. cbn [py_bind].
  eexists. split; [reflexivity|]. cbn [Team.team Team.position Team.points
    Team.total_shots_on_target Team.total_shots Team.shot_accuracy].
  repeat split. apply shot_acc_of_eq.
Qed.

Lemma table_rows_total (current : list Match.t) (teams : list string) :
  exists rows,
    py_for (build_team_stats current) teams = Ret rows
    /\ map Team.team rows = teams.
Proof.
  destruct (py_for_total (build_team_stats current) teams) as [rows Hrows].
  { intros t _. destruct (build_team_stats_ret current t) as (r & Hr & _).
    exists r. exact Hr. }
  exists rows. split; [exact Hrows|].
  apply py_for_Forall2 in Hrows.
  induction Hrows as [|t r ts rs Hr _ IH]; simpl; [reflexivity|].
  destruct (build_team_stats_ret current t) as (r' & Hr' & Ht & _).
  rewrite Hr' in Hr. injection Hr as <-. rewrite Ht, IH. reflexivity.
Qed.

Lemma StronglySorted_map {A B : Type} (f : A -> B) (R : B -> B -> Prop)
  (l : list A) :
  StronglySorted R (map f l) -> StronglySorted (fun a b => R (f a) (f b)) l.
Proof.
  induction l as [|x l IH]; simpl; intros Hs; [constructor|].
  apply StronglySorted_inv in Hs as [Hs Hx]. constructor; [apply IH, Hs|].
  apply List.Forall_forall. intros y Hy. rewrite List.Forall_forall in Hx.
  apply Hx, in_map, Hy.
Qed.

Lemma number_rows_lookup (rows : list Team.t) (i : nat) (a : Team.t) :
  number_rows rows !! i = Some a ->
  exists a0, rows !! i = Some a0
             /\ a = Team.set_position (Z.of_nat i + 1) a0.
Proof.
  unfold number_rows. rewrite list_lookup_imap.
  destruct (rows !! i) as [a0|]; simpl; [|discriminate].
  intros [= <-]. exists a0. auto.
Qed.

Lemma number_rows_teams (rows : list Team.t) :
  map Team.team (number_rows rows) = map Team.team rows.
Proof.
  apply list_eq. intros i. unfold number_rows.
  rewrite !list_lookup_fmap, list_lookup_imap.
  destruct (rows !! i); reflexivity.
Qed.

(** Teams that come earlier in the table rank at least as high, and among
    teams level on points, goal difference and goals scored the earlier one
    has the smaller name. *)
Lemma league_table_ranked (current : list Match.t) :
  exists table_rows,
    py_for (build_team_stats current) (teams_of current) = Ret table_rows
    /\ map Team.team table_rows = teams_of current
    /\ league_table current = Ret (number_rows (py_sort table_leb table_rows))
    /\ StronglySorted
         (ranked table_leb
            (fun a b => String.ltb (Team.team a) (Team.team b) = true))
         (py_sort table_leb table_rows).
Proof.
  destruct (table_rows_total current (teams_of current)) as (rows & Hrows & Ht).
  exists rows. split; [exact Hrows|]. split; [exact Ht|]. split.
  - unfold league_table. rewrite Hrows. reflexivity.
  - apply py_sort_ranked;
      [apply table_leb_total|apply table_leb_trans|].
    apply StronglySorted_map with (f := Team.team)
      (R := fun a b => String.ltb a b = true).
    rewrite Ht. apply teams_of_strict.
Qed.

(** The league table is always produced, with one row per team. *)
Lemma league_table_ret (current : list Match.t) :
  exists table,
    league_table current = Ret table
    /\ Permutation (map Team.team table) (teams_of current).
Proof.
  destruct (league_table_ranked current) as (rows & _ & Ht & Htab & _).
  exists (number_rows (py_sort table_leb rows)). split; [exact Htab|].
  rewrite <- Ht, number_rows_teams.
  apply Permutation_map, py_sort_perm.
Qed.

(** C1.  The league table of a season is in rank order: of two rows, the
    earlier one has more points, or the same points and a larger goal
    difference, or the same of both and at least as many goals scored; the
    [position] of a row is its 1-based index, and the table has one row per
    team of the season. *)
Theorem league_table_order (current : list Match.t) :
  exists table,
    league_table current = Ret table
    /\ Permutation (map Team.team table) (teams_of current)
    /\ (forall (i j : nat) (a b : Team.t),
          (i < j)%nat -> table !! i = Some a -> table !! j = Some b ->
          Team.points a > Team.points b
          \/ (Team.points a = Team.points b
              /\ Team.goal_difference a > Team.goal_difference b)
          \/ (Team.points a = Team.points b
              /\ Team.goal_difference a = Team.goal_difference b
              /\ Team.goals_for a >= Team.goals_for b))
    /\ (forall (i : nat) (a : Team.t),
          table !! i = Some a -> Team.position a = Some (Z.of_nat i + 1)).
Proof.
  destruct (league_table_ranked current) as (rows & _ & Ht & Htab & Hs).
  exists (number_rows (py_sort table_leb rows)).
  split; [exact Htab|]. split; [|split].
  - rewrite <- Ht, number_rows_teams.
    apply Permutation_map, py_sort_perm.
  - intros i j a b Hij Ha Hb.
    apply number_rows_lookup in Ha as (a0 & Ha0 & ->).
    apply number_rows_lookup in Hb as (b0 & Hb0 & ->).
    destruct (StronglySorted_lookup _ _ Hs i j a0 b0 Hij Ha0 Hb0) as [Hle _].
    apply table_leb_columns in Hle. exact Hle.
  - intros i a Ha. apply number_rows_lookup in Ha as (a0 & _ & ->).
    reflexivity.
Qed.

(** C9.  Two teams level on points, goal difference and goals scored stand
    in the table in ascending order of their names, the order in which
    [sorted] lists strings (by code point, so upper case before lower
    case). *)
Theorem league_table_ties_by_name (current : list Match.t) :
  exists table,
    league_table current = Ret table
    /\ forall (i j : nat) (a b : Team.t),
         (i < j)%nat -> table !! i = Some a -> table !! j = Some b ->
         Team.points a = Team.points b ->
         Team.goal_difference a = Team.goal_difference b ->
         Team.goals_for a = Team.goals_for b ->
         String.ltb (Team.team a) (Team.team b) = true.
Proof.
  destruct (league_table_ranked current) as (rows & _ & _ & Htab & Hs).
  exists (number_rows (py_sort table_leb rows)).
  split; [exact Htab|].
  intros i j a b Hij Ha Hb Hp Hg Hf.
  apply number_rows_lookup in Ha as (a0 & Ha0 & ->).
  apply number_rows_lookup in Hb as (b0 & Hb0 & ->).
  destruct (StronglySorted_lookup _ _ Hs i j a0 b0 Hij Ha0 Hb0) as [_ Hbefore].
  apply Hbefore, table_leb_tied; assumption.
Qed.

(** ** Cumulative points *)

Lemma col_sum_map {A : Type} (f : A -> Z) (l : list A) :
  col_sum id (map f l) = col_sum f l.
Proof. induction l as [|x l IH]; simpl; [reflexivity|]. rewrite IH. reflexivity. Qed.

Lemma col_sum_cons {A : Type} (f : A -> Z) (x : A) (l : list A) :
  col_sum f (x :: l) = f x + col_sum f l.
Proof. reflexivity. Qed.

Lemma col_sum_app {A : Type} (f : A -> Z) (l1 l2 : list A) :
  col_sum f (l1 ++ l2) = col_sum f l1 + col_sum f l2.
Proof. induction l1 as [|x l1 IH]; simpl; [reflexivity|]. rewrite IH. lia. Qed.

Lemma col_sum_perm {A : Type} (f : A -> Z) (l1 l2 : list A) :
  Permutation l1 l2 -> col_sum f l1 = col_sum f l2.
Proof. induction 1; simpl; lia. Qed.

Lemma col_sum_nonneg {A : Type} (f : A -> Z) (l : list A) :
  (forall x, In x l -> 0 <= f x) -> 0 <= col_sum f l.
Proof.
  induction l as [|x l IH]; simpl; intros Hf; [lia|].
  specialize (Hf x (or_introl eq_refl)) as Hx.
  assert (0 <= col_sum f l) by (apply IH; intros; apply Hf; right; assumption).
  lia.
Qed.

Lemma filter_perm {A : Type} (f : A -> bool) (l1 l2 : list A) :
  Permutation l1 l2 -> Permutation (List.filter f l1) (List.filter f l2).
Proof.
  induction 1 as [|x l1 l2 _ IH|x y l|l1 l2 l3 _ IH1 _ IH2]; simpl.
  - constructor.
  - destruct (f x); [constructor|]; exact IH.
  - destruct (f x), (f y); try reflexivity. apply perm_swap.
  - etransitivity; eassumption.
Qed.

Lemma cumsum_from_length (acc : Z) (l : list Z) :
  length (cumsum_from acc l) = length l.
Proof.
  revert acc. induction l as [|x l IH]; intros acc; simpl; [reflexivity|].
  rewrite IH. reflexivity.
Qed.

(** Entry [i] of the running sum is the sum of the first [i + 1] terms. *)
Lemma cumsum_from_lookup (acc : Z) (l : list Z) (i : nat) (c : Z) :
  cumsum_from acc l !! i = Some c ->
  c = acc + col_sum id (take (S i) l) /\ (i < length l)%nat.
Proof.
  revert acc i c. induction l as [|x l IH]; intros acc i c.
  - simpl. rewrite lookup_nil. discriminate.
  - destruct i as [|i].
    + change (cumsum_from acc (x :: l) !! 0%nat) with (Some (acc + x)).
      intros [= <-]. change (take 1 (x :: l)) with [x].
      change (col_sum id [x]) with (id x + 0). change (id x) with x.
      simpl length. split; lia.
    + change (cumsum_from acc (x :: l) !! S i)
        with (cumsum_from (acc + x) l !! i).
      intros Hc. apply IH in Hc as [-> Hi].
      change (take (S (S i)) (x :: l)) with (x :: take (S i) l).
      change (col_sum id (x :: take (S i) l))
        with (id x + col_sum id (take (S i) l)).
      change (id x) with x. simpl length. split; lia.
Qed.

Lemma col_sum_take_mono (l : list Z) :
  (forall x, In x l -> 0 <= x) ->
  forall i j : nat, (i <= j)%nat ->
  col_sum id (take i l) <= col_sum id (take j l).
Proof.
  induction l as [|x l IH]; intros Hpos i j Hij.
  - rewrite !take_nil. lia.
  - destruct i as [|i].
    + rewrite take_0. simpl. apply col_sum_nonneg.
      intros y Hy. apply Hpos.
      apply list_elem_of_In. apply list_elem_of_In in Hy.
      eapply elem_of_subseteq; [apply subseteq_take|exact Hy].
    + destruct j as [|j]; [lia|].
      change (take (S i) (x :: l)) with (x :: take i l).
      change (take (S j) (x :: l)) with (x :: take j l).
      simpl.
      assert (col_sum id (take i l) <= col_sum id (take j l)).
      { apply IH; [intros; apply Hpos; right; assumption|lia]. }
      lia.
Qed.

Lemma home_pts_sum (l : list Match.t) :
  col_sum (fun m => home_pts (Match.result m)) l =
  len (List.filter (has_result Result.H) l) * 3
  + len (List.filter (has_result Result.D) l).
Proof.
  unfold len. induction l as [|m l IH]; [reflexivity|].
  rewrite col_sum_cons, IH. cbn [List.filter].
  assert (E1 : has_result Result.H m = Result.eqb (Match.result m) Result.H)
    by reflexivity.
  assert (E2 : has_result Result.D m = Result.eqb (Match.result m) Result.D)
    by reflexivity.
  rewrite E1, E2.
  destruct (Match.result m); cbn [Result.eqb home_pts length]; lia.
Qed.

Lemma away_pts_sum (l : list Match.t) :
  col_sum (fun m => away_pts (Match.result m)) l =
  len (List.filter (has_result Result.A) l) * 3
  + len (List.filter (has_result Result.D) l).
Proof.
  unfold len. induction l as [|m l IH]; [reflexivity|].
  rewrite col_sum_cons, IH. cbn [List.filter].
  assert (E1 : has_result Result.A m = Result.eqb (Match.result m) Result.A)
    by reflexivity.
  assert (E2 : has_result Result.D m = Result.eqb (Match.result m) Result.D)
    by reflexivity.
  rewrite E1, E2.
  destruct (Match.result m); cbn [Result.eqb away_pts length]; lia.
Qed.

(** The points column of a team's rows, in the order of the series. *)
Lemma team_points_column (current : list Match.t) (t : string) :
  let home_matches :=
    List.filter (fun m => String.eqb (Match.home_team m) t)
      (sort_values Match.date current) in
  let away_matches :=
    List.filter (fun m => String.eqb (Match.away_team m) t)
      (sort_values Match.date current) in
  let all_matches :=
    sort_values fst
      (map (fun m => (Match.date m, home_pts (Match.result m))) home_matches
       ++ map (fun m => (Match.date m, away_pts (Match.result m))) away_matches)
  in
  (forall x, In x (map snd all_matches) -> 0 <= x)
  /\ (forall r, build_team_stats current t = Ret r ->
                col_sum id (map snd all_matches) = Team.points r)
  /\ (In t (teams_of current) -> (0 < length (map snd all_matches))%nat).
Proof.
  intros home_matches away_matches all_matches.
  assert (Hperm : Permutation (map snd all_matches)
            (map (fun m => home_pts (Match.result m)) home_matches
             ++ map (fun m => away_pts (Match.result m)) away_matches)).
  { unfold all_matches, sort_values.
    rewrite (Permutation_map snd (py_sort_perm _ _)).
    rewrite map_app, !map_map. reflexivity. }
  assert (Hhome : Permutation home_matches
            (List.filter (fun m => String.eqb (Match.home_team m) t) current)).
  { apply filter_perm, py_sort_perm. }
  assert (Haway : Permutation away_matches
            (List.filter (fun m => String.eqb (Match.away_team m) t) current)).
  { apply filter_perm, py_sort_perm. }
  split; [|split].
  - intros x Hx. apply (Permutation_in _ Hperm) in Hx.
    apply in_app_or in Hx as [Hx|Hx]; apply in_map_iff in Hx as (m & <- & _);
      destruct (Match.result m); simpl; lia.
  - intros r Hr.
    destruct (build_team_stats_ret current t) as (r' & Hr' & _ & _ & _ & Hpts).
    rewrite Hr' in Hr. injection Hr as <-. rewrite Hpts. cbv zeta.
    rewrite (col_sum_perm id _ _ Hperm), col_sum_app, !col_sum_map.
    rewrite (col_sum_perm _ _ _ Hhome), (col_sum_perm _ _ _ Haway).
    rewrite home_pts_sum, away_pts_sum. lia.
  - intros Ht. apply teams_of_In in Ht as (m & Hm & Hteam).
    rewrite (Permutation_length Hperm), length_app, !length_map.
    rewrite (Permutation_length Hhome), (Permutation_length Haway).
    destruct Hteam as [Hteam|Hteam].
    + assert (Hin : In m (List.filter
                 (fun m => String.eqb (Match.home_team m) t) current)).
      { apply filter_In. split; [exact Hm|]. apply String.eqb_eq, Hteam. }
      destruct (List.filter _ current); [destruct Hin|simpl; lia].
    + assert (Hin : In m (List.filter
                 (fun m => String.eqb (Match.away_team m) t) current)).
      { apply filter_In. split; [exact Hm|]. apply String.eqb_eq, Hteam. }
      destruct (List.filter (fun m0 => String.eqb (Match.away_team m0) t) current);
        [destruct Hin|simpl; lia].
Qed.

Lemma team_cumulative_series (current : list Match.t) (t : string) :
  In t (teams_of current) ->
  let series := team_cumulative (sort_values Match.date current) t in
  (forall (i : nat) (p : CumPoint.t),
      series !! i = Some p -> CumPoint.matchday p = Z.of_nat i + 1)
  /\ (forall (i j : nat) (p q : CumPoint.t),
        (i <= j)%nat -> series !! i = Some p -> series !! j = Some q ->
        CumPoint.points p <= CumPoint.points q)
  /\ (exists p r,
        last series = Some p
        /\ build_team_stats current t = Ret r
        /\ CumPoint.points p = Team.points r).
Proof.
  intros Ht series.
  destruct (team_points_column current t) as (Hpos & Hsum & Hlen).
  specialize (Hlen Ht).
  unfold series, team_cumulative.
  set (pts := map snd (sort_values fst _)) in *.
  split; [|split].
  - intros i p. rewrite list_lookup_imap.
    destruct (cumsum pts !! i); simpl; [|discriminate].
    intros [= <-]. reflexivity.
  - intros i j p q Hij. rewrite !list_lookup_imap.
    destruct (cumsum pts !! i) as [c|] eqn:Hc; simpl; [|discriminate].
    destruct (cumsum pts !! j) as [d|] eqn:Hd; simpl; [|discriminate].
    intros [= <-] [= <-]. simpl.
    apply cumsum_from_lookup in Hc as [-> _].
    apply cumsum_from_lookup in Hd as [-> _].
    assert (col_sum id (take (S i) pts) <= col_sum id (take (S j) pts)).
    { apply col_sum_take_mono; [exact Hpos|lia]. }
    lia.
  - destruct (build_team_stats_ret current t) as (r & Hr & _).
    rewrite last_lookup, length_imap, list_lookup_imap.
    unfold cumsum. rewrite cumsum_from_length.
    destruct (lookup_lt_is_Some_2 (cumsum_from 0 pts) (pred (length pts)))
      as [c Hc].
    { rewrite cumsum_from_length. lia. }
    rewrite Hc. simpl. eexists _, r. split; [reflexivity|].
    split; [exact Hr|]. simpl.
    apply cumsum_from_lookup in Hc as [-> _].
    rewrite take_ge by lia. rewrite (Hsum r Hr). lia.
Qed.

Lemma league_table_rows (current : list Match.t) (table : list Team.t) :
  league_table current = Ret table ->
  forall r, In r table ->
    In (Team.team r) (teams_of current)
    /\ exists r0 p, build_team_stats current (Team.team r) = Ret r0
                    /\ r = Team.set_position p r0.
Proof.
  intros Htab r Hr.
  destruct (league_table_ranked current) as (rows & Hrows & Ht & Htab' & _).
  rewrite Htab' in Htab. injection Htab as <-.
  apply list_elem_of_In, list_elem_of_lookup in Hr as [i Hi].
  apply number_rows_lookup in Hi as (r0 & Hr0 & ->).
  assert (Hin : In r0 rows).
  { apply (py_sort_In table_leb), list_elem_of_In.
    eapply list_elem_of_lookup_2, Hr0. }
  apply py_for_Forall2 in Hrows.
  assert (Hb : build_team_stats current (Team.team r0) = Ret r0
               /\ In (Team.team r0) (teams_of current)).
  { clear -Hrows Hin. induction Hrows as [|t x ts xs Hx _ IH]; [destruct Hin|].
    destruct Hin as [->|Hin].
    - destruct (build_team_stats_ret current t) as (r' & Hr' & Hteam & _).
      rewrite Hr' in Hx. injection Hx as <-. rewrite Hteam.
      split; [exact Hr'|left; reflexivity].
    - destruct (IH Hin) as [Hb Hi]. split; [exact Hb|right; exact Hi]. }
  destruct Hb as [Hb Hteam]. simpl. split; [exact Hteam|].
  exists r0, (Z.of_nat i + 1). split; [exact Hb|reflexivity].
Qed.

Lemma find_team_In (table : list Team.t) (t : string) :
  In t (map Team.team table) ->
  exists r, find_team table t = Some r /\ In r table /\ Team.team r = t.
Proof.
  intros Hin. unfold find_team.
  destruct (List.find (fun tr => String.eqb (Team.team tr) t) table)
    as [r|] eqn:E.
  - apply find_some in E as [Hr Ht]. apply String.eqb_eq in Ht. eauto.
  - apply in_map_iff in Hin as (r & Hr & Hin).
    apply (find_none _ _ E) in Hin. apply String.eqb_neq in Hin.
    contradiction.
Qed.

(** The series is the running sum over the team's fixtures in ascending
    order of date. *)
Lemma team_cumulative_fixtures (current : list Match.t) (t : string) :
  exists fixtures,
    Permutation fixtures (team_fixtures current t)
    /\ StronglySorted (fun a b => String.leb (fst a) (fst b) = true) fixtures
    /\ map CumPoint.points
         (team_cumulative (sort_values Match.date current) t)
       = cumsum (map snd fixtures).
Proof.
  unfold team_cumulative.
  match goal with |- context [sort_values fst ?l] =>
    exists (sort_values fst l) end.
  split; [|split].
  - unfold sort_values at 1. rewrite py_sort_perm. unfold team_fixtures.
    apply Permutation_app; apply Permutation_map, filter_perm, py_sort_perm.
  - apply py_sort_sorted.
    + intros a b. apply string_leb_total.
    + intros a b c. apply string_leb_trans.
  - apply list_eq. intros i.
    rewrite list_lookup_fmap, list_lookup_imap.
    destruct (cumsum _ !! i); reflexivity.
Qed.

(** C4.  Every team of the season has a cumulative-points series.  It is
    the running sum of the 3/1/0 points of the team's fixtures taken in
    ascending order of date; its entries are numbered 1, 2, ... in that
    order, its points never decrease, and its last entry carries the points
    of the team's row in the league table. *)
Theorem cumulative_points_series (current : list Match.t) :
  exists table,
    league_table current = Ret table
    /\ map fst (cumulative_points current) = teams_of current
    /\ forall (team : string) (series : list CumPoint.t),
         In (team, series) (cumulative_points current) ->
         (exists fixtures,
             Permutation fixtures (team_fixtures current team)
             /\ StronglySorted
                  (fun a b => String.leb (fst a) (fst b) = true) fixtures
             /\ map CumPoint.points series = cumsum (map snd fixtures))
         /\ (forall (i : nat) (p : CumPoint.t),
             series !! i = Some p -> CumPoint.matchday p = Z.of_nat i + 1)
         /\ (forall (i j : nat) (p q : CumPoint.t),
               (i <= j)%nat -> series !! i = Some p -> series !! j = Some q ->
               CumPoint.points p <= CumPoint.points q)
         /\ (exists p r,
               last series = Some p
               /\ find_team table team = Some r
               /\ CumPoint.points p = Team.points r).
Proof.
  destruct (league_table_ret current) as (table & Htab & Hperm).
  exists table. split; [exact Htab|]. split.
  - unfold cumulative_points. rewrite map_map. simpl. apply map_id.
  - intros team series Hin. unfold cumulative_points in Hin.
    apply in_map_iff in Hin as (t & [= <- <-] & Ht).
    destruct (team_cumulative_series current t Ht) as (Hday & Hmono & Hlast).
    split; [apply team_cumulative_fixtures|].
    split; [exact Hday|]. split; [exact Hmono|].
    destruct Hlast as (p & r & Hp & Hr & Hpts).
    destruct (find_team_In table t) as (r1 & Hfind & Hr1 & Hteam).
    { eapply Permutation_in; [symmetry; exact Hperm|exact Ht]. }
    exists p, r1. split; [exact Hp|]. split; [exact Hfind|].
    destruct (league_table_rows current table Htab r1 Hr1)
      as (_ & r0 & pos & Hr0 & ->).
    simpl in Hteam, Hr0. rewrite Hpts. simpl.
    rewrite Hteam in Hr0. rewrite Hr0 in Hr. injection Hr as <-. reflexivity.
Qed.

(** ** Rounding *)

Lemma round_half_even_bound (q : Q) :
  (Qabs (inject_Z (round_half_even q) - q) <= 1 # 2)%Q.
Proof.
  pose proof (Qfloor_le q) as Hlo.
  pose proof (Qlt_floor q) as Hhi.
  rewrite inject_Z_plus in Hhi. change (inject_Z 1) with 1%Q in Hhi.
  apply Qabs_Qle_condition. unfold round_half_even.
  destruct (Qcompare (q - inject_Z (Qfloor q)) (1 # 2)) eqn:E.
  - apply Qeq_alt in E.
    destruct (Z.even (Qfloor q));
      [|rewrite inject_Z_plus; change (inject_Z 1) with 1%Q]; split; lra.
  - apply Qlt_alt in E. split; lra.
  - apply Qgt_alt in E. rewrite inject_Z_plus.
    change (inject_Z 1) with 1%Q. split; lra.
Qed.

Lemma pow10_pos (d : nat) : 0 < pow10 d.
Proof. unfold pow10. apply Z.pow_pos_nonneg; lia. Qed.

Lemma py_round_eq (x : Q) (d : nat) :
  (py_round x d ==
   inject_Z (round_half_even (x * inject_Z (pow10 d))) / inject_Z (pow10 d))%Q.
Proof. unfold py_round. apply Qred_correct. Qed.

(** A rounded value is within half a unit of the last kept decimal. *)
Lemma py_round_bound (x : Q) (d : nat) :
  (Qabs (py_round x d - x) <= (1 # 2) / inject_Z (pow10 d))%Q.
Proof.
  pose proof (pow10_pos d) as Hp.
  assert (Hq : (0 < inject_Z (pow10 d))%Q).
  { unfold Qlt. simpl. lia. }
  set (p := inject_Z (pow10 d)) in *.
  pose proof (round_half_even_bound (x * p)) as Hb.
  set (r := inject_Z (round_half_even (x * p))) in *.
  assert (E : (py_round x d - x == (r - x * p) * / p)%Q).
  { rewrite py_round_eq. fold p r. field. lra. }
  rewrite E, Qabs_Qmult.
  assert (Hinv : (0 < / p)%Q) by (apply Qinv_lt_0_compat; exact Hq).
  rewrite (Qabs_pos (/ p)) by lra.
  unfold Qdiv. apply Qmult_le_compat_r; [exact Hb|lra].
Qed.

Lemma py_round_rounds_to (x : Q) (d : nat) : rounds_to d x (py_round x d).
Proof.
  split; [|apply py_round_bound].
  exists (round_half_even (x * inject_Z (pow10 d))). apply py_round_eq.
Qed.

Lemma rounds_to_2 (x v : Q) :
  rounds_to 2 x v -> (Qabs (v - x) <= 1 # 200)%Q.
Proof.
  intros [_ H]. eapply Qle_trans; [exact H|].
  unfold Qle. simpl. lia.
Qed.

Lemma py_round_zero (d : nat) : py_round 0 d = 0%Q.
Proof.
  unfold py_round. destruct (pow10 d); reflexivity.
Qed.

(** ** Shot accuracy and xG per shot *)

Lemma py_for_ret_map {A B : Type} (f : A -> py B) (g : A -> B) (l : list A) :
  (forall x, f x = Ret (g x)) -> py_for f l = Ret (map g l).
Proof.
  intros Hf. induction l as [|x l IH]; simpl; [reflexivity|].
  rewrite Hf, IH. reflexivity.
Qed.

Lemma league_table_shot_accuracy (current : list Match.t)
  (table : list Team.t) (r : Team.t) :
  league_table current = Ret table -> In r table ->
  Team.shot_accuracy r =
  if 0 <? Team.total_shots r
  then py_round (inject_Z (Team.total_shots_on_target r)
                 / inject_Z (Team.total_shots r) * 100) 2
  else 0%Q.
Proof.
  intros Htab Hr.
  destruct (league_table_rows current table Htab r Hr)
    as (_ & r0 & p & Hr0 & ->). simpl in *.
  destruct (build_team_stats_ret current (Team.team r0))
    as (r1 & Hr1 & _ & _ & Hacc & _).
  rewrite Hr1 in Hr0. injection Hr0 as ->.
  rewrite shot_acc_of_eq in Hacc. injection Hacc as <-. reflexivity.
Qed.

Lemma shot_quality_row_eq (table_rows : list Team.t) (row : XGTeam.t) :
  shot_quality_row table_rows row =
  Ret (match find_team table_rows (XGTeam.team row) with
       | Some tr =>
           if 0 <? Team.total_shots tr
           then Some (ShotQuality.mk (XGTeam.team row) (Team.total_shots tr)
                        (py_round (safe_float (XGTeam.xg_for row) 2
                                   / inject_Z (Team.total_shots tr)) 3))
           else None
       | None => None
       end).
Proof.
  unfold shot_quality_row.
  destruct (find_team table_rows (XGTeam.team row)) as [tr|]; [|reflexivity].
  destruct (Z.ltb_spec 0 (Team.total_shots tr)); [|reflexivity].
  rewrite py_div_pos by assumption. reflexivity.
Qed.

Lemma tolerance_2 : ((1 # 2) / inject_Z (pow10 2) <= 1 # 200)%Q.
Proof. unfold Qle. simpl. lia. Qed.

Lemma tolerance_3 : ((1 # 2) / inject_Z (pow10 3) <= 1 # 2000)%Q.
Proof. unfold Qle. simpl. lia. Qed.

Lemma rounds_to_3 (x v : Q) :
  rounds_to 3 x v -> (Qabs (v - x) <= 1 # 2000)%Q.
Proof.
  intros [_ H]. eapply Qle_trans; [exact H|].
  unfold Qle. simpl. lia.
Qed.

Lemma safe_float_rounds_to (cell : option Q) (d : nat) :
  rounds_to d (cell_or_zero cell) (safe_float cell d).
Proof.
  destruct cell as [x|]; [apply py_round_rounds_to|].
  cbn [safe_float cell_or_zero]. rewrite <- (py_round_zero d).
  apply py_round_rounds_to.
Qed.

(** A quotient of a rounded numerator, rounded again, against the quotient
    of the numerator itself. *)
Lemma rounded_quotient_bound (c x2 v : Q) (shots : Z) :
  0 < shots ->
  rounds_to 2 c x2 ->
  rounds_to 3 (x2 / inject_Z shots) v ->
  (Qabs (v - c / inject_Z shots)
   <= (1 # 2000) + (1 # 200) / inject_Z shots)%Q.
Proof.
  intros Hs H2 H3. apply rounds_to_2 in H2. apply rounds_to_3 in H3.
  assert (Hq : (0 < inject_Z shots)%Q) by (unfold Qlt; simpl; lia).
  set (s := inject_Z shots) in *. clearbody s.
  assert (Hinv : (0 < / s)%Q) by (apply Qinv_lt_0_compat, Hq).
  assert (Hs0 : ~ (s == 0)%Q).
  { intros E0. rewrite E0 in Hq. exact (Qlt_irrefl 0 Hq). }
  assert (E : (v - c / s == (v - x2 / s) + (x2 - c) * / s)%Q)
    by (field; exact Hs0).
  rewrite E. eapply Qle_trans; [apply Qabs_triangle|].
  rewrite Qabs_Qmult, (Qabs_pos (/ s)) by (apply Qlt_le_weak, Hinv).
  assert (H : (Qabs (x2 - c) * / s <= (1 # 200) * / s)%Q)
    by (apply Qmult_le_compat_r; [exact H2|apply Qlt_le_weak, Hinv]).
  unfold Qdiv.
  apply Qplus_le_compat; assumption.
Qed.

(** C5 as the code has it.  Neither computation ever divides by zero.  A
    team without shots has shot accuracy exactly 0, and any other team has
    the ratio of shots on target to shots, times 100, to 2 decimals, within
    0.005 of it whichever way a tie is rounded.  A shot-quality row exists
    exactly for the xG rows of teams that are in the table with at least
    one shot, so never for a team without shots.  Its xG per shot is the
    team's xG as rounded to 2 decimals, over the team's shots, to 3
    decimals: within 0.0005 of that quotient, and within 0.0005 plus
    0.005 over the shots of the xG of the file over the shots. *)
Theorem shot_metrics_guarded (current : list Match.t)
  (xg_teams_df : list XGTeam.t) :
  exists table sq,
    league_table current = Ret table
    /\ shot_quality_of table xg_teams_df = Ret sq
    /\ (forall r, In r table ->
          (Team.total_shots r <= 0 -> Team.shot_accuracy r = 0%Q)
          /\ (0 < Team.total_shots r ->
              rounds_to 2
                (inject_Z (Team.total_shots_on_target r)
                 / inject_Z (Team.total_shots r) * 100)
                (Team.shot_accuracy r)))
    /\ (forall q, In q sq ->
          exists row tr xg2,
            In row xg_teams_df
            /\ XGTeam.team row = ShotQuality.team q
            /\ find_team table (ShotQuality.team q) = Some tr
            /\ 0 < Team.total_shots tr
            /\ ShotQuality.total_shots q = Team.total_shots tr
            /\ rounds_to 2 (cell_or_zero (XGTeam.xg_for row)) xg2
            /\ rounds_to 3 (xg2 / inject_Z (Team.total_shots tr))
                 (ShotQuality.xg_per_shot q)
            /\ (Qabs (ShotQuality.xg_per_shot q
                      - cell_or_zero (XGTeam.xg_for row)
                        / inject_Z (Team.total_shots tr))
                <= (1 # 2000) + (1 # 200) / inject_Z (Team.total_shots tr))%Q)
    /\ (forall row tr,
          In row xg_teams_df ->
          find_team table (XGTeam.team row) = Some tr ->
          0 < Team.total_shots tr ->
          exists q, In q sq /\ ShotQuality.team q = XGTeam.team row).
Proof.
  destruct (league_table_ret current) as (table & Htab & _).
  exists table. eexists. split; [exact Htab|]. split.
  { unfold shot_quality_of.
    rewrite (py_for_ret_map _ _ _ (shot_quality_row_eq table)).
    reflexivity. }
  split; [|split].
  - intros r Hr.
    pose proof (league_table_shot_accuracy current table r Htab Hr) as Hacc.
    split.
    + intros Hz. rewrite Hacc.
      destruct (Z.ltb_spec 0 (Team.total_shots r)); [lia|reflexivity].
    + intros Hz. rewrite Hacc.
      destruct (Z.ltb_spec 0 (Team.total_shots r)); [|lia].
      apply py_round_rounds_to.
  - intros q Hq. unfold sort_desc_Q in Hq. apply py_sort_In in Hq.
    apply list_elem_of_In, list_elem_of_omap in Hq as (o & Ho & Hq).
    apply list_elem_of_In, in_map_iff in Ho as (row & <- & Hrow).
    unfold id in Hq.
    destruct (find_team table (XGTeam.team row)) as [tr|] eqn:Hfind;
      [|discriminate].
    destruct (Z.ltb_spec 0 (Team.total_shots tr)) as [Hpos|]; [|discriminate].
    injection Hq as <-.
    cbn [ShotQuality.team ShotQuality.total_shots ShotQuality.xg_per_shot].
    exists row, tr, (safe_float (XGTeam.xg_for row) 2).
    split; [exact Hrow|]. split; [reflexivity|]. split; [exact Hfind|].
    split; [exact Hpos|]. split; [reflexivity|].
    split; [apply safe_float_rounds_to|].
    split; [apply py_round_rounds_to|].
    apply (rounded_quotient_bound _ (safe_float (XGTeam.xg_for row) 2));
      [exact Hpos|apply safe_float_rounds_to|apply py_round_rounds_to].
  - intros row tr Hrow Hfind Hpos.
    eexists. split.
    + unfold sort_desc_Q. apply py_sort_In.
      apply list_elem_of_In, list_elem_of_omap. eexists. split.
      * apply list_elem_of_In, in_map. exact Hrow.
      * unfold id. rewrite Hfind.
        destruct (Z.ltb_spec 0 (Team.total_shots tr)); [reflexivity|lia].
    + reflexivity.
Qed.

(** C5 as stated fails on one match.  Arsenal is in the league table
    without a shot, so its shot denominator is 0; yet it gets no
    xG-per-shot value of 0: the shot-quality section has no row for it. *)
Lemma shot_metrics_counterexample :
  exists table arsenal,
    league_table [sample_goalless] = Ret table
    /\ find_team table "Arsenal" = Some arsenal
    /\ Team.total_shots arsenal = 0
    /\ shot_quality_of table [sample_xg_arsenal] = Ret [].
Proof.
  eexists. eexists. split; [vm_compute; reflexivity|].
  split; [reflexivity|]. split; reflexivity.
Qed.

(** ** No section of the run raises *)

Lemma Qlt_bool_iff (a b : Q) : Qlt_bool a b = true <-> (a < b)%Q.
Proof.
  unfold Qlt_bool. rewrite negb_true_iff. split.
  - intros E. apply Qnot_le_lt. intros Hle.
    apply Qle_bool_iff in Hle. congruence.
  - intros Hlt. destruct (Qle_bool b a) eqn:E; [|reflexivity].
    apply Qle_bool_iff in E. apply Qle_not_lt in E. contradiction.
Qed.

Lemma py_div_nonzero (a b : Q) :
  ~ (b == 0)%Q -> py_div a b = Ret (a / b)%Q.
Proof.
  intros Hb. unfold py_div.
  destruct (Qeq_bool b 0) eqn:E; [|reflexivity].
  apply Qeq_bool_eq in E. contradiction.
Qed.

Lemma per90_total (stat minutes : Z) : exists q, per90 stat minutes = Ret q.
Proof.
  unfold per90. destruct (Z.ltb_spec minutes 90); [eexists; reflexivity|].
  rewrite py_div_pos by lia. eexists; reflexivity.
Qed.

Lemma py_first_sorted {A : Type} (leb : A -> A -> bool) (l : list A) :
  l <> [] -> exists x, py_first (py_sort leb l) = Ret x /\ In x l.
Proof.
  intros Hl. destruct (py_sort leb l) as [|x l'] eqn:E.
  - apply (f_equal (@length A)) in E. rewrite py_sort_length in E.
    destruct l; [contradiction|discriminate].
  - exists x. split; [reflexivity|].
    apply (py_sort_In leb). rewrite E. left. reflexivity.
Qed.

Lemma player_teams_In (fpl : list Player.t) (t : string) :
  In t (player_teams fpl) <-> exists p, In p fpl /\ Player.team p = t.
Proof.
  unfold player_teams. rewrite py_sort_In, <- list_elem_of_In.
  rewrite elem_of_elements, elem_of_list_to_set.
  rewrite list_elem_of_In, in_map_iff. split.
  - intros (p & Hp & Hin). exists p. auto.
  - intros (p & Hin & Hp). exists p. auto.
Qed.

Lemma iron_man_of_total (fpl : list Player.t) (t : string) :
  In t (player_teams fpl) -> exists r, iron_man_of fpl t = Ret r.
Proof.
  intros Ht. apply player_teams_In in Ht as (p & Hp & Hteam).
  unfold iron_man_of, sort_desc_Z.
  destruct (py_first_sorted
              (fun a b => - Player.minutes a <=? - Player.minutes b)
              (List.filter (fun p => String.eqb (Player.team p) t) fpl))
    as (x & Hx & _).
  { intros E.
    assert (Hin : In p (List.filter
                          (fun p => String.eqb (Player.team p) t) fpl)).
    { apply filter_In. split; [exact Hp|]. apply String.eqb_eq, Hteam. }
    rewrite E in Hin. destruct Hin. }
  rewrite Hx. eexists; reflexivity.
Qed.

Lemma position_goals_of_total (fpl : list Player.t) (pos : string) :
  exists r, position_goals_of fpl pos = Ret r.
Proof.
  unfold position_goals_of.
  destruct (Z.ltb_spec 0
              (len (List.filter (fun p => 0 <? Player.minutes p)
                      (List.filter
                         (fun p => String.eqb (Player.position p) pos) fpl)))).
  - rewrite py_div_pos by assumption. eexists; reflexivity.
  - eexists; reflexivity.
Qed.

Lemma player_leaderboards_of_total (strip_accents lower : string -> string)
  (idx : XGIndex.t) (fpl : list Player.t) :
  exists lb, player_leaderboards_of strip_accents lower idx fpl = Ret lb.
Proof.
  unfold player_leaderboards_of.
  match goal with |- context [py_for ?f ?l] =>
    destruct (py_for_total f l) as [gs ->] end.
  { intros [i row] _. unfold goal_scorer_row. simpl.
    match goal with |- context [per90 ?a ?b] =>
      destruct (per90_total a b) as [q ->] end.
    eexists; reflexivity. }
  cbn [py_bind].
  match goal with |- context [py_for ?f ?l] =>
    destruct (py_for_total f l) as [als ->] end.
  { intros [i row] _. unfold assist_leader_row. simpl.
    match goal with |- context [per90 ?a ?b] =>
      destruct (per90_total a b) as [q ->] end.
    eexists; reflexivity. }
  cbn [py_bind].
  destruct (py_for_total (iron_man_of fpl) (player_teams fpl)) as [im ->].
  { intros t Ht. apply iron_man_of_total, Ht. }
  cbn [py_bind].
  destruct (py_for_total (position_goals_of fpl) ["FWD"; "MID"; "DEF"; "GK"])
    as [gp ->].
  { intros pos _. apply position_goals_of_total. }
  cbn [py_bind]. eexists; reflexivity.
Qed.

Lemma money_base_row_total (table_rows : list Team.t) (sv : string * Q) :
  exists r, money_base_row table_rows sv = Ret r.
Proof.
  unfold money_base_row.
  destruct (find_team table_rows (fst sv)) as [tr|]; [|eexists; reflexivity].
  destruct (Z.ltb_spec 0 (Team.played tr)).
  - rewrite py_div_pos by assumption. eexists; reflexivity.
  - eexists; reflexivity.
Qed.

(** ** The money-vs-points regression *)

Lemma linear_fit_ret (values : list Q) (points : list Z) :
  values <> [] ->
  linear_fit values points =
  Ret (Fit.mk (mean_values values) (mean_points values points)
         (covariance values points) (variance values)
         (variance_points values points)
         (ols_slope values points) (ols_intercept values points)
         (ols_r_squared values points)).
Proof.
  intros Hne. unfold linear_fit.
  assert (Hn : 0 < len values).
  { unfold len. destruct values; [contradiction|simpl; lia]. }
  rewrite !py_div_pos by exact Hn. cbn [py_bind].
  fold (mean_values values). fold (mean_points values points).
  fold (covariance values points). fold (variance values).
  fold (variance_points values points).
  unfold ols_intercept, ols_r_squared, ols_slope.
  destruct (Qlt_bool 0 (variance values)) eqn:Ev.
  - apply Qlt_bool_iff in Ev.
    rewrite py_div_nonzero by (intros E; rewrite E in Ev; discriminate).
    cbn [py_bind andb].
    destruct (Qlt_bool 0 (variance_points values points)) eqn:Ep.
    + apply Qlt_bool_iff in Ep.
      rewrite py_div_nonzero; [reflexivity|].
      intros E.
      pose proof (Qmult_lt_0_compat _ _ Ev Ep) as Hpos.
      rewrite E in Hpos. discriminate.
    + reflexivity.
  - reflexivity.
Qed.

Lemma money_fit_ret (money_rows : list MoneyBase.t) :
  money_rows <> [] ->
  exists m,
    money_fit money_rows = Ret m
    /\ MoneyVsPoints.regression m =
       Regression.mk
         (safe_float (Some (ols_slope (map MoneyBase.squad_value money_rows)
                              (map MoneyBase.points money_rows))) 4)
         (safe_float (Some (ols_intercept (map MoneyBase.squad_value money_rows)
                              (map MoneyBase.points money_rows))) 2)
         (safe_float (Some (ols_r_squared (map MoneyBase.squad_value money_rows)
                              (map MoneyBase.points money_rows))) 3).
Proof.
  intros Hne. unfold money_fit.
  rewrite linear_fit_ret by (destruct money_rows; [contradiction|discriminate]).
  cbn [py_bind]. eexists. split; reflexivity.
Qed.

Lemma money_vs_points_of_total (table_rows : list Team.t)
  (players_df : list Player.t) :
  exists m, money_vs_points_of table_rows players_df = Ret m.
Proof.
  unfold money_vs_points_of.
  destruct (py_for_total (money_base_row table_rows)
              (squad_values_of players_df)) as [rows ->].
  { intros sv _. apply money_base_row_total. }
  cbn [py_bind]. destruct (omap id rows) as [|r rs] eqn:E.
  - eexists; reflexivity.
  - destruct (money_fit_ret (r :: rs)) as (m & -> & _); [discriminate|].
    eexists; reflexivity.
Qed.

(** ** The run as a whole *)

Lemma shot_quality_of_total (table_rows : list Team.t)
  (xg_teams_df : list XGTeam.t) :
  exists sq, shot_quality_of table_rows xg_teams_df = Ret sq.
Proof.
  unfold shot_quality_of.
  rewrite (py_for_ret_map _ _ _ (shot_quality_row_eq table_rows)).
  eexists; reflexivity.
Qed.

Section RunFacts.
Variable strip_accents : string -> string.
Variable lower : string -> string.

(** Once the match table has been read, every section is computed without
    a fault, and the clock only reaches [generated_at]. *)
Lemma transform_ret (df : list Match.t) (inp : Inputs.t) :
  let current :=
    List.filter (fun m => String.eqb (Match.season m) CURRENT_SEASON) df in
  exists table sq lb mvp doc0,
    league_table current = Ret table
    /\ match has_xg inp, Inputs.xg_teams inp with
       | true, Some xg_teams_df =>
           exists rows, shot_quality_of table xg_teams_df = Ret rows
                        /\ sq = Some rows
                        /\ Document.xg_table doc0
                           = Some (xg_table_of table xg_teams_df)
       | _, _ => sq = None /\ Document.xg_table doc0 = None
                 /\ Document.xg_vs_actual doc0 = None
       end
    /\ match Inputs.players inp with
       | Some players_df =>
           (exists idx boards,
              player_leaderboards_of strip_accents lower idx players_df
              = Ret boards /\ lb = Some boards)
           /\ money_vs_points_of table players_df = Ret mvp
       | None => lb = None /\ mvp = None
       end
    /\ Document.league_table doc0 = table
    /\ Document.cumulative_points doc0 = cumulative_points current
    /\ Document.season_status doc0 = season_status_of current
    /\ Document.total_matches doc0 = len current
    /\ Document.shot_quality doc0 = sq
    /\ Document.player_leaderboards doc0 = lb
    /\ Document.money_vs_points doc0 = mvp
    /\ forall now,
         transform strip_accents lower df inp now
         = Ret (Document.set_generated_at now doc0).
Proof.
  intros current. unfold transform. fold current.
  destruct (league_table_ret current) as (table & Htab & _).
  rewrite Htab. cbn [py_bind].
  exists table.
  assert (Htotal : 0 < (if 0 <? len current then len current else 1)).
  { destruct (Z.ltb_spec 0 (len current)); lia. }
  destruct (0 <? (if 0 <? len current then len current else 1)) eqn:E;
    [|apply Z.ltb_ge in E; lia].
  rewrite py_div_pos by exact Htotal.
  destruct (has_xg inp) eqn:Hx;
    destruct (Inputs.xg_teams inp) as [xt|] eqn:Hxt;
    destruct (Inputs.players inp) as [pl|] eqn:Hpl;
    try (destruct (shot_quality_of_total table xt) as [sqr Hsq]; rewrite Hsq);
    cbn [py_bind];
    try (match goal with |- context [player_leaderboards_of _ _ ?i _] =>
           destruct (player_leaderboards_of_total strip_accents lower i pl)
             as [boards Hb]; rewrite Hb
         end;
         destruct (money_vs_points_of_total table pl) as [mvp Hm];
         rewrite Hm);
    cbn [py_bind fst snd];
    do 3 eexists; eexists (Document.mk "" _ _ _ _ _ _ _ _ _ _ _ _ _);
    (split; [reflexivity|]);
    (split;
     [first [ eexists; split; [reflexivity|split; reflexivity]
            | split; [reflexivity|split; reflexivity] ]|]);
    (split;
     [first [ split; [eexists _, _; split; [exact Hb|reflexivity]|reflexivity]
            | split; reflexivity ]|]);
    cbn; repeat (split; [reflexivity|]); intros now; reflexivity.
Qed.

Lemma main_saved (df : list Match.t) (inp : Inputs.t) :
  Inputs.matches_clean inp = Some df ->
  exists doc0,
    (forall now, main strip_accents lower inp now
                 = Saved (Document.set_generated_at now doc0))
    /\ forall now, transform strip_accents lower df inp now
                   = Ret (Document.set_generated_at now doc0).
Proof.
  intros Hdf.
  destruct (transform_ret df inp) as (table & sq & lb & mvp & doc0 & H).
  repeat (destruct H as [_ H]).
  exists doc0. split; [|exact H].
  intros now. unfold main. rewrite Hdf, H. reflexivity.
Qed.
End RunFacts.

Lemma league_table_nil : league_table [] = Ret [].
Proof. reflexivity. Qed.

Lemma cumulative_points_nil : cumulative_points [] = [].
Proof. reflexivity. Qed.

(** C2 as the code has it.  The run stops, with exit status 1 and without a
    document, exactly when matches_clean.csv does not exist.  Whenever the
    file was read the run saves a document; when the table has no row of
    the current season this document has an empty league table, no
    cumulative series and a status section of zeros. *)
Theorem main_stops_only_without_file (strip_accents lower : string -> string)
  (inp : Inputs.t) (now : string) :
  match Inputs.matches_clean inp with
  | None => main strip_accents lower inp now = Exit 1
  | Some df =>
      exists doc,
        main strip_accents lower inp now = Saved doc
        /\ Document.generated_at doc = now
        /\ (List.filter (fun m => String.eqb (Match.season m) CURRENT_SEASON) df
            = [] ->
            Document.league_table doc = []
            /\ Document.cumulative_points doc = []
            /\ Document.total_matches doc = 0
            /\ Document.season_status doc = empty_season_status)
  end.
Proof.
  destruct (Inputs.matches_clean inp) as [df|] eqn:Hdf.
  - destruct (transform_ret strip_accents lower df inp)
      as (table & sq & lb & mvp & doc0 & Htab & _ & _ & Ht & Hc & Hs & Hn
          & _ & _ & _ & Hdoc).
    exists (Document.set_generated_at now doc0). split.
    { unfold main. rewrite Hdf, Hdoc. reflexivity. }
    split; [reflexivity|]. intros Hcur. cbn.
    rewrite Hcur in *. rewrite league_table_nil in Htab.
    injection Htab as <-. rewrite Ht, Hc, Hn, Hs. repeat split.
  - unfold main. rewrite Hdf. reflexivity.
Qed.

(** C2 as stated fails: with a match table that has no row the run does
    not stop; it saves a document whose league table is empty. *)
Lemma empty_matches_counterexample :
  exists doc,
    main (fun s => s) ascii_lower sample_no_match "2026-01-05T09:00:00"
    = Saved doc
    /\ Document.league_table doc = []
    /\ Document.season_status doc = empty_season_status.
Proof. eexists. split; [vm_compute; reflexivity|]. split; reflexivity. Qed.

Lemma player_leaderboards_of_nil (strip_accents lower : string -> string)
  (idx : XGIndex.t) :
  player_leaderboards_of strip_accents lower idx [] = Ret empty_leaderboards.
Proof. reflexivity. Qed.

Lemma money_vs_points_of_nil (table_rows : list Team.t) :
  money_vs_points_of table_rows [] = Ret None.
Proof. reflexivity. Qed.

(** C3 as the code has it.  Without players.csv both the player
    leaderboards and the money-vs-points section are null.  With a player
    table that has no row the money-vs-points section is null, but the
    leaderboards are built all the same: five empty boards and the four
    position rows, all zero. *)
Theorem fantasy_sections (strip_accents lower : string -> string)
  (df : list Match.t) (players : option (list Player.t))
  (xg_teams : option (list XGTeam.t)) (xg_players : option (list XGPlayer.t))
  (now : string) :
  exists doc,
    main strip_accents lower
      (Inputs.mk (Some df) players xg_teams xg_players) now = Saved doc
    /\ (players = None ->
        Document.player_leaderboards doc = None
        /\ Document.money_vs_points doc = None)
    /\ (players = Some [] ->
        Document.player_leaderboards doc = Some empty_leaderboards
        /\ Document.money_vs_points doc = None).
Proof.
  set (inp := Inputs.mk (Some df) players xg_teams xg_players).
  destruct (transform_ret strip_accents lower df inp)
    as (table & sq & lb & mvp & doc0 & _ & _ & Hpl & _ & _ & _ & _ & _
        & Hlb & Hmvp & Hdoc).
  exists (Document.set_generated_at now doc0). split.
  { unfold main. cbn [inp Inputs.matches_clean]. rewrite Hdoc. reflexivity. }
  cbn [inp Inputs.players] in Hpl. cbn. rewrite Hlb, Hmvp. split.
  - intros ->. destruct Hpl as [-> ->]. split; reflexivity.
  - intros ->. destruct Hpl as [(idx & boards & Hb & ->) Hm].
    rewrite player_leaderboards_of_nil in Hb. injection Hb as <-.
    rewrite money_vs_points_of_nil in Hm. injection Hm as <-.
    split; reflexivity.
Qed.

(** C3 as stated fails: with a player table that has no row, the player
    leaderboards section of the document is not null. *)
Lemma empty_players_counterexample :
  exists doc,
    main (fun s => s) ascii_lower sample_no_player "2026-01-05T09:00:00"
    = Saved doc
    /\ Document.player_leaderboards doc = Some empty_leaderboards.
Proof. eexists. split; [vm_compute; reflexivity|reflexivity]. Qed.

(** C8 as stated fails: the same input run at two different times gives
    two different documents. *)
Lemma rerun_counterexample :
  main (fun s => s) ascii_lower sample_one_match "2026-01-05T09:00:00"
  <> main (fun s => s) ascii_lower sample_one_match "2026-01-05T09:00:01".
Proof. vm_compute. discriminate. Qed.




(** ** The xG lookup indexes *)


Lemma first_hit_None {A B : Type} (f : A -> option B) (l : list A) :
  first_hit f l = None <-> forall x, In x l -> f x = None.
Proof.
  induction l as [|x l IH]; simpl.
  - split; [intros _ x []|reflexivity].
  - destruct (f x) as [y|] eqn:E.
    + split; [discriminate|]. intros Hall.
      rewrite (Hall x (or_introl eq_refl)) in E. discriminate.
    + rewrite IH. split.
      * intros Hall z [<-|Hz]; [exact E|apply Hall, Hz].
      * intros Hall z Hz. apply Hall. right. exact Hz.
Qed.

Lemma index_le_refl (idx : XGIndex.t) : index_le idx idx.
Proof. repeat split; auto. Qed.

Lemma index_le_trans (i1 i2 i3 : XGIndex.t) :
  index_le i1 i2 -> index_le i2 i3 -> index_le i1 i3.
Proof.
  intros (A1 & A2 & A3) (B1 & B2 & B3). repeat split; auto.
Qed.

Lemma index_covers_le (i1 i2 : XGIndex.t) (name last name_norm : string)
  (data : XGData.t) (team : string) :
  index_le i1 i2 ->
  index_covers i1 name last name_norm data team ->
  index_covers i2 name last name_norm data team.
Proof.
  intros (A1 & A2 & A3) (C1 & C2 & C3). repeat split; auto.
Qed.

Lemma index_under_le (name last name_norm : string) (data : XGData.t)
  (idx : XGIndex.t) (team : string) :
  index_le idx (index_under name last name_norm data idx team).
Proof.
  unfold index_le, index_under. cbn. split; [|split].
  - intros k Hk. rewrite lookup_insert. case_decide; eauto.
  - intros k Hk. rewrite lookup_insert. case_decide; eauto.
  - intros t c Hc. rewrite lookup_total_insert. case_decide; [|exact Hc].
    subst t. apply in_or_app. left. exact Hc.
Qed.

Lemma index_under_covers (name last name_norm : string) (data : XGData.t)
  (idx : XGIndex.t) (team : string) :
  index_covers (index_under name last name_norm data idx team)
    name last name_norm data team.
Proof.
  unfold index_covers, index_under. cbn.
  rewrite !lookup_insert_eq, lookup_total_insert_eq.
  split; [eauto|]. split; [eauto|].
  apply in_or_app. right. left. reflexivity.
Qed.

Lemma fold_under_le (name last name_norm : string) (data : XGData.t)
  (teams : list string) (idx : XGIndex.t) :
  index_le idx (fold_left (index_under name last name_norm data) teams idx).
Proof.
  revert idx. induction teams as [|t ts IH]; intros idx; simpl.
  - apply index_le_refl.
  - eapply index_le_trans; [apply index_under_le|apply IH].
Qed.

Lemma fold_under_covers (name last name_norm : string) (data : XGData.t)
  (teams : list string) (idx : XGIndex.t) (team : string) :
  In team teams ->
  index_covers (fold_left (index_under name last name_norm data) teams idx)
    name last name_norm data team.
Proof.
  revert idx. induction teams as [|t ts IH]; intros idx; simpl; [intros []|].
  intros [->|Hin].
  - eapply index_covers_le; [apply fold_under_le|apply index_under_covers].
  - apply IH, Hin.
Qed.

Section IndexFacts.
Variable strip_accents : string -> string.
Variable lower : string -> string.


Lemma index_row_le (idx : XGIndex.t) (xr : XGPlayer.t) :
  index_le idx (index_row strip_accents lower idx xr).
Proof.
  unfold index_row.
  destruct (XGPlayer.player_name xr); [apply fold_under_le|apply index_le_refl].
Qed.

Lemma fold_row_le (rows : list XGPlayer.t) (idx : XGIndex.t) :
  index_le idx (fold_left (index_row strip_accents lower) rows idx).
Proof.
  revert idx. induction rows as [|xr rows IH]; intros idx; simpl.
  - apply index_le_refl.
  - eapply index_le_trans; [apply index_row_le|apply IH].
Qed.

(** Every row with a player name is indexed under each of its teams. *)
Lemma build_index_covers (rows : list XGPlayer.t) (xr : XGPlayer.t)
  (n team : string) :
  In xr rows ->
  XGPlayer.player_name xr = Some n ->
  In team (record_teams xr) ->
  index_covers (build_index strip_accents lower rows) n (last_name (normalize strip_accents lower n)) (normalize strip_accents lower n)
    (xg_data_of xr) team.
Proof.
  unfold build_index. generalize XGIndex.empty.
  induction rows as [|x rows IH]; intros idx Hin Hn Ht; [destruct Hin|].
  simpl. destruct Hin as [->|Hin]; [|apply IH; assumption].
  eapply index_covers_le; [apply fold_row_le|].
  unfold index_row. rewrite Hn. simpl safe_str.
  apply fold_under_covers, Ht.
Qed.





End IndexFacts.

(** ** Player matching *)

Section EnrichFacts.
Variable strip_accents : string -> string.
Variable lower : string -> string.





End EnrichFacts.

(** ** The text operations on small inputs *)

Example split_teams_transfer :
  split_teams "Chelsea, Arsenal" = ["Chelsea"; "Arsenal"].
Proof. reflexivity. Qed.

Example split_teams_nan : split_teams (safe_str None) = [""].
Proof. reflexivity. Qed.

Example dot_parts_initial :
  dot_parts (fun s => s) ascii_lower "B.Fernandes" = ["fernandes"].
Proof. reflexivity. Qed.

Example last_name_two_words : last_name "erling haaland" = "haaland".
Proof. reflexivity. Qed.

Example last_name_no_word : last_name "" = "".
Proof. reflexivity. Qed.

Example rstrip_dot_suffix : rstrip_dot "kroupi.jr." = "kroupi.jr".
Proof. reflexivity. Qed.

Example substring_of_full_name : is_substring "enzo" "enzo fernandez" = true.
Proof. reflexivity. Qed.

Example py_round_ties :
  py_round (5 # 2) 0 = 2%Q /\ py_round (7 # 2) 0 = 4%Q
  /\ py_round (-5 # 2) 0 = (-2)%Q /\ py_round (1 # 3) 2 = (33 # 100)%Q.
Proof. repeat split. Qed.

(** The sample match as a league table: two teams level on every ranking
    column, in ascending order of name. *)
Example league_table_sample :
  exists table,
    league_table [sample_goalless] = Ret table
    /\ map Team.team table = ["Arsenal"; "Burnley"]
    /\ map Team.points table = [1; 1]
    /\ map Team.position table = [Some 1; Some 2]
    /\ cumulative_points [sample_goalless]
       = [("Arsenal", [CumPoint.mk 1 1]); ("Burnley", [CumPoint.mk 1 1])].
Proof. eexists. split; [vm_compute; reflexivity|]. repeat split. Qed.

(** * Further properties *)

(** ** Rows of the league table *)

Lemma len_nonneg {A : Type} (l : list A) : 0 <= len l.
Proof. unfold len. lia. Qed.

Lemma len_filter_le {A : Type} (f : A -> bool) (l : list A) :
  len (List.filter f l) <= len l.
Proof.
  unfold len. induction l as [|x l IH]; simpl; [lia|].
  destruct (f x); simpl; lia.
Qed.

Lemma len_results (l : list Match.t) :
  len l = len (List.filter (has_result Result.H) l)
          + len (List.filter (has_result Result.D) l)
          + len (List.filter (has_result Result.A) l).
Proof.
  unfold len. induction l as [|m l IH]; [reflexivity|].
  cbn [List.filter].
  assert (E1 : has_result Result.H m = Result.eqb (Match.result m) Result.H)
    by reflexivity.
  assert (E2 : has_result Result.D m = Result.eqb (Match.result m) Result.D)
    by reflexivity.
  assert (E3 : has_result Result.A m = Result.eqb (Match.result m) Result.A)
    by reflexivity.
  rewrite E1, E2, E3.
  destruct (Match.result m); cbn [Result.eqb length]; lia.
Qed.

(** The counting columns of the row [build_team_stats] returns. *)
Lemma build_team_stats_fields (ms : list Match.t) (t : string) :
  exists r,
    build_team_stats ms t = Ret r
    /\ Team.home_won r = len (List.filter (has_result Result.H) (home_fixtures ms t))
    /\ Team.home_drawn r = len (List.filter (has_result Result.D) (home_fixtures ms t))
    /\ Team.home_lost r = len (List.filter (has_result Result.A) (home_fixtures ms t))
    /\ Team.away_won r = len (List.filter (has_result Result.A) (away_fixtures ms t))
    /\ Team.away_drawn r = len (List.filter (has_result Result.D) (away_fixtures ms t))
    /\ Team.away_lost r = len (List.filter (has_result Result.H) (away_fixtures ms t))
    /\ Team.won r = Team.home_won r + Team.away_won r
    /\ Team.drawn r = Team.home_drawn r + Team.away_drawn r
    /\ Team.lost r = Team.home_lost r + Team.away_lost r
    /\ Team.played r = Team.won r + Team.drawn r + Team.lost r
    /\ Team.points r = Team.won r * 3 + Team.drawn r
    /\ Team.goals_for r = col_sum Match.home_goals (home_fixtures ms t)
                          + col_sum Match.away_goals (away_fixtures ms t)
    /\ Team.goals_against r = col_sum Match.away_goals (home_fixtures ms t)
                              + col_sum Match.home_goals (away_fixtures ms t)
    /\ Team.goal_difference r = Team.goals_for r - Team.goals_against r
    /\ Team.clean_sheets r =
       len (List.filter (fun m => Match.away_goals m =? 0) (home_fixtures ms t))
       + len (List.filter (fun m => Match.home_goals m =? 0) (away_fixtures ms t)).
Proof.
  unfold build_team_stats.
  rewrite shot_acc_of_eq. cbn [py_bind].
  rewrite goals_per_game_of_eq. cbn [py_bind].
  eexists. split; [reflexivity|].
  unfold home_fixtures, away_fixtures. cbn.
  repeat split; lia.
Qed.

(** The same columns, read on a row of the finished table. *)
Lemma league_table_fields (current : list Match.t) (table : list Team.t)
  (r : Team.t) :
  league_table current = Ret table -> In r table ->
  In (Team.team r) (teams_of current)
  /\ exists r0,
       build_team_stats current (Team.team r) = Ret r0
       /\ Team.played r = Team.played r0 /\ Team.won r = Team.won r0
       /\ Team.drawn r = Team.drawn r0 /\ Team.lost r = Team.lost r0
       /\ Team.points r = Team.points r0
       /\ Team.goals_for r = Team.goals_for r0
       /\ Team.goals_against r = Team.goals_against r0
       /\ Team.goal_difference r = Team.goal_difference r0
       /\ Team.clean_sheets r = Team.clean_sheets r0.
Proof.
  intros Htab Hr.
  destruct (league_table_rows current table Htab r Hr)
    as (Hteam & r0 & p & Hr0 & ->).
  split; [exact Hteam|]. exists r0. simpl in *. repeat split. exact Hr0.
Qed.

(** X1.  In every row of the league table, [played] is the number of the
    season's fixtures the team appears in, at home or away, and is at least
    1; it is the sum of won, drawn and lost; points are 3 per win and 1 per
    draw, so between 0 and 3 times [played]; goal difference is goals for
    minus goals against; and clean sheets are between 0 and [played]. *)
Theorem team_row_consistent (current : list Match.t) :
  exists table,
    league_table current = Ret table
    /\ forall r, In r table ->
         Team.played r = len (home_fixtures current (Team.team r))
                         + len (away_fixtures current (Team.team r))
         /\ 0 < Team.played r
         /\ Team.played r = Team.won r + Team.drawn r + Team.lost r
         /\ Team.points r = 3 * Team.won r + Team.drawn r
         /\ 0 <= Team.points r <= 3 * Team.played r
         /\ Team.goal_difference r = Team.goals_for r - Team.goals_against r
         /\ 0 <= Team.clean_sheets r <= Team.played r.
Proof.
  destruct (league_table_ret current) as (table & Htab & _).
  exists table. split; [exact Htab|]. intros r Hr.
  destruct (league_table_fields current table r Htab Hr)
    as (Hteam & r0 & Hr0 & -> & -> & -> & -> & -> & -> & -> & -> & ->).
  destruct (build_team_stats_fields current (Team.team r))
    as (r1 & Hr1 & Hhw & Hhd & Hhl & Haw & Had & Hal & Hw & Hd & Hl & Hp
        & Hpts & Hgf & Hga & Hgd & Hcs).
  rewrite Hr1 in Hr0. injection Hr0 as <-.
  set (home := home_fixtures current (Team.team r)) in *.
  set (away := away_fixtures current (Team.team r)) in *.
  pose proof (len_results home) as Eh.
  pose proof (len_results away) as Ea.
  pose proof (len_nonneg (List.filter (has_result Result.H) home)).
  pose proof (len_nonneg (List.filter (has_result Result.D) home)).
  pose proof (len_nonneg (List.filter (has_result Result.A) home)).
  pose proof (len_nonneg (List.filter (has_result Result.H) away)).
  pose proof (len_nonneg (List.filter (has_result Result.D) away)).
  pose proof (len_nonneg (List.filter (has_result Result.A) away)).
  pose proof (len_filter_le (fun m => Match.away_goals m =? 0) home).
  pose proof (len_filter_le (fun m => Match.home_goals m =? 0) away).
  pose proof (len_nonneg (List.filter (fun m => Match.away_goals m =? 0) home)).
  pose proof (len_nonneg (List.filter (fun m => Match.home_goals m =? 0) away)).
  assert (Hpos : 0 < len home + len away).
  { apply teams_of_In in Hteam as (m & Hm & Hside).
    destruct Hside as [Hside|Hside].
    - assert (Hin : In m home).
      { apply filter_In. split; [exact Hm|]. apply String.eqb_eq, Hside. }
      pose proof (len_nonneg away). unfold len in *.
      destruct home; [destruct Hin|simpl; lia].
    - assert (Hin : In m away).
      { apply filter_In. split; [exact Hm|]. apply String.eqb_eq, Hside. }
      pose proof (len_nonneg home). unfold len in *.
      destruct away; [destruct Hin|simpl; lia]. }
  repeat split; lia.
Qed.

(** ** Totals over the league table *)

Lemma col_sum_plus {A : Type} (a b : A -> Z) (l : list A) :
  col_sum (fun x => a x + b x) l = col_sum a l + col_sum b l.
Proof. induction l as [|x l IH]; simpl; lia. Qed.

Lemma col_sum_minus {A : Type} (a b : A -> Z) (l : list A) :
  col_sum (fun x => a x - b x) l = col_sum a l - col_sum b l.
Proof. induction l as [|x l IH]; simpl; lia. Qed.

Lemma col_sum_ext {A : Type} (a b : A -> Z) (l : list A) :
  (forall x, In x l -> a x = b x) -> col_sum a l = col_sum b l.
Proof.
  induction l as [|x l IH]; simpl; intros H; [reflexivity|].
  rewrite (H x (or_introl eq_refl)), IH; [reflexivity|].
  intros y Hy. apply H. right. exact Hy.
Qed.

Lemma col_sum_filter {A : Type} (f : A -> Z) (p : A -> bool) (l : list A) :
  col_sum f (List.filter p l) = col_sum (fun x => if p x then f x else 0) l.
Proof.
  induction l as [|x l IH]; simpl; [reflexivity|].
  destruct (p x); simpl; rewrite IH; reflexivity.
Qed.

Lemma len_col_sum {A : Type} (l : list A) : len l = col_sum (fun _ => 1) l.
Proof. unfold len. induction l as [|x l IH]; simpl; lia. Qed.

(** A name that occurs once in a list of names is counted once. *)
Lemma col_sum_name (h : string) (c : Z) (names : list string) :
  List.NoDup names -> In h names ->
  col_sum (fun t => if String.eqb h t then c else 0) names = c.
Proof.
  induction names as [|t names IH]; intros Hnd Hin; [destruct Hin|].
  simpl. inversion Hnd as [|? ? Hnot Hnd']; subst.
  destruct (String.eqb_spec h t) as [->|Hne].
  - rewrite (col_sum_ext _ (fun _ => 0)).
    + clear. induction names; simpl; lia.
    + intros y Hy. destruct (String.eqb_spec t y) as [->|]; [contradiction|].
      reflexivity.
  - destruct Hin as [->|Hin]; [contradiction|]. rewrite IH by assumption. lia.
Qed.

(** Summing a column team by team, over the fixtures of each team on one
    side, gives the sum over all fixtures. *)
Lemma col_sum_by_team (side : Match.t -> string) (f : Match.t -> Z)
  (names : list string) (ms : list Match.t) :
  List.NoDup names ->
  (forall m, In m ms -> In (side m) names) ->
  col_sum (fun t => col_sum f (List.filter (fun m => String.eqb (side m) t) ms))
          names
  = col_sum f ms.
Proof.
  intros Hnd. induction ms as [|m ms IH]; intros Hin.
  - simpl. clear. induction names; simpl; lia.
  - rewrite col_sum_cons, <- IH by (intros x Hx; apply Hin; right; exact Hx).
    rewrite <- (col_sum_name (side m) (f m) names Hnd)
      by (apply Hin; left; reflexivity).
    rewrite <- col_sum_plus. apply col_sum_ext. intros t _.
    cbn [List.filter]. destruct (String.eqb (side m) t); reflexivity.
Qed.

Lemma number_rows_column (g : Team.t -> Z) (rows : list Team.t) :
  (forall p r, g (Team.set_position p r) = g r) ->
  map g (number_rows rows) = map g rows.
Proof.
  intros Hg. apply list_eq. intros i. unfold number_rows.
  rewrite !list_lookup_fmap, list_lookup_imap.
  destruct (rows !! i); simpl; [rewrite Hg|]; reflexivity.
Qed.

(** The sum of a column of the table, when the column of a team's row is
    the sum of [fh] over its home fixtures and of [fa] over its away
    fixtures. *)
Lemma league_table_sum (current : list Match.t) (table : list Team.t)
  (g : Team.t -> Z) (fh fa : Match.t -> Z) :
  league_table current = Ret table ->
  (forall p r, g (Team.set_position p r) = g r) ->
  (forall t r, build_team_stats current t = Ret r ->
               g r = col_sum fh (home_fixtures current t)
                     + col_sum fa (away_fixtures current t)) ->
  col_sum g table = col_sum fh current + col_sum fa current.
Proof.
  intros Htab Hpos Hg.
  destruct (league_table_ranked current) as (rows & Hrows & _ & Htab' & _).
  rewrite Htab' in Htab. injection Htab as <-.
  rewrite <- col_sum_map, (number_rows_column g _ Hpos), col_sum_map.
  rewrite (col_sum_perm g _ _ (py_sort_perm table_leb rows)).
  assert (E : col_sum g rows
              = col_sum (fun t => col_sum fh (home_fixtures current t)
                                  + col_sum fa (away_fixtures current t))
                        (teams_of current)).
  { apply py_for_Forall2 in Hrows. clear Htab'.
    induction Hrows as [|t r ts rs Hr _ IH]; [reflexivity|].
    rewrite !col_sum_cons, IH, (Hg t r Hr). reflexivity. }
  rewrite E, col_sum_plus. unfold home_fixtures, away_fixtures.
  rewrite !col_sum_by_team; [reflexivity|apply teams_of_NoDup| |apply teams_of_NoDup|].
  - intros m Hm. apply teams_of_In. exists m. auto.
  - intros m Hm. apply teams_of_In. exists m. auto.
Qed.

Lemma len_filter_sum {A : Type} (p : A -> bool) (l : list A) :
  len (List.filter p l) = col_sum (fun x => if p x then 1 else 0) l.
Proof. rewrite len_col_sum. apply col_sum_filter. Qed.

(** X2.  Over the whole league table: games played add up to twice the
    number of matches, wins and losses each to the number of decisive
    matches, draws to twice the number of drawn matches, points to 3 per
    decisive match plus 2 per draw, goals for and goals against each to all
    goals scored, and goal differences to 0. *)
Theorem league_table_totals (current : list Match.t) :
  exists table,
    league_table current = Ret table
    /\ col_sum Team.played table = 2 * len current
    /\ col_sum Team.won table
       = len (List.filter (has_result Result.H) current)
         + len (List.filter (has_result Result.A) current)
    /\ col_sum Team.lost table = col_sum Team.won table
    /\ col_sum Team.drawn table
       = 2 * len (List.filter (has_result Result.D) current)
    /\ col_sum Team.points table
       = 3 * (len (List.filter (has_result Result.H) current)
              + len (List.filter (has_result Result.A) current))
         + 2 * len (List.filter (has_result Result.D) current)
    /\ col_sum Team.goals_for table
       = col_sum Match.home_goals current + col_sum Match.away_goals current
    /\ col_sum Team.goals_against table = col_sum Team.goals_for table
    /\ col_sum Team.goal_difference table = 0.
Proof.
  destruct (league_table_ret current) as (table & Htab & _).
  exists table. split; [exact Htab|].
  set (ind := fun c (m : Match.t) => if has_result c m then 1 else 0).
  assert (Hfields : forall t r, build_team_stats current t = Ret r ->
    Team.won r = col_sum (ind Result.H) (home_fixtures current t)
                 + col_sum (ind Result.A) (away_fixtures current t)
    /\ Team.lost r = col_sum (ind Result.A) (home_fixtures current t)
                     + col_sum (ind Result.H) (away_fixtures current t)
    /\ Team.drawn r = col_sum (ind Result.D) (home_fixtures current t)
                      + col_sum (ind Result.D) (away_fixtures current t)
    /\ Team.played r = col_sum (fun _ => 1) (home_fixtures current t)
                       + col_sum (fun _ => 1) (away_fixtures current t)
    /\ Team.goals_for r = col_sum Match.home_goals (home_fixtures current t)
                          + col_sum Match.away_goals (away_fixtures current t)
    /\ Team.goals_against r
       = col_sum Match.away_goals (home_fixtures current t)
         + col_sum Match.home_goals (away_fixtures current t)
    /\ Team.points r = Team.won r * 3 + Team.drawn r
    /\ Team.goal_difference r = Team.goals_for r - Team.goals_against r).
  { intros t r Hr.
    destruct (build_team_stats_fields current t)
      as (r1 & Hr1 & Hhw & Hhd & Hhl & Haw & Had & Hal & Hw & Hd & Hl & Hp
          & Hpts & Hgf & Hga & Hgd & _).
    rewrite Hr1 in Hr. injection Hr as <-.
    pose proof (len_results (home_fixtures current t)) as Eh.
    pose proof (len_results (away_fixtures current t)) as Ea.
    rewrite <- !len_col_sum. unfold ind. rewrite <- !len_filter_sum.
    repeat split; lia. }
  assert (Hw : col_sum Team.won table
               = col_sum (ind Result.H) current + col_sum (ind Result.A) current).
  { apply league_table_sum; [exact Htab|reflexivity|].
    intros t r Hr. apply (Hfields t r Hr). }
  assert (Hl : col_sum Team.lost table
               = col_sum (ind Result.A) current + col_sum (ind Result.H) current).
  { apply league_table_sum; [exact Htab|reflexivity|].
    intros t r Hr. apply (Hfields t r Hr). }
  assert (Hd : col_sum Team.drawn table
               = col_sum (ind Result.D) current + col_sum (ind Result.D) current).
  { apply league_table_sum; [exact Htab|reflexivity|].
    intros t r Hr. apply (Hfields t r Hr). }
  assert (Hp : col_sum Team.played table
               = col_sum (fun _ => 1) current + col_sum (fun _ => 1) current).
  { apply league_table_sum; [exact Htab|reflexivity|].
    intros t r Hr. apply (Hfields t r Hr). }
  assert (Hgf : col_sum Team.goals_for table
                = col_sum Match.home_goals current
                  + col_sum Match.away_goals current).
  { apply league_table_sum; [exact Htab|reflexivity|].
    intros t r Hr. apply (Hfields t r Hr). }
  assert (Hga : col_sum Team.goals_against table
                = col_sum Match.away_goals current
                  + col_sum Match.home_goals current).
  { apply league_table_sum; [exact Htab|reflexivity|].
    intros t r Hr. apply (Hfields t r Hr). }
  assert (Hrow : forall r, In r table ->
            Team.points r = Team.won r * 3 + Team.drawn r
            /\ Team.goal_difference r = Team.goals_for r - Team.goals_against r).
  { intros r Hr.
    destruct (league_table_fields current table r Htab Hr)
      as (_ & r0 & Hr0 & _ & -> & -> & _ & -> & -> & -> & -> & _).
    destruct (Hfields _ _ Hr0) as (_ & _ & _ & _ & _ & _ & H1 & H2). auto. }
  assert (Hpts : col_sum Team.points table
                 = col_sum Team.won table * 3 + col_sum Team.drawn table).
  { rewrite (col_sum_ext Team.points
               (fun r => (Team.won r + Team.won r + Team.won r) + Team.drawn r))
      by (intros r Hr; destruct (Hrow r Hr); lia).
    rewrite !col_sum_plus. lia. }
  assert (Hgd : col_sum Team.goal_difference table
                = col_sum Team.goals_for table - col_sum Team.goals_against table).
  { rewrite (col_sum_ext Team.goal_difference
               (fun r => Team.goals_for r - Team.goals_against r))
      by (intros r Hr; destruct (Hrow r Hr); lia).
    apply col_sum_minus. }
  unfold ind in *. rewrite <- !len_filter_sum in *.
  rewrite <- !len_col_sum in *.
  repeat split; lia.
Qed.

(** ** Season status *)

Lemma fold_max_spec (l : list Z) (a : Z) :
  a <= fold_left Z.max l a
  /\ (forall x, In x l -> x <= fold_left Z.max l a)
  /\ (fold_left Z.max l a = a \/ In (fold_left Z.max l a) l).
Proof.
  revert a. induction l as [|y l IH]; intros a; simpl.
  - split; [lia|]. split; [intros x []|left; reflexivity].
  - destruct (IH (Z.max a y)) as (H1 & H2 & H3). split; [lia|]. split.
    + intros x [<-|Hx]; [lia|apply H2, Hx].
    + destruct H3 as [E|Hin]; [|right; right; exact Hin].
      rewrite E. destruct (Z.max_spec a y) as [[_ ->]|[_ ->]]; auto.
Qed.

Lemma z_max_spec (l : list Z) (m : Z) :
  z_max l = Some m -> In m l /\ forall x, In x l -> x <= m.
Proof.
  destruct l as [|a l]; simpl; [discriminate|]. intros [= <-].
  destruct (fold_max_spec l a) as (H1 & H2 & H3). split.
  - destruct H3 as [->|Hin]; auto.
  - intros x [<-|Hx]; [exact H1|apply H2, Hx].
Qed.

Lemma string_ltb_leb (a b : string) :
  String.ltb a b = false -> String.leb b a = true.
Proof.
  unfold String.ltb, String.leb. rewrite (String.compare_antisym b a).
  destruct (String.compare a b); simpl; congruence.
Qed.

Lemma string_ltb_true_leb (a b : string) :
  String.ltb a b = true -> String.leb a b = true.
Proof.
  unfold String.ltb, String.leb. destruct (String.compare a b); congruence.
Qed.

Lemma string_leb_refl (a : string) : String.leb a a = true.
Proof.
  pose proof (string_ltb_irrefl a) as H. apply string_ltb_leb in H. exact H.
Qed.

Lemma fold_string_max_spec (l : list string) (a : string) :
  let m := fold_left (fun a b => if String.ltb a b then b else a) l a in
  String.leb a m = true
  /\ (forall x, In x l -> String.leb x m = true)
  /\ (m = a \/ In m l).
Proof.
  revert a. induction l as [|y l IH]; intros a; simpl.
  - split; [apply string_leb_refl|]. split; [intros x []|left; reflexivity].
  - destruct (IH (if String.ltb a y then y else a)) as (H1 & H2 & H3).
    destruct (String.ltb a y) eqn:E.
    + split; [eapply string_leb_trans; [apply string_ltb_true_leb, E|exact H1]|].
      split.
      * intros x [<-|Hx]; [exact H1|apply H2, Hx].
      * destruct H3 as [->|Hin]; [right; left; reflexivity|right; right; exact Hin].
    + split; [exact H1|]. split.
      * intros x [<-|Hx]; [|apply H2, Hx].
        eapply string_leb_trans; [apply string_ltb_leb, E|exact H1].
      * destruct H3 as [->|Hin]; [left; reflexivity|right; right; exact Hin].
Qed.

Lemma string_max_spec (l : list string) (m : string) :
  string_max l = Some m ->
  In m l /\ forall x, In x l -> String.leb x m = true.
Proof.
  destruct l as [|a l]; simpl; [discriminate|]. intros [= <-].
  destruct (fold_string_max_spec l a) as (H1 & H2 & H3). split.
  - destruct H3 as [->|Hin]; auto.
  - intros x [<-|Hx]; [exact H1|apply H2, Hx].
Qed.

Lemma league_table_played (current : list Match.t) (table : list Team.t)
  (r : Team.t) :
  league_table current = Ret table -> In r table ->
  Team.played r = len (home_fixtures current (Team.team r))
                  + len (away_fixtures current (Team.team r)).
Proof.
  intros Htab Hr.
  destruct (league_table_fields current table r Htab Hr)
    as (_ & r0 & Hr0 & -> & _).
  destruct (build_team_stats_fields current (Team.team r))
    as (r1 & Hr1 & Hhw & Hhd & Hhl & Haw & Had & Hal & Hw & Hd & Hl & Hp & _).
  rewrite Hr1 in Hr0. injection Hr0 as <-.
  pose proof (len_results (home_fixtures current (Team.team r))).
  pose proof (len_results (away_fixtures current (Team.team r))).
  lia.
Qed.

(** X3.  In the status section, [matches_played] is the number of matches
    of the season and the season counts as complete exactly from 380
    matches on.  [matchdays_played] is the largest [played] of the league
    table: no row has played more, and with at least one match some row
    has played exactly that many.  [last_match_date] is the latest date of
    the season, in string order.  Without a match both are empty: 0 and
    the empty string. *)
Theorem season_status_consistent (current : list Match.t) :
  exists table,
    league_table current = Ret table
    /\ SeasonStatus.matches_played (season_status_of current) = len current
    /\ (SeasonStatus.is_complete (season_status_of current) = true
        <-> 380 <= len current)
    /\ (forall r, In r table ->
          Team.played r
          <= SeasonStatus.matchdays_played (season_status_of current))
    /\ (current <> [] ->
        exists r, In r table
                  /\ Team.played r
                     = SeasonStatus.matchdays_played (season_status_of current))
    /\ (forall m, In m current ->
          String.leb (Match.date m)
            (SeasonStatus.last_match_date (season_status_of current)) = true)
    /\ (current <> [] ->
        exists m, In m current
                  /\ Match.date m
                     = SeasonStatus.last_match_date (season_status_of current))
    /\ (current = [] ->
        SeasonStatus.matchdays_played (season_status_of current) = 0
        /\ SeasonStatus.last_match_date (season_status_of current) = "").
Proof.
  destruct (league_table_ret current) as (table & Htab & Hperm).
  exists table. split; [exact Htab|].
  unfold season_status_of. cbn [SeasonStatus.matches_played
    SeasonStatus.is_complete SeasonStatus.matchdays_played
    SeasonStatus.last_match_date safe_int].
  split; [reflexivity|]. split; [apply Z.leb_le|].
  assert (Hgames : forall r, In r table ->
            In (Team.played r) (games_per_team current)).
  { intros r Hr. rewrite (league_table_played current table r Htab Hr).
    unfold games_per_team. apply in_map_iff. exists (Team.team r).
    split; [reflexivity|].
    apply (Permutation_in _ Hperm), in_map, Hr. }
  split; [|split; [|split; [|split]]].
  - intros r Hr. specialize (Hgames r Hr).
    destruct (z_max (games_per_team current)) as [m|] eqn:E.
    + apply (z_max_spec _ _ E), Hgames.
    + destruct (games_per_team current); [destruct Hgames|discriminate].
  - intros Hne.
    destruct (z_max (games_per_team current)) as [m|] eqn:E.
    + apply z_max_spec in E as [Hin _]. unfold games_per_team in Hin.
      apply in_map_iff in Hin as (t & Ht & Hin).
      apply (Permutation_in _ (Permutation_sym Hperm)) in Hin.
      apply in_map_iff in Hin as (r & Hteam & Hr).
      exists r. split; [exact Hr|].
      rewrite (league_table_played current table r Htab Hr), Hteam.
      exact Ht.
    + exfalso. destruct current as [|m ms]; [contradiction|].
      assert (Hin : In (Match.home_team m) (teams_of (m :: ms))).
      { apply teams_of_In. exists m. split; [left; reflexivity|auto]. }
      unfold games_per_team in E.
      destruct (teams_of (m :: ms)); [destruct Hin|discriminate].
  - intros m Hm.
    destruct (Z.ltb_spec 0 (len current)) as [_|Hlen].
    + destruct (string_max (map Match.date current)) as [d|] eqn:E.
      * apply (string_max_spec _ _ E), in_map, Hm.
      * destruct current; [destruct Hm|discriminate].
    + unfold len in Hlen. destruct current; [destruct Hm|simpl in Hlen; lia].
  - intros Hne.
    destruct (Z.ltb_spec 0 (len current)) as [_|Hlen].
    + destruct (string_max (map Match.date current)) as [d|] eqn:E.
      * apply string_max_spec in E as [Hin _].
        apply in_map_iff in Hin as (m & Hd & Hm). exists m. auto.
      * destruct current; [contradiction|discriminate].
    + unfold len in Hlen. destruct current; [contradiction|simpl in Hlen; lia].
  - intros ->. split; reflexivity.
Qed.

(** ** Length of the cumulative series *)

(** X4.  The cumulative series of a team has as many entries as the team
    has played according to its row of the league table: matchday N exists
    exactly for N up to [played]. *)
Theorem cumulative_series_length (current : list Match.t) :
  exists table,
    league_table current = Ret table
    /\ forall (team : string) (series : list CumPoint.t),
         In (team, series) (cumulative_points current) ->
         exists r, find_team table team = Some r
                   /\ len series = Team.played r.
Proof.
  destruct (league_table_ret current) as (table & Htab & Hperm).
  exists table. split; [exact Htab|].
  intros team series Hin. unfold cumulative_points in Hin.
  apply in_map_iff in Hin as (t & [= <- <-] & Ht).
  destruct (find_team_In table t) as (r & Hfind & Hr & Hteam).
  { eapply Permutation_in; [symmetry; exact Hperm|exact Ht]. }
  exists r. split; [exact Hfind|].
  rewrite (league_table_played current table r Htab Hr), Hteam.
  unfold team_cumulative, len, cumsum, sort_values, home_fixtures,
    away_fixtures.
  rewrite length_imap, cumsum_from_length, length_map, py_sort_length.
  rewrite length_app, !length_map.
  rewrite (Permutation_length
             (filter_perm (fun m => String.eqb (Match.home_team m) t) _ _
                (py_sort_perm _ current))).
  rewrite (Permutation_length
             (filter_perm (fun m => String.eqb (Match.away_team m) t) _ _
                (py_sort_perm _ current))).
  lia.
Qed.

(** ** Rounding twice *)

Lemma round_half_even_comp (q q' : Q) :
  (q == q')%Q -> round_half_even q = round_half_even q'.
Proof.
  intros E. unfold round_half_even.
  rewrite (Qfloor_comp _ _ E).
  assert (E' : (q - inject_Z (Qfloor q') == q' - inject_Z (Qfloor q'))%Q)
    by (rewrite E; reflexivity).
  rewrite (Qcompare_comp _ _ E' (1 # 2) (1 # 2) (Qeq_refl _)).
  reflexivity.
Qed.

Lemma round_half_even_Z (z : Z) : round_half_even (inject_Z z) = z.
Proof.
  unfold round_half_even. rewrite Qfloor_Z.
  assert (E : Qcompare (inject_Z z - inject_Z z) (1 # 2) = Lt).
  { apply Qlt_alt.
    assert (E0 : (inject_Z z - inject_Z z == 0)%Q) by ring.
    rewrite E0. reflexivity. }
  rewrite E. reflexivity.
Qed.

(** A value that was rounded to [d] decimals is not changed by rounding it
    to [d] decimals again. *)
Lemma py_round_idempotent (x : Q) (d : nat) :
  py_round (py_round x d) d = py_round x d.
Proof.
  pose proof (pow10_pos d) as Hp.
  unfold py_round at 1.
  rewrite (round_half_even_comp _
             (inject_Z (round_half_even (x * inject_Z (pow10 d))))).
  - rewrite round_half_even_Z. reflexivity.
  - rewrite py_round_eq. field.
    intros E. unfold Qeq in E. simpl in E. lia.
Qed.

(** ** The best rows of a table *)

Lemma StronglySorted_app_cross {A : Type} (R : A -> A -> Prop)
  (l1 l2 : list A) :
  StronglySorted R (l1 ++ l2) ->
  StronglySorted R l1
  /\ forall x y, In x l1 -> In y l2 -> R x y.
Proof.
  induction l1 as [|a l1 IH]; simpl; intros Hs.
  - split; [constructor|intros x y []].
  - apply StronglySorted_inv in Hs as [Hs Ha].
    destruct (IH Hs) as [Hs1 Hcross]. split.
    + constructor; [exact Hs1|].
      rewrite List.Forall_forall in Ha. apply List.Forall_forall.
      intros x Hx. apply Ha, in_or_app. left. exact Hx.
    + intros x y [<-|Hx] Hy.
      * rewrite List.Forall_forall in Ha. apply Ha, in_or_app. right. exact Hy.
      * apply Hcross; assumption.
Qed.

Lemma StronglySorted_weaken {A : Type} (R S : A -> A -> Prop) (l : list A) :
  (forall a b, R a b -> S a b) -> StronglySorted R l -> StronglySorted S l.
Proof.
  intros HRS. induction 1 as [|x l Hs IH Hx]; constructor; [exact IH|].
  eapply List.Forall_impl; [|exact Hx]. intros a. apply HRS.
Qed.

Lemma take_sorted_top {A : Type} (leb : A -> A -> bool) (n : nat)
  (l : list A) :
  (forall x y, leb x y = true \/ leb y x = true) ->
  (forall x y z, leb x y = true -> leb y z = true -> leb x z = true) ->
  top_of (fun a b => leb a b = true) n l (take n (py_sort leb l)).
Proof.
  intros Htot Htrans.
  pose proof (py_sort_sorted leb l Htot Htrans) as Hs.
  rewrite <- (take_drop n (py_sort leb l)) in Hs.
  apply StronglySorted_app_cross in Hs as [Hs Hcross].
  split; [rewrite length_take, py_sort_length; reflexivity|].
  split; [exact Hs|].
  exists (drop n (py_sort leb l)). split; [|exact Hcross].
  rewrite take_drop. apply py_sort_perm.
Qed.

Lemma take_sort_desc_Z {A : Type} (key : A -> Z) (n : nat) (l : list A) :
  top_of (fun a b => key b <= key a) n l (take n (sort_desc_Z key l)).
Proof.
  destruct (take_sorted_top (fun a b => - key a <=? - key b) n l)
    as (Hlen & Hs & rest & Hperm & Hcross).
  - intros x y. rewrite !Z.leb_le. lia.
  - intros x y z. rewrite !Z.leb_le. lia.
  - split; [exact Hlen|]. split.
    + eapply StronglySorted_weaken; [|exact Hs].
      intros a b Hab. apply Z.leb_le in Hab. lia.
    + exists rest. split; [exact Hperm|].
      intros x y Hx Hy. specialize (Hcross x y Hx Hy).
      apply Z.leb_le in Hcross. lia.
Qed.

Lemma take_sort_desc_Q {A : Type} (key : A -> Q) (n : nat) (l : list A) :
  top_of (fun a b => (key b <= key a)%Q) n l (take n (sort_desc_Q key l)).
Proof.
  destruct (take_sorted_top (fun a b => Qle_bool (- key a) (- key b)) n l)
    as (Hlen & Hs & rest & Hperm & Hcross).
  - intros x y. rewrite !Qle_bool_iff.
    destruct (Qlt_le_dec (key x) (key y)); [right|left]; lra.
  - intros x y z. rewrite !Qle_bool_iff. lra.
  - split; [exact Hlen|]. split.
    + eapply StronglySorted_weaken; [|exact Hs].
      intros a b Hab. apply Qle_bool_iff in Hab. lra.
    + exists rest. split; [exact Hperm|].
      intros x y Hx Hy. specialize (Hcross x y Hx Hy).
      apply Qle_bool_iff in Hcross. lra.
Qed.

Lemma sort_desc_Z_sorted {A : Type} (key : A -> Z) (l : list A) :
  StronglySorted (fun a b => key b <= key a) (sort_desc_Z key l).
Proof.
  destruct (take_sort_desc_Z key (length l) l) as (_ & Hs & _).
  rewrite take_ge in Hs; [exact Hs|].
  unfold sort_desc_Z. rewrite py_sort_length. lia.
Qed.

Lemma sort_desc_Q_sorted {A : Type} (key : A -> Q) (l : list A) :
  StronglySorted (fun a b => (key b <= key a)%Q) (sort_desc_Q key l).
Proof.
  destruct (take_sort_desc_Q key (length l) l) as (_ & Hs & _).
  rewrite take_ge in Hs; [exact Hs|].
  unfold sort_desc_Q. rewrite py_sort_length. lia.
Qed.

(** ** The player leaderboards *)

Lemma per90_eq (stat minutes : Z) :
  per90 stat minutes = Ret (per90_value stat minutes).
Proof.
  unfold per90, per90_value.
  destruct (Z.ltb_spec minutes 90); [reflexivity|].
  rewrite py_div_pos by lia. reflexivity.
Qed.

Lemma py_for_indexed {A B : Type} (f : nat -> A -> py B) (l : list A)
  (ys : list B) :
  py_for (fun ir => f (fst ir) (snd ir)) (imap pair l) = Ret ys ->
  length l = length ys
  /\ forall i x y, l !! i = Some x -> ys !! i = Some y -> f i x = Ret y.
Proof.
  intros H. apply py_for_Forall2 in H. split.
  - rewrite <- (Forall2_length _ _ _ H), length_imap. reflexivity.
  - intros i x y Hx Hy.
    apply (Forall2_lookup_lr _ _ _ i (i, x) y H); [|exact Hy].
    rewrite list_lookup_imap, Hx. reflexivity.
Qed.

Section BoardFacts.
Variable strip_accents : string -> string.
Variable lower : string -> string.
Variable idx : XGIndex.t.

Lemma per90_value_of (stat minutes : Z) :
  per90_of stat minutes (per90_value stat minutes).
Proof.
  unfold per90_of, per90_value.
  destruct (minutes <? 90); [reflexivity|apply py_round_rounds_to].
Qed.

Lemma goal_scorer_row_ret (i : nat) (row : Player.t) (g : GoalScorer.t) :
  goal_scorer_row strip_accents lower idx i row = Ret g ->
  GoalScorer.rank g = Z.of_nat i + 1
  /\ goal_scorer_of strip_accents lower idx row g.
Proof.
  unfold goal_scorer_row. rewrite per90_eq. cbn [py_bind safe_int safe_str].
  intros [= <-]. unfold goal_scorer_of.
  cbn [GoalScorer.player_name GoalScorer.team GoalScorer.position
       GoalScorer.goals GoalScorer.assists GoalScorer.minutes
       GoalScorer.goals_per_90 GoalScorer.price GoalScorer.xg GoalScorer.shots
       safe_int safe_str safe_float].
  repeat (split; [reflexivity|]).
  split; [apply per90_value_of|]. repeat split.
Qed.

Lemma assist_leader_row_ret (i : nat) (row : Player.t) (a : AssistLeader.t) :
  assist_leader_row strip_accents lower idx i row = Ret a ->
  AssistLeader.rank a = Z.of_nat i + 1
  /\ assist_leader_of strip_accents lower idx row a.
Proof.
  unfold assist_leader_row. rewrite per90_eq. cbn [py_bind safe_int safe_str].
  intros [= <-]. unfold assist_leader_of.
  cbn [AssistLeader.player_name AssistLeader.team AssistLeader.position
       AssistLeader.goals AssistLeader.assists AssistLeader.minutes
       AssistLeader.assists_per_90 AssistLeader.price AssistLeader.xa
       AssistLeader.key_passes safe_int safe_str safe_float].
  repeat (split; [reflexivity|]).
  split; [apply per90_value_of|]. repeat split.
Qed.

(** The parts of the value [player_leaderboards_of] returns. *)
Lemma player_leaderboards_of_ret (fpl : list Player.t) (lb : Leaderboards.t) :
  player_leaderboards_of strip_accents lower idx fpl = Ret lb ->
  py_for (fun ir => goal_scorer_row strip_accents lower idx (fst ir) (snd ir))
    (imap pair
       (take 20 (sort_desc_Z Player.goals
                   (List.filter (fun p => 0 <? Player.goals p) fpl))))
  = Ret (Leaderboards.goal_scorers lb)
  /\ py_for (fun ir => assist_leader_row strip_accents lower idx
                         (fst ir) (snd ir))
       (imap pair
          (take 15 (sort_desc_Z Player.assists
                      (List.filter (fun p => 0 <? Player.assists p) fpl))))
     = Ret (Leaderboards.assist_leaders lb)
  /\ (exists rows,
        py_for (iron_man_of fpl) (player_teams fpl) = Ret rows
        /\ Leaderboards.iron_men lb = sort_desc_Z IronMan.minutes rows)
  /\ py_for (position_goals_of fpl) ["FWD"; "MID"; "DEF"; "GK"]
     = Ret (Leaderboards.goals_by_position lb)
  /\ Leaderboards.best_value lb
     = imap value_player_row
         (take 15 (sort_desc_Q ga_per_million_of
                     (List.filter
                        (fun p => (450 <=? Player.minutes p)
                                  && Qlt_bool 0 (Player.price p)) fpl)))
  /\ Leaderboards.most_cards lb
     = map card_row
         (take 10 (sort_desc_Z
                     (fun p => Player.yellow_cards p + Player.red_cards p)
                     (List.filter
                        (fun p => 0 <? Player.yellow_cards p
                                       + Player.red_cards p) fpl))).
Proof.
  unfold player_leaderboards_of. intros H.
  apply py_bind_ret in H as (gs & Hgs & H).
  apply py_bind_ret in H as (als & Hals & H).
  apply py_bind_ret in H as (im & Him & H).
  apply py_bind_ret in H as (gp & Hgp & H).
  injection H as <-. cbn.
  split; [exact Hgs|]. split; [exact Hals|].
  split; [exists im; split; [exact Him|reflexivity]|].
  split; [exact Hgp|]. split; reflexivity.
Qed.

(** X5.  The goal-scorers board is made from the 20 players with most
    goals among those with at least one goal, best first: no player left
    out has more goals than a listed one.  Each row carries its player's
    columns, the goals per 90 minutes (0 below 90 minutes, else goals over
    minutes times 90 to 2 decimals, within 0.005 of it), the price to 1
    decimal and the xG and shots of the player's enrichment (null without
    one), and the rows are ranked 1, 2, ... *)
Theorem goal_scorers_board (fpl : list Player.t) :
  exists lb,
    player_leaderboards_of strip_accents lower idx fpl = Ret lb
    /\ (exists kept,
          top_of (fun a b => Player.goals b <= Player.goals a) 20
            (List.filter (fun p => 0 <? Player.goals p) fpl) kept
          /\ Forall2 (goal_scorer_of strip_accents lower idx) kept
               (Leaderboards.goal_scorers lb))
    /\ (forall (i : nat) (g : GoalScorer.t),
          Leaderboards.goal_scorers lb !! i = Some g ->
          GoalScorer.rank g = Z.of_nat i + 1 /\ 0 < GoalScorer.goals g).
Proof.
  destruct (player_leaderboards_of_total strip_accents lower idx fpl)
    as [lb Hlb].
  exists lb. split; [exact Hlb|].
  apply player_leaderboards_of_ret in Hlb as (Hgs & _).
  apply py_for_indexed in Hgs as [Hlen Hrows].
  set (pool := List.filter (fun p => 0 <? Player.goals p) fpl) in *.
  set (kept := take 20 (sort_desc_Z Player.goals pool)) in *.
  pose proof (take_sort_desc_Z Player.goals 20 pool) as Htop. fold kept in Htop.
  assert (HF : Forall2 (goal_scorer_of strip_accents lower idx) kept
                 (Leaderboards.goal_scorers lb)).
  { apply Forall2_same_length_lookup_2; [exact Hlen|].
    intros i p g Hp Hg. apply (goal_scorer_row_ret i), (Hrows i p g Hp Hg). }
  split; [exists kept; split; [exact Htop|exact HF]|].
  intros i g Hg.
  destruct (Forall2_lookup_r _ _ _ i g HF Hg) as (p & Hp & Hpg).
  split; [apply (goal_scorer_row_ret i p g), (Hrows i p g Hp Hg)|].
  destruct Hpg as (_ & _ & _ & -> & _).
  destruct Htop as (_ & _ & rest & Hperm & _).
  assert (Hin : In p pool).
  { apply (Permutation_in _ Hperm), in_or_app. left.
    apply list_elem_of_In. eapply list_elem_of_lookup_2, Hp. }
  apply filter_In in Hin as [_ Hpos]. lia.
Qed.

(** X6.  The assist-leaders board is made from the 15 players with most
    assists among those with at least one assist, best first: no player
    left out has more assists than a listed one.  Each row carries its
    player's columns, the assists per 90 minutes (0 below 90 minutes, else
    assists over minutes times 90 to 2 decimals, within 0.005 of it), the
    price to 1 decimal and the xA and key passes of the player's enrichment
    (null without one), and the rows are ranked 1, 2, ... *)
Theorem assist_leaders_board (fpl : list Player.t) :
  exists lb,
    player_leaderboards_of strip_accents lower idx fpl = Ret lb
    /\ (exists kept,
          top_of (fun a b => Player.assists b <= Player.assists a) 15
            (List.filter (fun p => 0 <? Player.assists p) fpl) kept
          /\ Forall2 (assist_leader_of strip_accents lower idx) kept
               (Leaderboards.assist_leaders lb))
    /\ (forall (i : nat) (a : AssistLeader.t),
          Leaderboards.assist_leaders lb !! i = Some a ->
          AssistLeader.rank a = Z.of_nat i + 1 /\ 0 < AssistLeader.assists a).
Proof.
  destruct (player_leaderboards_of_total strip_accents lower idx fpl)
    as [lb Hlb].
  exists lb. split; [exact Hlb|].
  apply player_leaderboards_of_ret in Hlb as (_ & Hals & _).
  apply py_for_indexed in Hals as [Hlen Hrows].
  set (pool := List.filter (fun p => 0 <? Player.assists p) fpl) in *.
  set (kept := take 15 (sort_desc_Z Player.assists pool)) in *.
  pose proof (take_sort_desc_Z Player.assists 15 pool) as Htop.
  fold kept in Htop.
  assert (HF : Forall2 (assist_leader_of strip_accents lower idx) kept
                 (Leaderboards.assist_leaders lb)).
  { apply Forall2_same_length_lookup_2; [exact Hlen|].
    intros i p a Hp Ha. apply (assist_leader_row_ret i), (Hrows i p a Hp Ha). }
  split; [exists kept; split; [exact Htop|exact HF]|].
  intros i a Ha.
  destruct (Forall2_lookup_r _ _ _ i a HF Ha) as (p & Hp & Hpa).
  split; [apply (assist_leader_row_ret i p a), (Hrows i p a Hp Ha)|].
  destruct Hpa as (_ & _ & _ & -> & _).
  destruct Htop as (_ & _ & rest & Hperm & _).
  assert (Hin : In p pool).
  { apply (Permutation_in _ Hperm), in_or_app. left.
    apply list_elem_of_In. eapply list_elem_of_lookup_2, Hp. }
  apply filter_In in Hin as [_ Hpos]. lia.
Qed.

(** X7.  The best-value board is made from the 15 players with the highest
    goals plus assists per million (rounded to 2 decimals) among those with
    at least 450 minutes and a positive price, best first; the value a row
    shows is the value the ranking used, and the rows are ranked
    1, 2, ... *)
Theorem best_value_board (fpl : list Player.t) :
  exists lb,
    player_leaderboards_of strip_accents lower idx fpl = Ret lb
    /\ (exists kept,
          top_of (fun a b => (ga_per_million_of b <= ga_per_million_of a)%Q)
            15
            (List.filter (fun p => (450 <=? Player.minutes p)
                                   && Qlt_bool 0 (Player.price p)) fpl)
            kept
          /\ Forall2 value_player_of kept (Leaderboards.best_value lb))
    /\ (forall (i : nat) (v : ValuePlayer.t),
          Leaderboards.best_value lb !! i = Some v ->
          ValuePlayer.rank v = Z.of_nat i + 1
          /\ 450 <= ValuePlayer.minutes v).
Proof.
  destruct (player_leaderboards_of_total strip_accents lower idx fpl)
    as [lb Hlb].
  exists lb. split; [exact Hlb|].
  apply player_leaderboards_of_ret in Hlb as (_ & _ & _ & _ & Hbv & _).
  set (pool := List.filter _ fpl) in *.
  set (kept := take 15 (sort_desc_Q ga_per_million_of pool)) in *.
  pose proof (take_sort_desc_Q ga_per_million_of 15 pool) as Htop.
  fold kept in Htop. rewrite Hbv.
  assert (HF : Forall2 value_player_of kept (imap value_player_row kept)).
  { apply Forall2_same_length_lookup_2; [rewrite length_imap; reflexivity|].
    intros i p v Hp. rewrite list_lookup_imap, Hp. intros [= <-].
    unfold value_player_of, value_player_row. cbn.
    repeat split. unfold ga_per_million_of. apply py_round_idempotent. }
  split; [exists kept; split; [exact Htop|exact HF]|].
  intros i v. rewrite list_lookup_imap.
  destruct (kept !! i) as [p|] eqn:Hp; [|discriminate].
  intros [= <-]. split; [reflexivity|]. cbn.
  destruct Htop as (_ & _ & rest & Hperm & _).
  assert (Hin : In p pool).
  { apply (Permutation_in _ Hperm), in_or_app. left.
    apply list_elem_of_In. eapply list_elem_of_lookup_2, Hp. }
  apply filter_In in Hin as [_ Hpos].
  apply andb_true_iff in Hpos as [Hmin _]. lia.
Qed.

(** X8.  The disciplinary board is made from the 10 players with most
    cards, yellow plus red, among those with at least one card, most cards
    first: no player left out has more cards than a listed one. *)
Theorem most_cards_board (fpl : list Player.t) :
  exists lb,
    player_leaderboards_of strip_accents lower idx fpl = Ret lb
    /\ (exists kept,
          top_of (fun a b => Player.yellow_cards b + Player.red_cards b
                             <= Player.yellow_cards a + Player.red_cards a)
            10
            (List.filter (fun p => 0 <? Player.yellow_cards p
                                        + Player.red_cards p) fpl)
            kept
          /\ Forall2 card_row_of kept (Leaderboards.most_cards lb))
    /\ (forall c, In c (Leaderboards.most_cards lb) ->
                  0 < CardRow.total_cards c
                  /\ CardRow.total_cards c = CardRow.yellows c + CardRow.reds c).
Proof.
  destruct (player_leaderboards_of_total strip_accents lower idx fpl)
    as [lb Hlb].
  exists lb. split; [exact Hlb|].
  apply player_leaderboards_of_ret in Hlb as (_ & _ & _ & _ & _ & Hmc).
  set (pool := List.filter _ fpl) in *.
  set (kept := take 10 (sort_desc_Z _ pool)) in *.
  pose proof (take_sort_desc_Z
                (fun p => Player.yellow_cards p + Player.red_cards p) 10 pool)
    as Htop.
  fold kept in Htop. rewrite Hmc.
  assert (HF : Forall2 card_row_of kept (map card_row kept)).
  { clear. induction kept as [|p kept IH]; constructor; [|exact IH].
    unfold card_row_of, card_row. cbn. repeat split. }
  split; [exists kept; split; [exact Htop|exact HF]|].
  intros c Hc. apply in_map_iff in Hc as (p & <- & Hp). cbn.
  split; [|reflexivity].
  destruct Htop as (_ & _ & rest & Hperm & _).
  assert (Hin : In p pool).
  { apply (Permutation_in _ Hperm), in_or_app. left. exact Hp. }
  apply filter_In in Hin as [_ Hpos]. lia.
Qed.
End BoardFacts.

Lemma iron_man_of_ret (fpl : list Player.t) (t : string) (r : IronMan.t) :
  iron_man_of fpl t = Ret r ->
  IronMan.team r = t
  /\ exists p,
       In p fpl
       /\ iron_man_row_of p r
       /\ forall q, In q fpl -> Player.team q = t ->
                    Player.minutes q <= Player.minutes p.
Proof.
  unfold iron_man_of. intros H.
  apply py_bind_ret in H as (p & Hp & H). injection H as <-.
  set (team_players :=
         List.filter (fun p => String.eqb (Player.team p) t) fpl) in *.
  pose proof (sort_desc_Z_sorted Player.minutes team_players) as Hs.
  destruct (sort_desc_Z Player.minutes team_players) as [|p' sorted] eqn:E;
    [discriminate|].
  injection Hp as ->.
  assert (Hin : forall q, In q team_players <-> In q (p :: sorted)).
  { intros q. rewrite <- E. unfold sort_desc_Z. symmetry. apply py_sort_In. }
  assert (Hp : In p team_players) by (apply Hin; left; reflexivity).
  apply filter_In in Hp as [Hp Hteam]. apply String.eqb_eq in Hteam.
  split; [reflexivity|]. exists p. split; [exact Hp|]. split.
  - unfold iron_man_row_of. cbn. rewrite Hteam. repeat split.
  - intros q Hq Hqt.
    assert (Hq' : In q (p :: sorted)).
    { apply Hin, filter_In. split; [exact Hq|]. apply String.eqb_eq, Hqt. }
    apply StronglySorted_inv in Hs as [_ Hall].
    rewrite List.Forall_forall in Hall.
    destruct Hq' as [<-|Hq']; [lia|apply Hall, Hq'].
Qed.

(** X9.  The iron-men board has one row per team of the player table.  The
    row of a team names one of its players, and no player of the team has
    more minutes; the rows stand in non-increasing order of minutes. *)
Theorem iron_men_board (strip_accents lower : string -> string)
  (idx : XGIndex.t) (fpl : list Player.t) :
  exists lb,
    player_leaderboards_of strip_accents lower idx fpl = Ret lb
    /\ Permutation (map IronMan.team (Leaderboards.iron_men lb))
         (player_teams fpl)
    /\ List.NoDup (map IronMan.team (Leaderboards.iron_men lb))
    /\ StronglySorted (fun a b => IronMan.minutes b <= IronMan.minutes a)
         (Leaderboards.iron_men lb)
    /\ forall r, In r (Leaderboards.iron_men lb) ->
         exists p,
           In p fpl
           /\ iron_man_row_of p r
           /\ forall q, In q fpl -> Player.team q = IronMan.team r ->
                        Player.minutes q <= IronMan.minutes r.
Proof.
  destruct (player_leaderboards_of_total strip_accents lower idx fpl)
    as [lb Hlb].
  exists lb. split; [exact Hlb|].
  apply player_leaderboards_of_ret in Hlb
    as (_ & _ & (rows & Hrows & Him) & _).
  apply py_for_Forall2 in Hrows. rewrite Him.
  assert (Hteams : map IronMan.team rows = player_teams fpl).
  { clear Him. induction Hrows as [|t r ts rs Hr _ IH]; [reflexivity|].
    simpl. apply iron_man_of_ret in Hr as [-> _]. rewrite IH. reflexivity. }
  assert (Hperm : Permutation
            (map IronMan.team (sort_desc_Z IronMan.minutes rows))
            (player_teams fpl)).
  { rewrite <- Hteams. apply Permutation_map. unfold sort_desc_Z.
    apply py_sort_perm. }
  split; [exact Hperm|]. split.
  { eapply Permutation_NoDup; [symmetry; exact Hperm|].
    unfold player_teams.
    eapply Permutation_NoDup; [symmetry; apply py_sort_perm|].
    apply NoDup_ListNoDup, NoDup_elements. }
  split; [apply sort_desc_Z_sorted|].
  intros r Hr. unfold sort_desc_Z in Hr. apply py_sort_In in Hr.
  clear Him Hteams Hperm.
  induction Hrows as [|t r' ts rs Hr' _ IH]; [destruct Hr|].
  destruct Hr as [->|Hr]; [|apply IH, Hr].
  apply iron_man_of_ret in Hr' as (Ht & p & Hp & Hrow & Hmax).
  exists p. split; [exact Hp|]. split; [exact Hrow|].
  intros q Hq Hqt. rewrite Ht in Hqt.
  destruct Hrow as (_ & _ & _ & -> & _). apply Hmax; assumption.
Qed.

(** ** The sections of the saved document *)

Section DocumentFacts.
Variable strip_accents : string -> string.
Variable lower : string -> string.

(** What each section of the document is, read off a run that returned. *)
Lemma transform_inv (df : list Match.t) (inp : Inputs.t) (now : string)
  (doc : Document.t) :
  transform strip_accents lower df inp now = Ret doc ->
  let current :=
    List.filter (fun m => String.eqb (Match.season m) CURRENT_SEASON) df in
  league_table current = Ret (Document.league_table doc)
  /\ Document.cumulative_points doc = cumulative_points current
  /\ Document.season_status doc = season_status_of current
  /\ Document.total_matches doc = len current
  /\ Document.total_goals doc = col_sum Match.total_goals current
  /\ match has_xg inp, Inputs.xg_teams inp with
     | true, Some xg_teams_df =>
         Document.xg_table doc
         = Some (xg_table_of (Document.league_table doc) xg_teams_df)
         /\ Document.xg_vs_actual doc = Some (xg_vs_actual_of xg_teams_df)
         /\ exists sq,
              shot_quality_of (Document.league_table doc) xg_teams_df = Ret sq
              /\ Document.shot_quality doc = Some sq
     | _, _ =>
         Document.xg_table doc = None
         /\ Document.xg_vs_actual doc = None
         /\ Document.shot_quality doc = None
     end
  /\ match Inputs.players inp with
     | Some players_df =>
         (exists lb,
            player_leaderboards_of strip_accents lower
              (xg_index_of strip_accents lower inp) players_df = Ret lb
            /\ Document.player_leaderboards doc = Some lb)
         /\ money_vs_points_of (Document.league_table doc) players_df
            = Ret (Document.money_vs_points doc)
     | None =>
         Document.player_leaderboards doc = None
         /\ Document.money_vs_points doc = None
     end.
Proof.
  intros H current. unfold transform in H. fold current in H.
  apply py_bind_ret in H as (table & Htab & H).
  apply py_bind_ret in H as (xg & Hxg & H).
  apply py_bind_ret in H as (lb & Hlb & H).
  apply py_bind_ret in H as (mvp & Hmvp & H).
  apply py_bind_ret in H as (gpm & _ & H).
  injection H as <-. cbn.
  split; [exact Htab|]. do 4 (split; [reflexivity|]). split.
  - destruct (has_xg inp); [|injection Hxg as <-; auto].
    destruct (Inputs.xg_teams inp) as [xt|]; [|injection Hxg as <-; auto].
    apply py_bind_ret in Hxg as (sq & Hsq & Hxg). injection Hxg as <-.
    cbn. split; [reflexivity|]. split; [reflexivity|]. eauto.
  - destruct (Inputs.players inp) as [pl|].
    + apply py_bind_ret in Hlb as (boards & Hb & Hlb). injection Hlb as <-.
      split; [exists boards; split; [exact Hb|reflexivity]|exact Hmvp].
    + injection Hlb as <-. injection Hmvp as <-. auto.
Qed.

Lemma enrich_empty (row : Player.t) :
  enrich strip_accents lower XGIndex.empty row = None.
Proof.
  unfold enrich, by_short_name, by_full_name, by_last_name, by_dot_part,
    by_substring, XGIndex.empty. cbn.
  rewrite !lookup_empty.
  destruct (String.eqb _ ""); cbn.
  - destruct (is_substring "." _); cbn.
    + assert (E : first_hit
                (fun part => (∅ : gmap (string * string) XGData.t)
                               !! (part, Player.team row))
                (dot_parts strip_accents lower
                   (safe_str (Player.player_name row))) = None).
      { apply first_hit_None. intros x _. apply lookup_empty. }
      rewrite E. rewrite lookup_total_empty. reflexivity.
    + rewrite lookup_total_empty. reflexivity.
  - destruct (is_substring "." _); cbn.
    + assert (E : first_hit
                (fun part => (∅ : gmap (string * string) XGData.t)
                               !! (part, Player.team row))
                (dot_parts strip_accents lower
                   (safe_str (Player.player_name row))) = None).
      { apply first_hit_None. intros x _. apply lookup_empty. }
      rewrite E. rewrite lookup_total_empty. reflexivity.
    + rewrite lookup_total_empty. reflexivity.
Qed.

(** X10.  When an xG file is missing while the player table is there, the
    document still has its player leaderboards: the goal-scorers board
    lists the 20 best scorers as ever, and every xG-derived column of the
    goal-scorers and assist-leaders boards is null; the three xG sections
    are null. *)
Theorem leaderboards_without_xg (df : list Match.t)
  (players_df : list Player.t) (xg_teams : option (list XGTeam.t))
  (xg_players : option (list XGPlayer.t)) (now : string) :
  xg_teams = None \/ xg_players = None ->
  exists doc lb,
    main strip_accents lower
      (Inputs.mk (Some df) (Some players_df) xg_teams xg_players) now
    = Saved doc
    /\ Document.player_leaderboards doc = Some lb
    /\ length (Leaderboards.goal_scorers lb)
       = Nat.min 20
           (length (List.filter (fun p => 0 <? Player.goals p) players_df))
    /\ (forall g, In g (Leaderboards.goal_scorers lb) ->
                  GoalScorer.xg g = None /\ GoalScorer.shots g = None)
    /\ (forall a, In a (Leaderboards.assist_leaders lb) ->
                  AssistLeader.xa a = None /\ AssistLeader.key_passes a = None)
    /\ Document.xg_table doc = None
    /\ Document.xg_vs_actual doc = None
    /\ Document.shot_quality doc = None.
Proof.
  intros Hno.
  set (inp := Inputs.mk (Some df) (Some players_df) xg_teams xg_players).
  destruct (main_saved strip_accents lower df inp eq_refl) as (doc0 & Hm & Ht).
  specialize (Hm now). specialize (Ht now).
  exists (Document.set_generated_at now doc0).
  apply transform_inv in Ht as (_ & _ & _ & _ & _ & Hxg & Hpl).
  assert (Hx : has_xg inp = false).
  { unfold has_xg, inp. cbn. destruct Hno as [-> | ->];
      [reflexivity|destruct xg_teams; reflexivity]. }
  rewrite Hx in Hxg. cbn [inp Inputs.players] in Hpl.
  destruct Hpl as [(lb & Hlb & Hdoc) _].
  unfold xg_index_of in Hlb. rewrite Hx in Hlb.
  exists lb. split; [exact Hm|]. split; [exact Hdoc|].
  pose proof (player_leaderboards_of_ret _ _ _ _ _ Hlb) as (Hgs & Hals & _).
  apply py_for_indexed in Hgs as [Hlen Hgs].
  apply py_for_indexed in Hals as [Hlena Hals].
  assert (HFa : Forall2 (assist_leader_of strip_accents lower XGIndex.empty)
                  (take 15 (sort_desc_Z Player.assists
                     (List.filter (fun p => 0 <? Player.assists p) players_df)))
                  (Leaderboards.assist_leaders lb)).
  { apply Forall2_same_length_lookup_2; [exact Hlena|].
    intros i p a Hp Ha.
    apply (assist_leader_row_ret _ _ _ i), (Hals i p a Hp Ha). }
  split.
  { rewrite <- Hlen. unfold sort_desc_Z.
    rewrite length_take, py_sort_length. reflexivity. }
  split; [|split; [|exact Hxg]].
  - intros g Hg. apply list_elem_of_In, list_elem_of_lookup in Hg as [i Hi].
    destruct (lookup_lt_is_Some_2
                (take 20 (sort_desc_Z Player.goals
                   (List.filter (fun p => 0 <? Player.goals p) players_df))) i)
      as [p Hp].
    { rewrite Hlen. eapply lookup_lt_Some, Hi. }
    specialize (Hgs i p g Hp Hi).
    apply goal_scorer_row_ret in Hgs as (_ & Hrow).
    destruct Hrow as (_ & _ & _ & _ & _ & _ & _ & _ & -> & ->).
    rewrite enrich_empty. split; reflexivity.
  - intros a Ha. apply list_elem_of_In, list_elem_of_lookup in Ha as [i Hi].
    destruct (Forall2_lookup_r _ _ _ i a HFa Hi) as (p & _ & Hrow).
    destruct Hrow as (_ & _ & _ & _ & _ & _ & _ & -> & -> & _).
    rewrite enrich_empty. split; reflexivity.
Qed.
End DocumentFacts.

Lemma leaderboards_without_xg_witness :
  exists doc lb,
    main (fun s => s) ascii_lower sample_no_xg "2025-12-01T09:00:00"
    = Saved doc
    /\ Document.player_leaderboards doc = Some lb
    /\ length (Leaderboards.goal_scorers lb)
       = Nat.min 20
           (length (List.filter (fun p => 0 <? Player.goals p)
                      [sample_haaland]))
    /\ (forall g, In g (Leaderboards.goal_scorers lb) ->
                  GoalScorer.xg g = None /\ GoalScorer.shots g = None)
    /\ (forall a, In a (Leaderboards.assist_leaders lb) ->
                  AssistLeader.xa a = None /\ AssistLeader.key_passes a = None)
    /\ Document.xg_table doc = None
    /\ Document.xg_vs_actual doc = None
    /\ Document.shot_quality doc = None.
Proof.
  apply (leaderboards_without_xg (fun s => s) ascii_lower [sample_goalless]
           [sample_haaland] None None "2025-12-01T09:00:00").
  left. reflexivity.
Defined.

(** ** Sums of rationals *)

Lemma q_sum_from (l : list Q) (a : Q) :
  (fold_left Qplus l a == a + q_sum l)%Q.
Proof.
  unfold q_sum. revert a.
  induction l as [|x l IH]; intros a; simpl.
  - ring.
  - rewrite (IH (a + x)%Q), (IH (0 + x)%Q). ring.
Qed.

Lemma q_sum_cons (x : Q) (l : list Q) : (q_sum (x :: l) == x + q_sum l)%Q.
Proof.
  unfold q_sum at 1. simpl. rewrite q_sum_from. ring.
Qed.

Lemma q_sum_nil : q_sum [] = 0%Q.
Proof. reflexivity. Qed.

Lemma q_sum_perm (l1 l2 : list Q) :
  Permutation l1 l2 -> (q_sum l1 == q_sum l2)%Q.
Proof.
  induction 1 as [|x l1 l2 _ IH|x y l|l1 l2 l3 _ IH1 _ IH2].
  - reflexivity.
  - rewrite !q_sum_cons, IH. reflexivity.
  - rewrite !q_sum_cons. ring.
  - rewrite IH1. exact IH2.
Qed.

Lemma q_sum_nonneg (l : list Q) :
  (forall x, In x l -> (0 <= x)%Q) -> (0 <= q_sum l)%Q.
Proof.
  induction l as [|x l IH]; intros H.
  - rewrite q_sum_nil. lra.
  - rewrite q_sum_cons.
    pose proof (H x (or_introl eq_refl)).
    assert (0 <= q_sum l)%Q by (apply IH; intros y Hy; apply H; right; exact Hy).
    lra.
Qed.

Lemma q_sum_col_sum {A : Type} (f : A -> Z) (l : list A) :
  (q_sum (map (fun x => inject_Z (f x)) l) == inject_Z (col_sum f l))%Q.
Proof.
  induction l as [|x l IH].
  - reflexivity.
  - cbn [map]. rewrite q_sum_cons, IH.
    change (col_sum f (x :: l)) with (f x + col_sum f l).
    rewrite inject_Z_plus. reflexivity.
Qed.

(** Rounding each term to 2 decimals moves a sum by at most 0.005 a term. *)
Lemma q_sum_round_bound {A : Type} (f : A -> Q) (l : list A) :
  (Qabs (q_sum (map (fun x => py_round (f x) 2) l) - q_sum (map f l))
   <= inject_Z (len l) * (1 # 200))%Q.
Proof.
  induction l as [|x l IH].
  - vm_compute. discriminate.
  - cbn [map]. rewrite !q_sum_cons.
    assert (E : (py_round (f x) 2 + q_sum (map (fun x => py_round (f x) 2) l)
                 - (f x + q_sum (map f l))
                 == (py_round (f x) 2 - f x)
                    + (q_sum (map (fun x => py_round (f x) 2) l)
                       - q_sum (map f l)))%Q) by ring.
    rewrite E.
    eapply Qle_trans; [apply Qabs_triangle|].
    pose proof (py_round_bound (f x) 2) as Hb.
    pose proof tolerance_2 as Ht.
    assert (El : (inject_Z (len (x :: l)) == 1 + inject_Z (len l))%Q).
    { unfold len. cbn [length]. rewrite Nat2Z.inj_succ, <- Z.add_1_l.
      rewrite inject_Z_plus. reflexivity. }
    rewrite El. lra.
Qed.

(** ** The money-vs-points rows *)

Lemma money_base_rows (table_rows : list Team.t) (players_df : list Player.t)
  (teams : list string) (rows : list (option MoneyBase.t)) :
  py_for (money_base_row table_rows)
    (map (fun team =>
            (team,
             q_sum (map Player.price
                      (List.filter (fun p => String.eqb (Player.team p) team)
                         players_df))))
         teams) = Ret rows ->
  map MoneyBase.team (omap id rows)
  = List.filter (fun t => match find_team table_rows t with
                          | Some _ => true
                          | None => false
                          end) teams
  /\ forall b, In b (omap id rows) -> money_base_of table_rows players_df b.
Proof.
  revert rows. induction teams as [|t teams IH]; intros rows H.
  - injection H as <-. split; [reflexivity|intros b []].
  - cbn [map py_for] in H.
    apply py_bind_ret in H as (r & Hr & H).
    apply py_bind_ret in H as (rs & Hrs & H). injection H as <-.
    destruct (IH rs Hrs) as [IHt IHf].
    unfold money_base_row in Hr. cbn [fst snd] in Hr. cbn [List.filter].
    destruct (find_team table_rows t) as [tr|] eqn:Ef.
    + apply py_bind_ret in Hr as (ppm & Hppm & Hr). injection Hr as <-.
      simpl. split.
      * f_equal. exact IHt.
      * intros b [<-|Hb]; [|apply IHf, Hb].
        exists tr. cbn. split; [exact Ef|]. do 3 (split; [reflexivity|]).
        destruct (Z.ltb_spec 0 (Team.played tr)) as [Hpos|Hle].
        -- rewrite py_div_pos in Hppm by exact Hpos. injection Hppm as <-.
           reflexivity.
        -- injection Hppm as <-. apply py_round_zero.
    + injection Hr as <-. simpl. split; [exact IHt|exact IHf].
Qed.

Lemma money_vs_points_of_inv (table_rows : list Team.t)
  (players_df : list Player.t) (res : option MoneyVsPoints.t) :
  money_vs_points_of table_rows players_df = Ret res ->
  exists base,
    map MoneyBase.team base = listed_teams table_rows players_df
    /\ (forall b, In b base -> money_base_of table_rows players_df b)
    /\ match base with
       | [] => res = None
       | _ :: _ => exists m, money_fit base = Ret m /\ res = Some m
       end.
Proof.
  unfold money_vs_points_of. intros H.
  apply py_bind_ret in H as (rows & Hrows & H).
  unfold squad_values_of in Hrows.
  apply money_base_rows in Hrows as [Ht Hf].
  exists (omap id rows). split; [exact Ht|]. split; [exact Hf|].
  destruct (omap id rows) as [|b base]; [injection H as <-; reflexivity|].
  apply py_bind_ret in H as (m & Hm & H). injection H as <-.
  exists m. split; [exact Hm|reflexivity].
Qed.

(** X11.  The money-vs-points section is null exactly when no team of the
    player table has a row in the league table.  Otherwise it lists exactly
    the teams of the player table that have one, each once, in
    non-increasing order of over/under-performance; a row carries the points
    and games played of the team's league-table row, the sum of the prices
    of the team's players rounded to 1 decimal, and the points per match
    rounded to 2 decimals (0 when nothing was played). *)
Theorem money_rows_listing (table_rows : list Team.t)
  (players_df : list Player.t) :
  exists res,
    money_vs_points_of table_rows players_df = Ret res
    /\ match res with
       | None => listed_teams table_rows players_df = []
       | Some m =>
           listed_teams table_rows players_df <> []
           /\ Permutation (map MoneyRow.team (MoneyVsPoints.teams m))
                (listed_teams table_rows players_df)
           /\ List.NoDup (map MoneyRow.team (MoneyVsPoints.teams m))
           /\ StronglySorted
                (fun a b => (MoneyRow.over_under b <= MoneyRow.over_under a)%Q)
                (MoneyVsPoints.teams m)
           /\ forall r, In r (MoneyVsPoints.teams m) ->
                        money_row_of table_rows players_df r
       end.
Proof.
  destruct (money_vs_points_of_total table_rows players_df) as [res Hres].
  exists res. split; [exact Hres|].
  apply money_vs_points_of_inv in Hres as (base & Ht & Hf & Hres).
  destruct base as [|b base].
  - rewrite Hres. symmetry. exact Ht.
  - destruct Hres as (m & Hm & ->).
    assert (Hne : listed_teams table_rows players_df <> [])
      by (rewrite <- Ht; discriminate).
    set (rows := b :: base) in *. clearbody rows.
    unfold money_fit in Hm. apply py_bind_ret in Hm as (f & _ & Hm).
    injection Hm as <-. cbn [MoneyVsPoints.teams].
    assert (Hperm : Permutation
              (map MoneyRow.team
                 (sort_desc_Q MoneyRow.over_under
                    (map (money_row f) rows)))
              (listed_teams table_rows players_df)).
    { rewrite <- Ht.
      transitivity (map MoneyRow.team (map (money_row f) rows)).
      - apply Permutation_map. unfold sort_desc_Q. apply py_sort_perm.
      - rewrite map_map. reflexivity. }
    split; [exact Hne|]. split; [exact Hperm|]. split.
    { eapply Permutation_NoDup; [symmetry; exact Hperm|].
      unfold listed_teams. apply List.NoDup_filter. unfold player_teams.
      eapply Permutation_NoDup; [symmetry; apply py_sort_perm|].
      apply NoDup_ListNoDup, NoDup_elements. }
    split; [apply sort_desc_Q_sorted|].
    intros r Hr. unfold sort_desc_Q in Hr. apply py_sort_In in Hr.
    apply in_map_iff in Hr as (b' & <- & Hb').
    exact (Hf b' Hb').
Qed.
(** ** The fitted line *)

Lemma zip_map_same {A B C : Type} (f : A -> B) (g : A -> C) (l : list A) :
  zip (map f l) (map g l) = map (fun x => (f x, g x)) l.
Proof.
  induction l as [|x l IH]; [reflexivity|]. cbn. rewrite IH. reflexivity.
Qed.

Lemma inject_Z_len_cons {A : Type} (x : A) (l : list A) :
  (inject_Z (len (x :: l)) == 1 + inject_Z (len l))%Q.
Proof.
  unfold len. cbn [length]. rewrite Nat2Z.inj_succ, <- Z.add_1_l.
  rewrite inject_Z_plus. reflexivity.
Qed.

Lemma len_map {A B : Type} (f : A -> B) (l : list A) : len (map f l) = len l.
Proof. unfold len. rewrite length_map. reflexivity. Qed.

(** The fit that [money_fit] applies to its rows. *)
Lemma money_fit_inv (money_rows : list MoneyBase.t) (m : MoneyVsPoints.t) :
  money_rows <> [] ->
  money_fit money_rows = Ret m ->
  let values := map MoneyBase.squad_value money_rows in
  let points := map MoneyBase.points money_rows in
  exists f,
    Fit.slope f = ols_slope values points
    /\ Fit.intercept f = ols_intercept values points
    /\ Fit.r2 f = ols_r_squared values points
    /\ MoneyVsPoints.teams m
       = sort_desc_Q MoneyRow.over_under (map (money_row f) money_rows)
    /\ MoneyVsPoints.regression m = regression_of f.
Proof.
  intros Hne Hm values points. unfold money_fit in Hm.
  fold values points in Hm.
  rewrite linear_fit_ret in Hm
    by (unfold values; destruct money_rows; [contradiction|discriminate]).
  cbn [py_bind] in Hm. injection Hm as <-.
  eexists. repeat split; reflexivity.
Qed.

(** The residuals of a line through the point of the two means add up to
    nothing, whatever its slope. *)
Lemma residual_sum (rows : list MoneyBase.t) (s c : Q) :
  (q_sum (map (fun b => inject_Z (MoneyBase.points b)
                        - (s * MoneyBase.squad_value b + c)) rows)
   == inject_Z (col_sum MoneyBase.points rows)
      - s * q_sum (map MoneyBase.squad_value rows)
      - inject_Z (len rows) * c)%Q.
Proof.
  induction rows as [|b rows IH].
  - cbn [map]. rewrite !q_sum_nil.
    change (inject_Z (col_sum MoneyBase.points [])) with 0%Q.
    change (inject_Z (len (@nil MoneyBase.t))) with 0%Q. ring.
  - cbn [map]. rewrite !q_sum_cons, IH, inject_Z_len_cons.
    change (col_sum MoneyBase.points (b :: rows))
      with (MoneyBase.points b + col_sum MoneyBase.points rows).
    rewrite inject_Z_plus. ring.
Qed.

Lemma residuals_balance (rows : list MoneyBase.t) (s : Q) :
  rows <> [] ->
  let values := map MoneyBase.squad_value rows in
  let points := map MoneyBase.points rows in
  (q_sum (map (fun b => inject_Z (MoneyBase.points b)
                        - (s * MoneyBase.squad_value b
                           + (mean_points values points
                              - s * mean_values values))) rows) == 0)%Q.
Proof.
  intros Hne values points. rewrite residual_sum.
  unfold mean_points, mean_values, values, points.
  rewrite col_sum_map, len_map.
  assert (Hn : ~ (inject_Z (len rows) == 0)%Q).
  { unfold len. destruct rows; [contradiction|].
    unfold Qeq. cbn [length]. simpl. lia. }
  field. exact Hn.
Qed.

Lemma Qsquare_nonneg (x : Q) : (0 <= x ^ 2)%Q.
Proof.
  assert (E : (x ^ 2 == x * x)%Q) by ring. rewrite E.
  destruct (Qlt_le_dec x 0) as [Hneg|Hpos].
  - assert (E' : (x * x == (- x) * (- x))%Q) by ring. rewrite E'.
    apply Qmult_le_0_compat; lra.
  - apply Qmult_le_0_compat; assumption.
Qed.

(** The Cauchy-Schwarz inequality for two columns of a table. *)
Lemma cauchy_schwarz {A : Type} (a c : A -> Q) (l : list A) :
  (0 < q_sum (map (fun x => a x ^ 2) l))%Q ->
  (q_sum (map (fun x => a x * c x) l) ^ 2
   <= q_sum (map (fun x => a x ^ 2) l) * q_sum (map (fun x => c x ^ 2) l))%Q.
Proof.
  set (SA := q_sum (map (fun x => (a x ^ 2)%Q) l)).
  set (SC := q_sum (map (fun x => (c x ^ 2)%Q) l)).
  set (SAC := q_sum (map (fun x => (a x * c x)%Q) l)).
  intros Hpos.
  assert (Hquad : forall k1 k2 : Q,
             (q_sum (map (fun x => (k1 * c x - k2 * a x) ^ 2) l)
              == k1 ^ 2 * SC - 2 * k1 * k2 * SAC + k2 ^ 2 * SA)%Q).
  { intros k1 k2. unfold SA, SC, SAC. clear.
    induction l as [|x l IH].
    - cbn [map]. rewrite !q_sum_nil. ring.
    - cbn [map]. rewrite !q_sum_cons, IH. ring. }
  assert (Hnn : (0 <= q_sum (map (fun x => (SA * c x - SAC * a x) ^ 2) l))%Q).
  { apply q_sum_nonneg. intros y Hy.
    apply in_map_iff in Hy as (x & <- & _). apply Qsquare_nonneg. }
  rewrite Hquad in Hnn.
  assert (E : (SA ^ 2 * SC - 2 * SA * SAC * SAC + SAC ^ 2 * SA
               == SA * (SA * SC - SAC ^ 2))%Q) by ring.
  rewrite E in Hnn.
  destruct (Qlt_le_dec (SA * SC - SAC ^ 2) 0) as [Hneg|Hok]; [|lra].
  exfalso.
  assert (H : (SA * (SA * SC - SAC ^ 2) < SA * 0)%Q)
    by (apply Qmult_lt_l; assumption).
  lra.
Qed.

Lemma round_half_even_between (q : Q) (lo hi : Z) :
  (inject_Z lo <= q <= inject_Z hi)%Q -> lo <= round_half_even q <= hi.
Proof.
  intros [Hlo Hhi].
  pose proof (round_half_even_bound q) as Hb.
  apply Qabs_Qle_condition in Hb as [Hb1 Hb2].
  assert (H1 : (inject_Z (lo - 1) < inject_Z (round_half_even q))%Q).
  { unfold Z.sub. rewrite inject_Z_plus.
    change (inject_Z (- (1))) with (- (1))%Q.
    generalize dependent (inject_Z (round_half_even q)).
    generalize dependent (inject_Z lo). intros a Ha r Hr1 Hr2. lra. }
  assert (H2 : (inject_Z (round_half_even q) < inject_Z (hi + 1))%Q).
  { rewrite inject_Z_plus. change (inject_Z 1) with 1%Q.
    generalize dependent (inject_Z (round_half_even q)).
    generalize dependent (inject_Z hi). intros a Ha r Hr1 Hr2 _. lra. }
  rewrite <- Zlt_Qlt in H1, H2. lia.
Qed.

(** Rounding does not leave an interval with whole bounds. *)
Lemma py_round_between (x : Q) (d : nat) (lo hi : Z) :
  (inject_Z lo <= x <= inject_Z hi)%Q ->
  (inject_Z lo <= py_round x d <= inject_Z hi)%Q.
Proof.
  intros [Hlo Hhi].
  pose proof (pow10_pos d) as Hp.
  assert (Hq : (0 < inject_Z (pow10 d))%Q) by (unfold Qlt; simpl; lia).
  destruct (round_half_even_between (x * inject_Z (pow10 d))
              (lo * pow10 d) (hi * pow10 d)) as [H1 H2].
  { rewrite !inject_Z_mult. split; apply Qmult_le_compat_r; lra. }
  rewrite Zle_Qle, inject_Z_mult in H1, H2.
  rewrite py_round_eq. split.
  - apply Qle_shift_div_l; assumption.
  - apply Qle_shift_div_r; assumption.
Qed.

Lemma ols_r_squared_unit (rows : list MoneyBase.t) :
  let values := map MoneyBase.squad_value rows in
  let points := map MoneyBase.points rows in
  (0 <= ols_r_squared values points <= 1)%Q.
Proof.
  intros values points. unfold ols_r_squared.
  destruct (Qlt_bool 0 (variance values)) eqn:Ev; cbn [andb]; [|lra].
  destruct (Qlt_bool 0 (variance_points values points)) eqn:Ep; [|lra].
  apply Qlt_bool_iff in Ev, Ep.
  set (mv := mean_values values) in *. set (mp := mean_points values points).
  assert (Ecov : covariance values points
                 = q_sum (map (fun b => ((MoneyBase.squad_value b - mv)
                                         * (inject_Z (MoneyBase.points b) - mp))%Q)
                            rows)).
  { unfold covariance, values, points. rewrite zip_map_same, map_map.
    reflexivity. }
  assert (Evar : variance values
                 = q_sum (map (fun b => ((MoneyBase.squad_value b - mv) ^ 2)%Q)
                            rows)).
  { unfold variance, values. rewrite map_map. reflexivity. }
  assert (Evp : variance_points values points
                = q_sum (map (fun b => ((inject_Z (MoneyBase.points b) - mp) ^ 2)%Q)
                           rows)).
  { unfold variance_points, points. rewrite map_map. reflexivity. }
  pose proof (cauchy_schwarz (fun b => MoneyBase.squad_value b - mv)%Q
                (fun b => inject_Z (MoneyBase.points b) - mp)%Q rows) as Hcs.
  cbv beta in Hcs. rewrite <- Ecov, <- Evar, <- Evp in Hcs.
  specialize (Hcs Ev).
  assert (Hden : (0 < variance values * variance_points values points)%Q)
    by (apply Qmult_lt_0_compat; assumption).
  split.
  - apply Qle_shift_div_l; [exact Hden|].
    pose proof (Qsquare_nonneg (covariance values points)). lra.
  - apply Qle_shift_div_r; [exact Hden|]. lra.
Qed.

(** X12.  The over/under-performance column balances out.  In every row
    expected points and over/under add up to the team's points, within
    0.01; and over all rows the over/under values add up to 0, within 0.005
    a row, because the fitted line passes through the point of the two
    means. *)
Theorem money_residuals_balance (table_rows : list Team.t)
  (players_df : list Player.t) :
  exists res,
    money_vs_points_of table_rows players_df = Ret res
    /\ forall m, res = Some m ->
         (forall r, In r (MoneyVsPoints.teams m) ->
            (Qabs (MoneyRow.expected_points r + MoneyRow.over_under r
                   - inject_Z (MoneyRow.points r)) <= 1 # 100)%Q)
         /\ (Qabs (q_sum (map MoneyRow.over_under (MoneyVsPoints.teams m)))
             <= inject_Z (len (MoneyVsPoints.teams m)) * (1 # 200))%Q.
Proof.
  destruct (money_vs_points_of_total table_rows players_df) as [res Hres].
  exists res. split; [exact Hres|].
  intros m ->.
  apply money_vs_points_of_inv in Hres as (base & _ & _ & Hres).
  destruct base as [|b0 base]; [discriminate|].
  destruct Hres as (m' & Hm & [= <-]).
  set (rows := b0 :: base) in *.
  assert (Hne : rows <> []) by discriminate. clearbody rows.
  destruct (money_fit_inv rows m Hne Hm) as (f & Hs & Hi & _ & Ht & _).
  rewrite Ht. split.
  - intros r Hr. unfold sort_desc_Q in Hr. apply py_sort_In in Hr.
    apply in_map_iff in Hr as (b & <- & _).
    unfold money_row. cbn [MoneyRow.expected_points MoneyRow.over_under
                           MoneyRow.points safe_float].
    set (e := (Fit.slope f * MoneyBase.squad_value b + Fit.intercept f)%Q).
    pose proof (py_round_bound e 2) as H1.
    pose proof (py_round_bound (inject_Z (MoneyBase.points b) - e) 2) as H2.
    pose proof tolerance_2 as Ht2.
    apply Qabs_Qle_condition in H1 as [H1a H1b].
    apply Qabs_Qle_condition in H2 as [H2a H2b].
    apply Qabs_Qle_condition. split; lra.
  - unfold len. unfold sort_desc_Q at 2. rewrite py_sort_length.
    rewrite (q_sum_perm _ (map MoneyRow.over_under (map (money_row f) rows)))
      by (apply Permutation_map; unfold sort_desc_Q; apply py_sort_perm).
    rewrite length_map, map_map.
    unfold money_row. cbn [MoneyRow.over_under safe_float].
    pose proof (q_sum_round_bound
                  (fun b => inject_Z (MoneyBase.points b)
                            - (Fit.slope f * MoneyBase.squad_value b
                               + Fit.intercept f))%Q rows) as Hb.
    cbv beta in Hb.
    pose proof (residuals_balance rows (Fit.slope f) Hne) as Hz.
    cbv zeta in Hz. rewrite Hi in Hb. unfold ols_intercept in Hb.
    rewrite <- Hs in Hb. rewrite Hz in Hb.
    rewrite Hi. unfold ols_intercept. rewrite <- Hs.
    unfold len in Hb.
    assert (E : forall q : Q, (q - 0 == q)%Q) by (intros; ring).
    rewrite E in Hb. exact Hb.
Qed.

(** X13.  The R-squared the regression reports lies between 0 and 1. *)
Theorem r_squared_unit_interval (table_rows : list Team.t)
  (players_df : list Player.t) :
  exists res,
    money_vs_points_of table_rows players_df = Ret res
    /\ forall m, res = Some m ->
         (0 <= Regression.r_squared (MoneyVsPoints.regression m) <= 1)%Q.
Proof.
  destruct (money_vs_points_of_total table_rows players_df) as [res Hres].
  exists res. split; [exact Hres|].
  intros m ->.
  apply money_vs_points_of_inv in Hres as (base & _ & _ & Hres).
  destruct base as [|b0 base]; [discriminate|].
  destruct Hres as (m' & Hm & [= <-]).
  set (rows := b0 :: base) in *.
  assert (Hne : rows <> []) by discriminate. clearbody rows.
  destruct (money_fit_inv rows m Hne Hm) as (f & _ & _ & Hr & _ & Hreg).
  rewrite Hreg. unfold regression_of.
  cbn [Regression.r_squared safe_float]. rewrite Hr.
  apply (py_round_between _ 3 0 1). apply ols_r_squared_unit.
Qed.

(** ** The xG sections of the document *)

Lemma find_team_unique (table : list Team.t) (tr : Team.t) :
  List.NoDup (map Team.team table) ->
  In tr table ->
  find_team table (Team.team tr) = Some tr.
Proof.
  unfold find_team. induction table as [|r table IH]; intros Hnd Hin.
  - destruct Hin.
  - cbn [map] in Hnd. apply List.NoDup_cons_iff in Hnd as [Hnotin Hnd].
    cbn [find]. destruct Hin as [->|Hin].
    + rewrite String.eqb_refl. reflexivity.
    + destruct (String.eqb_spec (Team.team r) (Team.team tr)) as [E|_].
      * exfalso. apply Hnotin. rewrite E. apply in_map, Hin.
      * apply IH; assumption.
Qed.

Lemma league_table_NoDup (current : list Match.t) (table : list Team.t) :
  league_table current = Ret table -> List.NoDup (map Team.team table).
Proof.
  intros Htab. destruct (league_table_ret current) as (table' & Htab' & Hperm).
  rewrite Htab in Htab'. injection Htab' as <-.
  eapply Permutation_NoDup; [symmetry; exact Hperm|apply teams_of_NoDup].
Qed.

Lemma shot_quality_of_rows (table_rows : list Team.t)
  (xg_teams_df : list XGTeam.t) (sq : list ShotQuality.t) :
  shot_quality_of table_rows xg_teams_df = Ret sq ->
  StronglySorted
    (fun a b => (ShotQuality.xg_per_shot b <= ShotQuality.xg_per_shot a)%Q) sq
  /\ forall q, In q sq ->
       exists tr,
         find_team table_rows (ShotQuality.team q) = Some tr
         /\ ShotQuality.total_shots q = Team.total_shots tr
         /\ 0 < ShotQuality.total_shots q.
Proof.
  unfold shot_quality_of. intros H.
  apply py_bind_ret in H as (rows & Hrows & H). injection H as <-.
  split; [apply sort_desc_Q_sorted|].
  intros q Hq. unfold sort_desc_Q in Hq. apply py_sort_In in Hq.
  apply list_elem_of_In, list_elem_of_omap in Hq as (o & Ho & Hoq).
  cbn in Hoq. subst o.
  apply py_for_Forall2 in Hrows.
  apply list_elem_of_lookup in Ho as [i Hi].
  destruct (Forall2_lookup_r _ _ _ i (Some q) Hrows Hi) as (row & _ & Hrow).
  rewrite shot_quality_row_eq in Hrow. injection Hrow as Hrow.
  destruct (find_team table_rows (XGTeam.team row)) as [tr|] eqn:Ef;
    [|discriminate].
  destruct (Z.ltb_spec 0 (Team.total_shots tr)) as [Hpos|]; [|discriminate].
  injection Hrow as <-. cbn. exists tr. split; [exact Ef|]. split; [reflexivity|exact Hpos].
Qed.

(** X14.  With both xG files read, the xG table has as many rows as the xG
    team file and stands in non-increasing order of xG difference; the
    difference shown is xG for minus xG against as shown, rounded to 2
    decimals, and a team of the league table carries the points of its
    league-table row.  The xG-vs-goals scatter keeps the teams in file
    order, its difference being goals minus xG as shown, rounded to 2
    decimals.  The shot-quality rows stand in non-increasing order of xG
    per shot and carry the positive shot total of the team's league-table
    row. *)
Theorem xg_sections (strip_accents lower : string -> string)
  (df : list Match.t) (players : option (list Player.t))
  (xg_teams : list XGTeam.t) (xg_players : list XGPlayer.t) (now : string) :
  exists doc tbl sc sq,
    main strip_accents lower
      (Inputs.mk (Some df) players (Some xg_teams) (Some xg_players)) now
    = Saved doc
    /\ Document.xg_table doc = Some tbl
    /\ Document.xg_vs_actual doc = Some sc
    /\ Document.shot_quality doc = Some sq
    /\ length tbl = length xg_teams
    /\ StronglySorted
         (fun a b => (XGTableRow.xg_difference b
                      <= XGTableRow.xg_difference a)%Q) tbl
    /\ (forall r, In r tbl ->
          XGTableRow.xg_difference r
          = py_round (XGTableRow.xg_for r - XGTableRow.xg_against r) 2
          /\ forall tr, In tr (Document.league_table doc) ->
                        Team.team tr = XGTableRow.team r ->
                        XGTableRow.actual_points r = Team.points tr)
    /\ map Scatter.team sc = map XGTeam.team xg_teams
    /\ (forall s, In s sc ->
          Scatter.difference s
          = py_round (inject_Z (Scatter.actual_goals s) - Scatter.total_xg s) 2)
    /\ StronglySorted
         (fun a b => (ShotQuality.xg_per_shot b
                      <= ShotQuality.xg_per_shot a)%Q) sq
    /\ forall q, In q sq ->
         exists tr,
           In tr (Document.league_table doc)
           /\ Team.team tr = ShotQuality.team q
           /\ ShotQuality.total_shots q = Team.total_shots tr
           /\ 0 < ShotQuality.total_shots q.
Proof.
  set (inp := Inputs.mk (Some df) players (Some xg_teams) (Some xg_players)).
  destruct (main_saved strip_accents lower df inp eq_refl) as (doc0 & Hm & Ht).
  specialize (Hm now). specialize (Ht now).
  set (doc := Document.set_generated_at now doc0) in *. clearbody doc.
  apply transform_inv in Ht as (Htab & _ & _ & _ & _ & Hxg & _).
  cbn in Hxg. destruct Hxg as (Htbl & Hsc & sq & Hsq & Hdsq).
  pose proof (league_table_NoDup _ _ Htab) as Hnd.
  exists doc, (xg_table_of (Document.league_table doc) xg_teams),
    (xg_vs_actual_of xg_teams), sq.
  split; [exact Hm|]. split; [exact Htbl|]. split; [exact Hsc|].
  split; [exact Hdsq|]. split.
  { unfold xg_table_of, sort_desc_Q. rewrite py_sort_length, length_map.
    reflexivity. }
  split; [apply sort_desc_Q_sorted|]. split.
  { intros r Hr. unfold xg_table_of, sort_desc_Q in Hr.
    apply py_sort_In in Hr. apply in_map_iff in Hr as (row & <- & _).
    split; [reflexivity|]. intros tr Htr Hteam. cbn in Hteam |- *.
    unfold actual_points_of. rewrite <- Hteam.
    rewrite (find_team_unique _ tr Hnd Htr). reflexivity. }
  split.
  { unfold xg_vs_actual_of. rewrite map_map. reflexivity. }
  split.
  { intros s Hs. unfold xg_vs_actual_of in Hs.
    apply in_map_iff in Hs as (row & <- & _). reflexivity. }
  apply shot_quality_of_rows in Hsq as [Hsorted Hrows].
  split; [exact Hsorted|].
  intros q Hq. destruct (Hrows q Hq) as (tr & Hf & Hshots & Hpos).
  exists tr. unfold find_team in Hf. apply find_some in Hf as [Hin Heq].
  apply String.eqb_eq in Heq. auto.
Qed.

(** ** The lookup indexes, entry by entry *)

Lemma last_filter_cons {A : Type} (p : A -> bool) (x : A) (l : list A) :
  last (List.filter p (x :: l))
  = match last (List.filter p l) with
    | Some y => Some y
    | None => if p x then Some x else None
    end.
Proof.
  cbn [List.filter]. destruct (p x); [|destruct (last _); reflexivity].
  destruct (List.filter p l) as [|y l']; [reflexivity|].
  rewrite last_cons. destruct (last (y :: l')); reflexivity.
Qed.

Lemma first_hit_app {A B : Type} (f : A -> option B) (l1 l2 : list A) :
  first_hit f (l1 ++ l2)
  = match first_hit f l1 with
    | Some y => Some y
    | None => first_hit f l2
    end.
Proof.
  induction l1 as [|x l1 IH]; [reflexivity|].
  cbn. destruct (f x); [reflexivity|exact IH].
Qed.

Lemma fold_under_by_name (name last name_norm : string) (data : XGData.t)
  (teams : list string) (idx : XGIndex.t) (n t : string) :
  XGIndex.xg_by_name
    (fold_left (index_under name last name_norm data) teams idx) !! (n, t)
  = if String.eqb name n && existsb (String.eqb t) teams
    then Some data
    else XGIndex.xg_by_name idx !! (n, t).
Proof.
  revert idx. induction teams as [|tm teams IH]; intros idx.
  - rewrite andb_false_r. reflexivity.
  - cbn [fold_left existsb]. rewrite IH.
    destruct (String.eqb_spec name n) as [->|Hn]; cbn [andb].
    + destruct (existsb (String.eqb t) teams);
        [rewrite orb_true_r; reflexivity|]. rewrite orb_false_r.
      cbn [index_under XGIndex.xg_by_name].
      destruct (String.eqb_spec t tm) as [->|Ht].
      * apply lookup_insert_eq.
      * apply lookup_insert_ne. congruence.
    + cbn [index_under XGIndex.xg_by_name].
      apply lookup_insert_ne. congruence.
Qed.

Lemma fold_under_by_last (name last name_norm : string) (data : XGData.t)
  (teams : list string) (idx : XGIndex.t) (l t : string) :
  XGIndex.xg_by_last
    (fold_left (index_under name last name_norm data) teams idx) !! (l, t)
  = if String.eqb last l && existsb (String.eqb t) teams
    then Some data
    else XGIndex.xg_by_last idx !! (l, t).
Proof.
  revert idx. induction teams as [|tm teams IH]; intros idx.
  - rewrite andb_false_r. reflexivity.
  - cbn [fold_left existsb]. rewrite IH.
    destruct (String.eqb_spec last l) as [->|Hn]; cbn [andb].
    + destruct (existsb (String.eqb t) teams);
        [rewrite orb_true_r; reflexivity|]. rewrite orb_false_r.
      cbn [index_under XGIndex.xg_by_last].
      destruct (String.eqb_spec t tm) as [->|Ht].
      * apply lookup_insert_eq.
      * apply lookup_insert_ne. congruence.
    + cbn [index_under XGIndex.xg_by_last].
      apply lookup_insert_ne. congruence.
Qed.

Lemma fold_under_by_team (name last name_norm : string) (data : XGData.t)
  (teams : list string) (idx : XGIndex.t) (t : string) :
  XGIndex.xg_by_team
    (fold_left (index_under name last name_norm data) teams idx) !!! t
  = (XGIndex.xg_by_team idx !!! t)
    ++ map (fun _ => (name_norm, data)) (List.filter (String.eqb t) teams).
Proof.
  revert idx. induction teams as [|tm teams IH]; intros idx.
  - cbn. rewrite app_nil_r. reflexivity.
  - cbn [fold_left List.filter]. rewrite IH.
    cbn [index_under XGIndex.xg_by_team].
    destruct (String.eqb_spec t tm) as [->|Ht].
    + rewrite lookup_total_insert_eq. cbn [map]. rewrite <- app_assoc.
      reflexivity.
    + rewrite lookup_total_insert_ne by congruence. reflexivity.
Qed.

Section IndexEntries.
Variable strip_accents : string -> string.
Variable lower : string -> string.

Lemma fold_row_by_name (rows : list XGPlayer.t) (idx : XGIndex.t)
  (n t : string) :
  XGIndex.xg_by_name (fold_left (index_row strip_accents lower) rows idx)
    !! (n, t)
  = match last (List.filter (keyed_under (fun n => n) n t) rows) with
    | Some xr => Some (xg_data_of xr)
    | None => XGIndex.xg_by_name idx !! (n, t)
    end.
Proof.
  revert idx. induction rows as [|xr rows IH]; intros idx; [reflexivity|].
  cbn [fold_left]. rewrite IH, last_filter_cons.
  destruct (last (List.filter _ rows)); [reflexivity|].
  unfold index_row, keyed_under, record_teams.
  destruct (XGPlayer.player_name xr) as [name|]; [|reflexivity].
  cbv zeta. rewrite fold_under_by_name. cbn [safe_str].
  destruct (_ && _); reflexivity.
Qed.

Lemma fold_row_by_last (rows : list XGPlayer.t) (idx : XGIndex.t)
  (l t : string) :
  XGIndex.xg_by_last (fold_left (index_row strip_accents lower) rows idx)
    !! (l, t)
  = match last (List.filter
                  (keyed_under
                     (fun n => last_name (normalize strip_accents lower n))
                     l t) rows) with
    | Some xr => Some (xg_data_of xr)
    | None => XGIndex.xg_by_last idx !! (l, t)
    end.
Proof.
  revert idx. induction rows as [|xr rows IH]; intros idx; [reflexivity|].
  cbn [fold_left]. rewrite IH, last_filter_cons.
  destruct (last (List.filter _ rows)); [reflexivity|].
  unfold index_row, keyed_under, record_teams.
  destruct (XGPlayer.player_name xr) as [name|]; [|reflexivity].
  cbv zeta. rewrite fold_under_by_last. cbn [safe_str].
  destruct (_ && _); reflexivity.
Qed.

Lemma fold_row_by_team (rows : list XGPlayer.t) (idx : XGIndex.t)
  (t : string) :
  XGIndex.xg_by_team (fold_left (index_row strip_accents lower) rows idx) !!! t
  = (XGIndex.xg_by_team idx !!! t)
    ++ flat_map (candidates_of strip_accents lower t) rows.
Proof.
  revert idx. induction rows as [|xr rows IH]; intros idx.
  - cbn. rewrite app_nil_r. reflexivity.
  - cbn [fold_left flat_map]. rewrite IH, app_assoc. f_equal.
    unfold index_row, candidates_of, record_teams.
    destruct (XGPlayer.player_name xr) as [name|];
      [|rewrite app_nil_r; reflexivity].
    cbv zeta. rewrite fold_under_by_team. reflexivity.
Qed.

Lemma first_hit_candidates (clean t : string) (rows : list XGPlayer.t) :
  first_hit (fun c : string * XGData.t =>
               if is_substring clean (fst c) then Some (snd c) else None)
    (flat_map (candidates_of strip_accents lower t) rows)
  = xg_data_of
    <$> head (List.filter (contains_under strip_accents lower clean t) rows).
Proof.
  induction rows as [|xr rows IH]; [reflexivity|].
  cbn [flat_map List.filter]. rewrite first_hit_app, IH.
  unfold candidates_of, contains_under.
  destruct (XGPlayer.player_name xr) as [name|]; [|reflexivity].
  induction (record_teams xr) as [|tm tms IHt].
  - rewrite andb_false_r. reflexivity.
  - cbn [List.filter existsb].
    destruct (String.eqb t tm); cbn [orb map first_hit fst snd].
    + destruct (is_substring clean _); cbn [andb]; [reflexivity|].
      cbn [andb] in IHt. exact IHt.
    + exact IHt.
Qed.

(** X15.  Of several xG rows with the same player name that list the same
    team, the last one in the file supplies the data of the exact lookup;
    likewise for the last-name lookup, keyed by the last word of the
    normalised name.  A key no row has is not in the dictionary. *)
Theorem index_last_row_wins (rows : list XGPlayer.t) (n l t : string) :
  XGIndex.xg_by_name (build_index strip_accents lower rows) !! (n, t)
  = xg_data_of <$> last (List.filter (keyed_under (fun n => n) n t) rows)
  /\ XGIndex.xg_by_last (build_index strip_accents lower rows) !! (l, t)
     = xg_data_of
       <$> last (List.filter
                   (keyed_under
                      (fun n => last_name (normalize strip_accents lower n))
                      l t) rows).
Proof.
  unfold build_index. rewrite fold_row_by_name, fold_row_by_last.
  split; destruct (last _); reflexivity.
Qed.

(** X16.  The candidates of a team are the named xG rows that list the
    team, in file order, and the substring search answers with the first
    row of the file that has a player name whose normal form contains the
    cleaned name and that lists the team; so a name that is empty once
    cleaned is matched to the first named row of the team. *)
Theorem substring_first_in_file (rows : list XGPlayer.t)
  (pname team : string) :
  XGIndex.xg_by_team (build_index strip_accents lower rows) !!! team
  = flat_map (candidates_of strip_accents lower team) rows
  /\ by_substring strip_accents lower (build_index strip_accents lower rows)
       pname team
     = xg_data_of
       <$> head (List.filter
                   (contains_under strip_accents lower
                      (rstrip_dot (normalize strip_accents lower pname)) team)
                   rows)
  /\ (rstrip_dot (normalize strip_accents lower pname) = "" ->
      by_substring strip_accents lower (build_index strip_accents lower rows)
        pname team
      = xg_data_of
        <$> head (List.filter (keyed_under (fun _ => "") "" team) rows)).
Proof.
  assert (Ht : XGIndex.xg_by_team (build_index strip_accents lower rows)
               !!! team
               = flat_map (candidates_of strip_accents lower team) rows).
  { unfold build_index. rewrite fold_row_by_team.
    cbn [XGIndex.empty XGIndex.xg_by_team]. rewrite lookup_total_empty.
    reflexivity. }
  assert (Hs : by_substring strip_accents lower
                 (build_index strip_accents lower rows) pname team
               = xg_data_of
                 <$> head (List.filter
                             (contains_under strip_accents lower
                                (rstrip_dot
                                   (normalize strip_accents lower pname))
                                team) rows)).
  { unfold by_substring. cbv zeta. rewrite Ht. apply first_hit_candidates. }
  split; [exact Ht|]. split; [exact Hs|].
  intros Hclean. rewrite Hs, Hclean. do 2 f_equal.
  apply filter_ext. intros xr. unfold contains_under, keyed_under.
  destruct (XGPlayer.player_name xr); [|reflexivity].
  destruct (normalize strip_accents lower s); reflexivity.
Qed.
End IndexEntries.

Lemma substring_first_in_file_witness :
  by_substring (fun s => s) ascii_lower
    (build_index (fun s => s) ascii_lower [sample_xg_haaland])
    "." "Manchester City"
  = Some (xg_data_of sample_xg_haaland).
Proof.
  destruct (substring_first_in_file (fun s => s) ascii_lower
              [sample_xg_haaland] "." "Manchester City") as (_ & _ & H).
  rewrite H; reflexivity.
Defined.

(** ** Scrubbing the document *)

Lemma sanitize_finite (j : Json.t) : json_finite (sanitize_for_json j) = true.
Proof.
  induction j as [| | |f| |l IH|d IH] using Json.induction;
    try reflexivity.
  - destruct f; reflexivity.
  - cbn [sanitize_for_json json_finite].
    induction IH as [|x l Hx _ IHl]; [reflexivity|].
    cbn [map forallb]. rewrite Hx. exact IHl.
  - cbn [sanitize_for_json json_finite].
    induction IH as [|[k v] d Hv _ IHd]; [reflexivity|].
    cbn [map forallb]. cbn [snd] in Hv. rewrite Hv. exact IHd.
Qed.

Lemma sanitize_clean (j : Json.t) :
  json_finite j = true -> sanitize_for_json j = j.
Proof.
  induction j as [| | |f| |l IH|d IH] using Json.induction;
    try reflexivity.
  - destruct f; [reflexivity|discriminate..].
  - cbn [sanitize_for_json json_finite]. intros H. f_equal.
    induction IH as [|x l Hx _ IHl]; [reflexivity|].
    cbn [forallb] in H. apply andb_true_iff in H as [H1 H2].
    cbn [map]. rewrite (Hx H1), (IHl H2). reflexivity.
  - cbn [sanitize_for_json json_finite]. intros H. f_equal.
    induction IH as [|[k v] d Hv _ IHd]; [reflexivity|].
    cbn [forallb] in H. apply andb_true_iff in H as [H1 H2].
    cbn [map]. cbn [snd] in Hv. rewrite (Hv H1), (IHd H2). reflexivity.
Qed.

(** X17.  [sanitize_for_json] leaves no NaN and no infinity anywhere in a
    value, however deeply nested in lists and dictionaries; it returns a
    value without any unchanged, so scrubbing twice is scrubbing once; and
    it keeps the keys of a dictionary, in order, and the length of a
    list. *)
Theorem sanitize_for_json_scrubs (j : Json.t) :
  json_finite (sanitize_for_json j) = true
  /\ (json_finite j = true -> sanitize_for_json j = j)
  /\ sanitize_for_json (sanitize_for_json j) = sanitize_for_json j
  /\ json_keys (sanitize_for_json j) = json_keys j
  /\ (forall l, j = Json.JList l ->
        exists l', sanitize_for_json j = Json.JList l'
                   /\ length l' = length l).
Proof.
  split; [apply sanitize_finite|]. split; [apply sanitize_clean|].
  split; [apply sanitize_clean, sanitize_finite|]. split.
  - destruct j as [| | |f| |l|d]; try reflexivity.
    + destruct f; reflexivity.
    + cbn [sanitize_for_json json_keys]. rewrite map_map.
      apply map_ext. intros [k v]. reflexivity.
  - intros l ->. cbn [sanitize_for_json]. eexists. split; [reflexivity|].
    apply length_map.
Qed.

(** ** Monthly trends *)

Lemma py_sort_id {A : Type} (leb : A -> A -> bool) (l : list A) :
  StronglySorted (fun a b => leb a b = true) l -> py_sort leb l = l.
Proof.
  induction 1 as [|x l Hs IH Hx]; [reflexivity|].
  cbn [py_sort foldr]. fold (py_sort leb l). rewrite IH.
  destruct l as [|y l]; [reflexivity|].
  cbn [insert_stable]. inversion Hx as [|? ? Hy _]; subst. rewrite Hy.
  reflexivity.
Qed.

Lemma col_sum_map_comp {A B : Type} (f : B -> Z) (g : A -> B) (l : list A) :
  col_sum f (map g l) = col_sum (fun x => f (g x)) l.
Proof.
  induction l as [|x l IH]; [reflexivity|]. simpl. rewrite IH. reflexivity.
Qed.

Lemma months_of_In (current : list Match.t) (m : Match.t) :
  In m current -> In (month_of m) (months_of current).
Proof.
  intros Hm. unfold months_of. apply py_sort_In.
  apply list_elem_of_In, elem_of_elements, elem_of_list_to_set.
  apply list_elem_of_In, in_map, Hm.
Qed.

Lemma months_of_inv (current : list Match.t) (t : string) :
  In t (months_of current) -> exists m, In m current /\ month_of m = t.
Proof.
  unfold months_of. rewrite py_sort_In, <- list_elem_of_In.
  rewrite elem_of_elements, elem_of_list_to_set, list_elem_of_In, in_map_iff.
  intros (m & Hm & Hin). exists m. auto.
Qed.

Lemma months_of_strict (current : list Match.t) :
  StronglySorted (fun a b => String.ltb a b = true) (months_of current).
Proof. apply NoDup_sorted_strict, NoDup_ListNoDup, NoDup_elements. Qed.

Lemma months_of_NoDup (current : list Match.t) :
  List.NoDup (months_of current).
Proof.
  eapply Permutation_NoDup; [symmetry; apply py_sort_perm|].
  apply NoDup_ListNoDup, NoDup_elements.
Qed.

Lemma monthly_rows_strict (current : list Match.t) (ts : list string) :
  StronglySorted (fun a b => String.ltb a b = true) ts ->
  StronglySorted
    (fun a b => String.ltb (MonthRow.month a) (MonthRow.month b) = true)
    (map (monthly_row current) ts).
Proof.
  induction 1 as [|t ts _ IH Ht]; [constructor|].
  cbn [map]. constructor; [exact IH|].
  apply List.Forall_forall. intros r Hr.
  apply in_map_iff in Hr as (t' & <- & Ht'). cbn.
  rewrite List.Forall_forall in Ht. apply Ht, Ht'.
Qed.

Lemma monthly_trends_rows (current : list Match.t) :
  monthly_trends_of current = map (monthly_row current) (months_of current).
Proof.
  unfold monthly_trends_of, sort_values. apply py_sort_id.
  eapply StronglySorted_weaken;
    [|apply monthly_rows_strict, months_of_strict].
  intros a b Hab. apply string_ltb_true_leb, Hab.
Qed.

(** X18.  The monthly trends split the season by month: the months are
    distinct and ascending, every match falls in exactly the row of the
    first 7 characters of its date, and no row is empty.  In a row, home
    wins, draws and away wins add up to the matches, and the average is
    goals over matches to 2 decimals, so within 0.005 of their ratio,
    whichever way a tie is rounded.  Over all rows the matches, the goals
    and the three result counts add up to those of the season. *)
Theorem monthly_trends_partition (current : list Match.t) :
  StronglySorted
    (fun a b => String.ltb (MonthRow.month a) (MonthRow.month b) = true)
    (monthly_trends_of current)
  /\ (forall m, In m current ->
        exists r, In r (monthly_trends_of current)
                  /\ MonthRow.month r = month_of m)
  /\ (forall r, In r (monthly_trends_of current) ->
        0 < MonthRow.matches r
        /\ MonthRow.matches r
           = len (List.filter
                    (fun m => String.eqb (month_of m) (MonthRow.month r))
                    current)
        /\ MonthRow.home_wins r + MonthRow.draws r + MonthRow.away_wins r
           = MonthRow.matches r
        /\ rounds_to 2
             (inject_Z (MonthRow.total_goals r) / inject_Z (MonthRow.matches r))
             (MonthRow.avg_goals r))
  /\ col_sum MonthRow.matches (monthly_trends_of current) = len current
  /\ col_sum MonthRow.total_goals (monthly_trends_of current)
     = col_sum Match.total_goals current
  /\ col_sum MonthRow.home_wins (monthly_trends_of current)
     = len (List.filter (has_result Result.H) current)
  /\ col_sum MonthRow.draws (monthly_trends_of current)
     = len (List.filter (has_result Result.D) current)
  /\ col_sum MonthRow.away_wins (monthly_trends_of current)
     = len (List.filter (has_result Result.A) current).
Proof.
  rewrite monthly_trends_rows.
  pose proof (months_of_NoDup current) as Hnd.
  pose proof (fun m (Hm : In m current) => months_of_In current m Hm) as Hin.
  split; [apply monthly_rows_strict, months_of_strict|].
  split.
  { intros m Hm. exists (monthly_row current (month_of m)).
    split; [apply in_map, Hin, Hm|reflexivity]. }
  split.
  { intros r Hr. apply in_map_iff in Hr as (t & <- & Ht).
    cbn [monthly_row MonthRow.matches MonthRow.month MonthRow.home_wins
         MonthRow.draws MonthRow.away_wins MonthRow.avg_goals
         MonthRow.total_goals safe_int safe_float].
    split.
    { apply months_of_inv in Ht as (m & Hm & Hmt).
      assert (Hg : In m (List.filter
                           (fun m => String.eqb (month_of m) t) current)).
      { apply filter_In. split; [exact Hm|]. apply String.eqb_eq, Hmt. }
      unfold len. destruct (List.filter _ current); [destruct Hg|].
      cbn [length]. lia. }
    split; [reflexivity|]. split.
    { symmetry. apply len_results. }
    rewrite py_round_idempotent. apply py_round_rounds_to. }
  rewrite !col_sum_map_comp.
  cbn [monthly_row MonthRow.matches MonthRow.home_wins MonthRow.draws
       MonthRow.away_wins MonthRow.total_goals safe_int].
  split.
  { rewrite (col_sum_ext _
               (fun t => col_sum (fun _ => 1)
                           (List.filter
                              (fun m => String.eqb (month_of m) t) current)))
      by (intros t _; apply len_col_sum).
    rewrite (col_sum_by_team month_of (fun _ => 1) _ current Hnd Hin).
    symmetry. apply len_col_sum. }
  split; [apply (col_sum_by_team month_of Match.total_goals _ current Hnd Hin)|].
  split; [|split].
  all: match goal with
       | |- context [has_result ?c] =>
           rewrite (col_sum_ext _
                      (fun t => col_sum (fun m => if has_result c m
                                                  then 1 else 0)
                                  (List.filter
                                     (fun m => String.eqb (month_of m) t)
                                     current)))
             by (intros t _; apply len_filter_sum);
           rewrite (col_sum_by_team month_of _ _ current Hnd Hin);
           symmetry; apply len_filter_sum
       end.
Qed.
(** ** The home/away split *)

Lemma inject_Z_len_pos {A : Type} (l : list A) :
  l <> [] -> (0 < inject_Z (len l))%Q.
Proof.
  intros Hne. unfold len. destruct l; [contradiction|].
  unfold Qlt. cbn [length]. simpl. lia.
Qed.

(** A share of a positive total, in percent, rounded. *)
Lemma py_round_pct (w n : Z) :
  0 <= w <= n -> 0 < n ->
  (0 <= py_round (inject_Z w / inject_Z n * 100) 2 <= 100)%Q.
Proof.
  intros [Hw0 Hwn] Hn.
  apply (py_round_between _ 2 0 100).
  assert (Hq : (0 < inject_Z n)%Q) by (unfold Qlt; simpl; lia).
  assert (H0 : (0 <= inject_Z w)%Q) by (unfold Qle; simpl; lia).
  assert (H1 : (inject_Z w <= inject_Z n)%Q) by (rewrite <- Zle_Qle; exact Hwn).
  change (inject_Z 0) with 0%Q. change (inject_Z 100) with 100%Q.
  assert (Hd0 : (0 <= inject_Z w / inject_Z n)%Q).
  { apply Qle_shift_div_l; [exact Hq|]. lra. }
  assert (Hd1 : (inject_Z w / inject_Z n <= 1)%Q).
  { apply Qle_shift_div_r; [exact Hq|]. lra. }
  split; lra.
Qed.

(** X19.  The home/away split always returns, also for a season without a
    match.  The three result counts add up to the number of matches.  With
    at least one match each percentage is the share of the matches to 2
    decimals (within 0.005 of it, whichever way a tie is rounded), lies
    between 0 and 100, and the three add up to 100 within 0.015; the goal
    averages are goals over matches to 2 decimals, within 0.005.  Without
    a match all percentages and averages are 0. *)
Theorem home_away_split (current : list Match.t) :
  exists ha,
    home_away_of current = Ret ha
    /\ HomeAway.total_matches ha = len current
    /\ HomeAway.home_wins ha = len (List.filter (has_result Result.H) current)
    /\ HomeAway.home_wins ha + HomeAway.draws ha + HomeAway.away_wins ha
       = HomeAway.total_matches ha
    /\ (current = [] ->
        HomeAway.home_win_pct ha = 0%Q /\ HomeAway.draw_pct ha = 0%Q
        /\ HomeAway.away_win_pct ha = 0%Q
        /\ HomeAway.home_goals_avg ha = 0%Q
        /\ HomeAway.away_goals_avg ha = 0%Q)
    /\ (current <> [] ->
        rounds_to 2
          (inject_Z (HomeAway.home_wins ha) / inject_Z (len current) * 100)
          (HomeAway.home_win_pct ha)
        /\ rounds_to 2
             (inject_Z (HomeAway.draws ha) / inject_Z (len current) * 100)
             (HomeAway.draw_pct ha)
        /\ rounds_to 2
             (inject_Z (HomeAway.away_wins ha) / inject_Z (len current) * 100)
             (HomeAway.away_win_pct ha)
        /\ (0 <= HomeAway.home_win_pct ha <= 100)%Q
        /\ (0 <= HomeAway.draw_pct ha <= 100)%Q
        /\ (0 <= HomeAway.away_win_pct ha <= 100)%Q
        /\ (Qabs (HomeAway.home_win_pct ha + HomeAway.draw_pct ha
                  + HomeAway.away_win_pct ha - 100) <= 3 # 200)%Q
        /\ rounds_to 2
             (inject_Z (col_sum Match.home_goals current)
              / inject_Z (len current))
             (HomeAway.home_goals_avg ha)
        /\ rounds_to 2
             (inject_Z (col_sum Match.away_goals current)
              / inject_Z (len current))
             (HomeAway.away_goals_avg ha)).
Proof.
  unfold home_away_of. cbn [safe_int].
  set (h := len (List.filter (has_result Result.H) current)).
  set (d := len (List.filter (has_result Result.D) current)).
  set (a := len (List.filter (has_result Result.A) current)).
  pose proof (len_results current) as Hsum. fold h d a in Hsum.
  assert (Hh : 0 <= h) by apply len_nonneg.
  assert (Hd : 0 <= d) by apply len_nonneg.
  assert (Ha : 0 <= a) by apply len_nonneg.
  set (total := if 0 <? len current then len current else 1).
  assert (Htot : 0 < total).
  { unfold total. destruct (Z.ltb_spec 0 (len current)); lia. }
  rewrite !py_div_pos by exact Htot. cbn [py_bind].
  eexists. split; [reflexivity|].
  cbn [HomeAway.total_matches HomeAway.home_wins HomeAway.draws
       HomeAway.away_wins HomeAway.home_win_pct HomeAway.draw_pct
       HomeAway.away_win_pct HomeAway.home_goals_avg HomeAway.away_goals_avg
       safe_float].
  split; [reflexivity|]. split; [reflexivity|]. split; [lia|]. split.
  - intros ->. vm_compute. repeat split; reflexivity.
  - intros Hne.
    assert (Hlen : 0 < len current).
    { unfold len. destruct current; [contradiction|]. cbn [length]. lia. }
    assert (Et : total = len current).
    { unfold total. destruct (Z.ltb_spec 0 (len current)); lia. }
    rewrite Et.
    assert (Emean : forall f : Match.t -> Z,
               col_mean f current
               = Some (inject_Z (col_sum f current) / inject_Z (len current))%Q).
    { intros f. unfold col_mean. destruct current; [contradiction|].
      reflexivity. }
    rewrite !Emean. cbn [safe_float].
    do 3 (split; [apply py_round_rounds_to|]).
    split; [apply py_round_pct; lia|]. split; [apply py_round_pct; lia|].
    split; [apply py_round_pct; lia|].
    split; [|split; apply py_round_rounds_to].
    pose proof (py_round_bound (inject_Z h / inject_Z (len current) * 100) 2)
      as Bh.
    pose proof (py_round_bound (inject_Z d / inject_Z (len current) * 100) 2)
      as Bd.
    pose proof (py_round_bound (inject_Z a / inject_Z (len current) * 100) 2)
      as Ba.
    pose proof tolerance_2 as Ht2.
    assert (Hq : (0 < inject_Z (len current))%Q)
      by (unfold Qlt; simpl; lia).
    assert (E : (inject_Z h / inject_Z (len current) * 100
                 + inject_Z d / inject_Z (len current) * 100
                 + inject_Z a / inject_Z (len current) * 100 == 100)%Q).
    { rewrite Hsum in Hq |- *. rewrite !inject_Z_plus in Hq |- *. field.
      intros E0. rewrite E0 in Hq. exact (Qlt_irrefl 0 Hq). }
    apply Qabs_Qle_condition in Bh as [Bh1 Bh2].
    apply Qabs_Qle_condition in Bd as [Bd1 Bd2].
    apply Qabs_Qle_condition in Ba as [Ba1 Ba2].
    apply Qabs_Qle_condition.
    revert E Bh1 Bh2 Bd1 Bd2 Ba1 Ba2 Ht2.
    generalize (py_round (inject_Z h / inject_Z (len current) * 100) 2).
    generalize (py_round (inject_Z d / inject_Z (len current) * 100) 2).
    generalize (py_round (inject_Z a / inject_Z (len current) * 100) 2).
    generalize (inject_Z h / inject_Z (len current) * 100)%Q.
    generalize (inject_Z d / inject_Z (len current) * 100)%Q.
    generalize (inject_Z a / inject_Z (len current) * 100)%Q.
    generalize ((1 # 2) / inject_Z (pow10 2))%Q.
    intros. split; lra.
Qed.

(** ** Scoreline frequency *)

Lemma unique_In (l : list string) (x : string) : In x (unique l) <-> In x l.
Proof. unfold unique. rewrite <- in_rev, nodup_In, <- in_rev. reflexivity. Qed.

Lemma unique_NoDup (l : list string) : List.NoDup (unique l).
Proof. unfold unique. apply NoDup_rev, List.NoDup_nodup. Qed.

Lemma filter_map_len {A : Type} (f : A -> string) (v : string) (l : list A) :
  len (List.filter (String.eqb v) (map f l))
  = len (List.filter (fun x => String.eqb (f x) v) l).
Proof.
  unfold len. induction l as [|x l IH]; [reflexivity|].
  cbn [map List.filter]. rewrite (String.eqb_sym v (f x)).
  destruct (String.eqb (f x) v); cbn [length]; lia.
Qed.

Lemma col_sum_app_le {A : Type} (f : A -> Z) (l1 l2 : list A) :
  (forall x, In x l2 -> 0 <= f x) -> col_sum f l1 <= col_sum f (l1 ++ l2).
Proof.
  intros H. rewrite col_sum_app.
  assert (0 <= col_sum f l2).
  { induction l2 as [|x l2 IH]; [simpl; lia|].
    rewrite col_sum_cons.
    pose proof (H x (or_introl eq_refl)).
    assert (0 <= col_sum f l2) by (apply IH; intros y Hy; apply H; right; exact Hy).
    lia. }
  lia.
Qed.

(** ** A scoreline determines the goals *)

Lemma string_of_uint_dash_free (d : Decimal.uint) :
  dash_free (NilEmpty.string_of_uint d) = true.
Proof. induction d; simpl; auto. Qed.

Lemma py_str_int_form (z : Z) :
  exists body,
    body <> ""
    /\ dash_free body = true
    /\ (py_str_int z = body \/ py_str_int z = String "-" body).
Proof.
  assert (Hu : forall p, exists body,
             body <> "" /\ dash_free body = true
             /\ NilZero.string_of_uint (Pos.to_uint p) = body).
  { intros p. exists (NilEmpty.string_of_uint (Pos.to_uint p)).
    pose proof (Unsigned.to_uint_nonnil p) as Hnn.
    split; [|split; [apply string_of_uint_dash_free|]].
    - destruct (Pos.to_uint p); [contradiction|discriminate..].
    - unfold NilZero.string_of_uint.
      destruct (Pos.to_uint p); [contradiction|reflexivity..]. }
  unfold py_str_int. destruct z as [|p|p]; cbn [Z.to_int NilZero.string_of_int].
  - exists "0". split; [discriminate|]. split; [reflexivity|left; reflexivity].
  - destruct (Hu p) as (body & H1 & H2 & H3). exists body. auto.
  - destruct (Hu p) as (body & H1 & H2 & H3). exists body.
    split; [exact H1|]. split; [exact H2|]. right. rewrite H3. reflexivity.
Qed.

Lemma dash_free_split (a c b d : string) :
  dash_free a = true -> dash_free c = true ->
  (a ++ String "-" b)%string = (c ++ String "-" d)%string ->
  a = c /\ b = d.
Proof.
  revert c. induction a as [|x a IH]; intros c Ha Hc E.
  - destruct c as [|y c].
    + cbn in E. injection E as <-. auto.
    + cbn in E. injection E as Hy _. subst y. cbn in Hc. discriminate.
  - destruct c as [|y c].
    + cbn in E. injection E as Hx _. subst x. cbn in Ha. discriminate.
    + cbn in E. injection E as -> E.
      cbn in Ha, Hc. apply andb_true_iff in Ha as [_ Ha].
      apply andb_true_iff in Hc as [_ Hc].
      destruct (IH c Ha Hc E) as [-> ->]. auto.
Qed.

Lemma py_str_int_inj (z z' : Z) : py_str_int z = py_str_int z' -> z = z'.
Proof.
  unfold py_str_int. intros E. apply DecimalZ.to_int_inj.
  assert (Hz : forall n, Z.to_int n <> Decimal.Pos Decimal.Nil
                         /\ Z.to_int n <> Decimal.Neg Decimal.Nil).
  { intros [|p|p]; cbn [Z.to_int]; split; try discriminate;
      intros [= H]; exact (Unsigned.to_uint_nonnil p H). }
  destruct (Hz z) as [H1 H2]. destruct (Hz z') as [H1' H2'].
  pose proof (NilZero.isi _ H1 H2) as I.
  pose proof (NilZero.isi _ H1' H2') as I'.
  rewrite E in I. rewrite I in I'. injection I' as ->. reflexivity.
Qed.

Lemma score_of_inj (m m' : Match.t) :
  score_of m = score_of m' <->
  Match.home_goals m = Match.home_goals m'
  /\ Match.away_goals m = Match.away_goals m'.
Proof.
  split; [|intros [E1 E2]; unfold score_of; rewrite E1, E2; reflexivity].
  unfold score_of. intros E.
  change ("-" ++ py_str_int (Match.away_goals m))%string
    with (String "-" (py_str_int (Match.away_goals m))) in E.
  change ("-" ++ py_str_int (Match.away_goals m'))%string
    with (String "-" (py_str_int (Match.away_goals m'))) in E.
  destruct (py_str_int_form (Match.home_goals m)) as (a & Hane & Ha & Hfa).
  destruct (py_str_int_form (Match.home_goals m')) as (c & Hcne & Hc & Hfc).
  assert (Hs : py_str_int (Match.home_goals m)
               = py_str_int (Match.home_goals m')
               /\ py_str_int (Match.away_goals m)
                  = py_str_int (Match.away_goals m')).
  { destruct Hfa as [Ea|Ea], Hfc as [Ec|Ec]; rewrite Ea, Ec in E |- *.
    - apply dash_free_split in E; assumption.
    - destruct a as [|x a]; [contradiction|]. cbn in E.
      injection E as Hx _. subst x. cbn in Ha. discriminate.
    - destruct c as [|y c]; [contradiction|]. cbn in E.
      injection E as Hy _. subst y. cbn in Hc. discriminate.
    - cbn in E. injection E as E.
      apply dash_free_split in E as [-> ->]; auto. }
  destruct Hs as [E1 E2]. split; apply py_str_int_inj; assumption.
Qed.

Lemma matches_with_score_goals (current : list Match.t) (m : Match.t) :
  matches_with_score current (score_of m) = matches_with_goals current m.
Proof.
  unfold matches_with_score, matches_with_goals. f_equal.
  apply filter_ext. intros m'.
  destruct (String.eqb_spec (score_of m') (score_of m)) as [E|E].
  - apply score_of_inj in E as [-> ->]. rewrite !Z.eqb_refl. reflexivity.
  - symmetry. apply not_true_is_false. intros H.
    apply andb_true_iff in H as [H1 H2]. apply Z.eqb_eq in H1, H2.
    apply E, score_of_inj. auto.
Qed.

(** X20.  The scoreline frequency lists the 10 most frequent scorelines of
    the season (all of them when there are fewer), each once, most frequent
    first: the count of a row is the number of matches with those home and
    away goals, it is at least 1, and a scoreline that is not listed is no
    more frequent than any listed one.  The counts add up to at most the
    number of matches. *)
Theorem scoreline_frequency_top (current : list Match.t) :
  length (scoreline_frequency_of current)
  = Nat.min 10 (length (unique (map score_of current)))
  /\ List.NoDup (map ScoreCount.score (scoreline_frequency_of current))
  /\ StronglySorted (fun a b => ScoreCount.count b <= ScoreCount.count a)
       (scoreline_frequency_of current)
  /\ (forall r, In r (scoreline_frequency_of current) ->
        0 < ScoreCount.count r
        /\ exists m, In m current
                     /\ ScoreCount.score r = score_of m
                     /\ ScoreCount.count r = matches_with_goals current m)
  /\ (forall m, In m current ->
        (exists r, In r (scoreline_frequency_of current)
                   /\ ScoreCount.score r = score_of m)
        \/ (forall r, In r (scoreline_frequency_of current) ->
              matches_with_goals current m <= ScoreCount.count r))
  /\ col_sum ScoreCount.count (scoreline_frequency_of current) <= len current.
Proof.
  unfold scoreline_frequency_of, value_counts.
  set (l := map score_of current).
  set (pool := map (fun v => (v, len (List.filter (String.eqb v) l)))
                 (unique l)).
  destruct (take_sort_desc_Z (@snd string Z) 10 pool)
    as (Hlen & Hsorted & rest & Hperm & Hcross).
  set (kept := take 10 (sort_desc_Z snd pool)) in *.
  assert (Hpool : forall sc, In sc pool ->
             In (fst sc) l
             /\ snd sc = matches_with_score current (fst sc)).
  { intros sc Hsc. apply in_map_iff in Hsc as (v & <- & Hv). cbn.
    split; [apply unique_In, Hv|]. apply filter_map_len. }
  assert (Hkept : forall sc, In sc kept -> In sc pool).
  { intros sc Hsc. apply (Permutation_in _ Hperm), in_or_app. left. exact Hsc. }
  assert (Hfst : map fst pool = unique l).
  { unfold pool. rewrite map_map. cbn. apply map_id. }
  assert (Hcount : forall v, In v l -> 0 < matches_with_score current v).
  { intros v Hv. unfold l in Hv. apply in_map_iff in Hv as (m & Hm & Hin).
    unfold matches_with_score, len.
    assert (Hg : In m (List.filter
                         (fun m => String.eqb (score_of m) v) current)).
    { apply filter_In. split; [exact Hin|]. apply String.eqb_eq, Hm. }
    destruct (List.filter _ current); [destruct Hg|]. cbn [length]. lia. }
  split.
  { rewrite length_map, Hlen. unfold pool. rewrite length_map. reflexivity. }
  split.
  { rewrite map_map. cbn.
    assert (Hnd : List.NoDup (map fst (kept ++ rest))).
    { eapply Permutation_NoDup;
        [symmetry; apply Permutation_map, Hperm|].
      rewrite Hfst. apply unique_NoDup. }
    rewrite map_app in Hnd. apply NoDup_app_remove_r in Hnd. exact Hnd. }
  split.
  { clear -Hsorted. induction Hsorted as [|sc kept _ IH Hsc]; [constructor|].
    cbn [map]. constructor; [exact IH|].
    apply List.Forall_forall. intros r Hr.
    apply in_map_iff in Hr as (sc' & <- & Hsc'). cbn.
    rewrite List.Forall_forall in Hsc. apply Hsc, Hsc'. }
  split.
  { intros r Hr. apply in_map_iff in Hr as (sc & <- & Hsc). cbn.
    destruct (Hpool sc (Hkept sc Hsc)) as [Hin ->].
    split; [apply Hcount, Hin|].
    unfold l in Hin. apply in_map_iff in Hin as (m & Hm & Hin).
    exists m. split; [exact Hin|]. split; [symmetry; exact Hm|].
    rewrite <- Hm. apply matches_with_score_goals. }
  split.
  { intros m Hm.
    assert (Hin : In (score_of m, len (List.filter (String.eqb (score_of m)) l))
                    (kept ++ rest)).
    { apply (Permutation_in _ (Permutation_sym Hperm)). unfold pool.
      apply (in_map (fun v => (v, len (List.filter (String.eqb v) l)))).
      apply unique_In. unfold l. apply in_map, Hm. }
    apply in_app_or in Hin as [Hin|Hin].
    - left. eexists. split; [apply in_map, Hin|reflexivity].
    - right. intros r Hr. apply in_map_iff in Hr as (sc & <- & Hsc). cbn.
      specialize (Hcross sc _ Hsc Hin). cbn in Hcross.
      rewrite <- matches_with_score_goals.
      unfold matches_with_score. rewrite <- filter_map_len. exact Hcross. }
  rewrite col_sum_map_comp. cbn.
  transitivity (col_sum snd (kept ++ rest)).
  { apply col_sum_app_le. intros sc Hsc.
    assert (Hp : In sc pool)
      by (apply (Permutation_in _ Hperm), in_or_app; right; exact Hsc).
    destruct (Hpool sc Hp) as [Hin ->]. pose proof (Hcount _ Hin). lia. }
  rewrite (col_sum_perm _ _ _ Hperm). unfold pool.
  rewrite col_sum_map_comp. cbn.
  rewrite (col_sum_ext _
             (fun v => col_sum (fun _ => 1)
                         (List.filter (fun m => String.eqb (score_of m) v)
                            current))).
  - rewrite (col_sum_by_team score_of (fun _ => 1) _ current
               (unique_NoDup l)).
    + rewrite <- len_col_sum. lia.
    + intros m Hm. apply unique_In. unfold l. apply in_map, Hm.
  - intros v _. unfold l. rewrite filter_map_len. apply len_col_sum.
Qed.

(** ** Player value *)

(** X21.  The player-value list is made from the 10 players with the most
    goals per million (goals over price, to 2 decimals) among those with at
    least one goal and a positive price, best first: no player left out has
    a higher value than a listed one.  A row shows the value the ranking
    used, and the price to 1 decimal; the price of a listed player is
    positive, so no value comes from a division by zero. *)
Theorem player_value_top (players_df : list Player.t) :
  exists kept,
    top_of (fun a b => (goals_per_million_of b <= goals_per_million_of a)%Q)
      10
      (List.filter (fun p => (0 <? Player.goals p)
                             && Qlt_bool 0 (Player.price p)) players_df)
      kept
    /\ Forall2 player_value_row_of kept (player_value_of players_df)
    /\ forall p, In p kept -> 0 < Player.goals p /\ (0 < Player.price p)%Q.
Proof.
  unfold player_value_of.
  assert (Ef : List.filter (fun p => Qlt_bool 0 (Player.price p))
                 (List.filter (fun p => 0 <? Player.goals p) players_df)
               = List.filter (fun p => (0 <? Player.goals p)
                                       && Qlt_bool 0 (Player.price p))
                   players_df).
  { induction players_df as [|p l IH]; [reflexivity|].
    cbn [List.filter]. destruct (0 <? Player.goals p); cbn [andb List.filter];
      [destruct (Qlt_bool 0 (Player.price p))|]; rewrite IH; reflexivity. }
  rewrite Ef. set (pool := List.filter _ players_df).
  pose proof (take_sort_desc_Q goals_per_million_of 10 pool) as Htop.
  set (kept := take 10 (sort_desc_Q goals_per_million_of pool)) in *.
  exists kept. split; [exact Htop|]. split.
  - clear. induction kept as [|p kept IH]; constructor; [|exact IH].
    unfold player_value_row_of, player_value_row. cbn.
    repeat split. unfold goals_per_million_of. apply py_round_idempotent.
  - intros p Hp. destruct Htop as (_ & _ & rest & Hperm & _).
    assert (Hin : In p pool)
      by (apply (Permutation_in _ Hperm), in_or_app; left; exact Hp).
    apply filter_In in Hin as [_ Hpos].
    apply andb_true_iff in Hpos as [Hg Hq].
    apply Qlt_bool_iff in Hq. split; [lia|exact Hq].
Qed.

(** ** Referee statistics *)

Lemma col_mean_rounded {A : Type} (f : A -> Z) (group : list A) :
  group <> [] -> safe_float (col_mean f group) 2 = rounded_mean f group.
Proof. intros H. destruct group; [contradiction|reflexivity]. Qed.

Lemma len_pos_nonempty {A : Type} (l : list A) : 0 < len l -> l <> [].
Proof. intros H ->. unfold len in H. cbn in H. lia. Qed.

Lemma referees_of_In (current : list MatchStats.t) (ref : string) :
  In ref (referees_of current) <->
  exists m, In m current /\ MatchStats.referee m = Some ref.
Proof.
  unfold referees_of. rewrite py_sort_In, <- list_elem_of_In.
  rewrite elem_of_elements, elem_of_list_to_set, list_elem_of_omap.
  split; intros (m & Hm & Hr); exists m; split;
    try (apply list_elem_of_In; exact Hm);
    try (apply list_elem_of_In in Hm; exact Hm); exact Hr.
Qed.

Lemma referees_of_strict (current : list MatchStats.t) :
  StronglySorted (fun a b => String.ltb a b = true) (referees_of current).
Proof. apply NoDup_sorted_strict, NoDup_ListNoDup, NoDup_elements. Qed.

Lemma referee_row_Some (current : list MatchStats.t) (ref : string)
  (r : RefRow.t) :
  referee_row current ref = Some r ->
  RefRow.referee r = ref
  /\ 3 <= RefRow.matches r
  /\ RefRow.matches r = len (List.filter (refereed_by ref) current)
  /\ RefRow.avg_goals r
     = rounded_mean MatchStats.total_goals
         (List.filter (refereed_by ref) current)
  /\ RefRow.avg_fouls r
     = rounded_mean MatchStats.total_fouls
         (List.filter (refereed_by ref) current)
  /\ RefRow.avg_cards r
     = rounded_mean MatchStats.total_cards
         (List.filter (refereed_by ref) current)
  /\ RefRow.total_reds r
     = col_sum (fun m => MatchStats.home_reds m + MatchStats.away_reds m)
         (List.filter (refereed_by ref) current).
Proof.
  unfold referee_row.
  destruct (Z.ltb_spec (len (List.filter (refereed_by ref) current)) 3)
    as [|Hn]; [discriminate|].
  intros [= <-]. cbn [RefRow.referee RefRow.matches RefRow.avg_goals
                      RefRow.avg_fouls RefRow.avg_cards RefRow.total_reds
                      safe_int].
  assert (Hne : List.filter (refereed_by ref) current <> [])
    by (apply len_pos_nonempty; lia).
  rewrite !col_mean_rounded by exact Hne.
  repeat split; try lia. symmetry. apply col_sum_plus.
Qed.

Lemma omap_strict {A : Type} (f : string -> option A) (name : A -> string)
  (l : list string) :
  (forall t r, f t = Some r -> name r = t) ->
  StronglySorted (fun a b => String.ltb a b = true) l ->
  StronglySorted (fun a b => String.ltb (name a) (name b) = true) (omap f l).
Proof.
  intros Hname. induction 1 as [|t ts _ IH Ht]; [constructor|].
  simpl. destruct (f t) as [r|] eqn:Er; [|exact IH].
  constructor; [exact IH|].
  apply List.Forall_forall. intros r' Hr'.
  apply list_elem_of_In, list_elem_of_omap in Hr' as (t' & Ht' & Er').
  apply list_elem_of_In in Ht'.
  rewrite (Hname _ _ Er), (Hname _ _ Er').
  rewrite List.Forall_forall in Ht. apply Ht, Ht'.
Qed.

Lemma strict_names_NoDup {A : Type} (name : A -> string) (l : list A) :
  StronglySorted (fun a b => String.ltb (name a) (name b) = true) l ->
  List.NoDup (map name l).
Proof.
  induction 1 as [|x l _ IH Hx]; [constructor|].
  cbn [map]. constructor; [|exact IH].
  intros Hin. apply in_map_iff in Hin as (y & Hy & Hin).
  rewrite List.Forall_forall in Hx. specialize (Hx y Hin).
  rewrite Hy, string_ltb_irrefl in Hx. discriminate.
Qed.

(** X22.  The referee statistics list exactly the referees with at least 3
    matches of the season, each once.  A row carries the number of the
    referee's matches, the means of goals, fouls and cards over them to 2
    decimals, and all the red cards shown in them.  The rows stand in
    non-increasing order of average cards, and rows with the same average
    in ascending order of the referee's name. *)
Theorem referee_stats_board (current : list MatchStats.t) :
  (forall r, In r (referee_stats_of current) ->
     referee_row current (RefRow.referee r) = Some r
     /\ 3 <= RefRow.matches r
     /\ RefRow.matches r
        = len (List.filter (refereed_by (RefRow.referee r)) current)
     /\ RefRow.avg_goals r
        = rounded_mean MatchStats.total_goals
            (List.filter (refereed_by (RefRow.referee r)) current)
     /\ RefRow.avg_fouls r
        = rounded_mean MatchStats.total_fouls
            (List.filter (refereed_by (RefRow.referee r)) current)
     /\ RefRow.avg_cards r
        = rounded_mean MatchStats.total_cards
            (List.filter (refereed_by (RefRow.referee r)) current)
     /\ RefRow.total_reds r
        = col_sum (fun m => MatchStats.home_reds m + MatchStats.away_reds m)
            (List.filter (refereed_by (RefRow.referee r)) current))
  /\ (forall ref,
        3 <= len (List.filter (refereed_by ref) current) ->
        exists r, In r (referee_stats_of current) /\ RefRow.referee r = ref)
  /\ List.NoDup (map RefRow.referee (referee_stats_of current))
  /\ StronglySorted
       (fun a b =>
          (RefRow.avg_cards b <= RefRow.avg_cards a)%Q
          /\ ((RefRow.avg_cards a == RefRow.avg_cards b)%Q ->
              String.ltb (RefRow.referee a) (RefRow.referee b) = true))
       (referee_stats_of current).
Proof.
  unfold referee_stats_of.
  set (rows := omap (referee_row current) (referees_of current)).
  assert (Hname : forall t r, referee_row current t = Some r ->
                              RefRow.referee r = t).
  { intros t r Hr. apply referee_row_Some in Hr as [Hr _]. exact Hr. }
  assert (Hrows : forall r, In r rows ->
                            referee_row current (RefRow.referee r) = Some r).
  { intros r Hr. apply list_elem_of_In, list_elem_of_omap in Hr
      as (t & _ & Hr). rewrite (Hname _ _ Hr). exact Hr. }
  pose proof (omap_strict (referee_row current) RefRow.referee
                (referees_of current) Hname (referees_of_strict current))
    as Hstrict. fold rows in Hstrict.
  split.
  { intros r Hr. unfold sort_desc_Q in Hr. apply py_sort_In in Hr.
    specialize (Hrows r Hr). split; [exact Hrows|].
    apply referee_row_Some in Hrows as (_ & H). exact H. }
  split.
  { intros ref Hn.
    destruct (referee_row current ref) as [r|] eqn:Er.
    - exists r. split; [|apply (Hname _ _ Er)].
      unfold sort_desc_Q. apply py_sort_In.
      apply list_elem_of_In, list_elem_of_omap. exists ref.
      split; [|exact Er]. apply list_elem_of_In, referees_of_In.
      destruct (List.filter (refereed_by ref) current) as [|m g] eqn:Eg;
        [unfold len in Hn; cbn in Hn; lia|].
      assert (Hm : In m (List.filter (refereed_by ref) current))
        by (rewrite Eg; left; reflexivity).
      apply filter_In in Hm as [Hm Hby]. exists m. split; [exact Hm|].
      unfold refereed_by in Hby.
      destruct (MatchStats.referee m) as [x|]; [|discriminate].
      apply String.eqb_eq in Hby. rewrite Hby. reflexivity.
    - unfold referee_row in Er.
      destruct (Z.ltb_spec (len (List.filter (refereed_by ref) current)) 3);
        [lia|discriminate]. }
  split.
  { eapply Permutation_NoDup.
    - apply Permutation_map. symmetry. unfold sort_desc_Q. apply py_sort_perm.
    - apply strict_names_NoDup, Hstrict. }
  unfold sort_desc_Q.
  eapply StronglySorted_weaken;
    [|apply (py_sort_ranked
               (fun a b : RefRow.t =>
                  Qle_bool (- RefRow.avg_cards a) (- RefRow.avg_cards b)));
      [| |exact Hstrict]].
  - intros a b [Hab Hba]. apply Qle_bool_iff in Hab.
    split; [lra|]. intros E. apply Hba, Qle_bool_iff. lra.
  - intros x y. rewrite !Qle_bool_iff.
    destruct (Qlt_le_dec (RefRow.avg_cards x) (RefRow.avg_cards y));
      [right|left]; lra.
  - intros x y z. rewrite !Qle_bool_iff. lra.
Qed.
(** ** The season comparison *)

Lemma col_sum_by_key {A : Type} (side : A -> string) (f : A -> Z)
  (names : list string) (ms : list A) :
  List.NoDup names ->
  col_sum (fun t => col_sum f (List.filter (fun m => String.eqb (side m) t) ms))
          names
  = col_sum f (List.filter (fun m => existsb (String.eqb (side m)) names) ms).
Proof.
  intros Hnd. induction ms as [|m ms IH].
  - simpl. clear. induction names; simpl; lia.
  - cbn [List.filter].
    rewrite (col_sum_ext _
               (fun t => (if String.eqb (side m) t then f m else 0)
                         + col_sum f
                             (List.filter
                                (fun m => String.eqb (side m) t) ms)))
      by (intros t _; destruct (String.eqb (side m) t); reflexivity).
    rewrite col_sum_plus, IH.
    destruct (existsb (String.eqb (side m)) names) eqn:Ex.
    + rewrite col_sum_cons. f_equal.
      apply existsb_exists in Ex as (t & Ht & Heq).
      apply String.eqb_eq in Heq. subst t.
      apply col_sum_name; assumption.
    + rewrite (col_sum_ext _ (fun _ => 0)).
      * assert (E : col_sum (fun _ : string => 0) names = 0)
          by (clear; induction names; simpl; lia).
        rewrite E. lia.
      * intros t Ht. destruct (String.eqb_spec (side m) t) as [E|]; [|reflexivity].
        exfalso. rewrite <- not_true_iff_false in Ex. apply Ex.
        apply existsb_exists. exists t. split; [exact Ht|].
        apply String.eqb_eq, E.
Qed.

Lemma season_row_Some (df : list MatchStats.t) (label : string)
  (r : SeasonRow.t) :
  season_row df label = Some r ->
  SeasonRow.season r = label
  /\ 0 < SeasonRow.matches r
  /\ SeasonRow.matches r = len (List.filter (in_season label) df)
  /\ rounds_to 2
       (mean_of MatchStats.total_goals (List.filter (in_season label) df))
       (SeasonRow.avg_goals r)
  /\ rounds_to 2
       (mean_of MatchStats.total_cards (List.filter (in_season label) df))
       (SeasonRow.avg_cards r)
  /\ rounds_to 2
       (mean_of MatchStats.total_fouls (List.filter (in_season label) df))
       (SeasonRow.avg_fouls r)
  /\ rounds_to 2
       (inject_Z (len (List.filter home_win
                         (List.filter (in_season label) df)))
        / inject_Z (SeasonRow.matches r) * 100)
       (SeasonRow.home_win_pct r)
  /\ (0 <= SeasonRow.home_win_pct r <= 100)%Q.
Proof.
  unfold season_row.
  set (s := List.filter (in_season label) df).
  destruct (Z.eqb_spec (len s) 0) as [|Hn]; [discriminate|].
  intros [= <-].
  cbn [SeasonRow.season SeasonRow.matches SeasonRow.avg_goals
       SeasonRow.avg_cards SeasonRow.avg_fouls SeasonRow.home_win_pct
       safe_int safe_float].
  pose proof (len_nonneg s) as H0.
  assert (Hne : s <> []) by (apply len_pos_nonempty; lia).
  rewrite !col_mean_rounded by exact Hne. unfold rounded_mean, mean_of.
  split; [reflexivity|]. split; [lia|]. split; [reflexivity|].
  do 4 (split; [apply py_round_rounds_to|]).
  apply py_round_pct;
    pose proof (len_nonneg (List.filter home_win s));
    pose proof (len_filter_le home_win s); lia.
Qed.

(** X23.  The season comparison has one row for every season of
    [ACTIVE_SEASONS] that has a match, in the order of the configuration,
    and none for any other season.  A row carries the number of the
    season's matches, the means of goals, cards and fouls over them to 2
    decimals, and the share of home wins in percent to 2 decimals, each
    within 0.005 of the exact ratio whichever way a tie is rounded, the
    share between 0 and 100.  The matches of the rows add up to the number
    of matches that belong to a configured season. *)
Theorem season_comparison_rows (df : list MatchStats.t) :
  map SeasonRow.season (season_comparison_of df)
  = List.filter (fun label => 0 <? len (List.filter (in_season label) df))
      ACTIVE_SEASONS
  /\ (forall r, In r (season_comparison_of df) ->
        0 < SeasonRow.matches r
        /\ SeasonRow.matches r
           = len (List.filter (in_season (SeasonRow.season r)) df)
        /\ rounds_to 2
             (mean_of MatchStats.total_goals
                (List.filter (in_season (SeasonRow.season r)) df))
             (SeasonRow.avg_goals r)
        /\ rounds_to 2
             (mean_of MatchStats.total_cards
                (List.filter (in_season (SeasonRow.season r)) df))
             (SeasonRow.avg_cards r)
        /\ rounds_to 2
             (mean_of MatchStats.total_fouls
                (List.filter (in_season (SeasonRow.season r)) df))
             (SeasonRow.avg_fouls r)
        /\ rounds_to 2
             (inject_Z (len (List.filter home_win
                               (List.filter
                                  (in_season (SeasonRow.season r)) df)))
              / inject_Z (SeasonRow.matches r) * 100)
             (SeasonRow.home_win_pct r)
        /\ (0 <= SeasonRow.home_win_pct r <= 100)%Q)
  /\ col_sum SeasonRow.matches (season_comparison_of df)
     = len (List.filter
              (fun m => existsb (String.eqb (MatchStats.season m))
                          ACTIVE_SEASONS) df).
Proof.
  unfold season_comparison_of.
  assert (Hgen : forall labels,
             map SeasonRow.season (omap (season_row df) labels)
             = List.filter
                 (fun label => 0 <? len (List.filter (in_season label) df))
                 labels
             /\ col_sum SeasonRow.matches (omap (season_row df) labels)
                = col_sum (fun label => len (List.filter (in_season label) df))
                    labels).
  { induction labels as [|label labels [IH1 IH2]]; [split; reflexivity|].
    change (omap (season_row df) (label :: labels))
      with (match season_row df label with
            | Some r => r :: omap (season_row df) labels
            | None => omap (season_row df) labels
            end).
    cbn [List.filter]. rewrite col_sum_cons.
    destruct (season_row df label) as [r|] eqn:Er.
    - apply season_row_Some in Er as (Hs & Hpos & Hm & _).
      rewrite <- Hm.
      destruct (Z.ltb_spec 0 (SeasonRow.matches r)); [|lia].
      cbn [map]. rewrite IH1, Hs. split; [reflexivity|].
      rewrite col_sum_cons, IH2. reflexivity.
    - unfold season_row in Er.
      destruct (Z.eqb_spec (len (List.filter (in_season label) df)) 0)
        as [E|]; [|discriminate].
      rewrite E. cbn [Z.ltb Z.compare]. split; [exact IH1|]. rewrite IH2. lia. }
  destruct (Hgen ACTIVE_SEASONS) as [H1 H2].
  split; [exact H1|]. split.
  - intros r Hr. apply list_elem_of_In, list_elem_of_omap in Hr
      as (label & _ & Hr).
    apply season_row_Some in Hr as (<- & H). exact H.
  - rewrite H2.
    rewrite (col_sum_ext _
               (fun t => col_sum (fun _ => 1)
                           (List.filter
                              (fun m => String.eqb (MatchStats.season m) t)
                              df)))
      by (intros t _; apply len_col_sum).
    rewrite col_sum_by_key.
    + symmetry. apply len_col_sum.
    + unfold ACTIVE_SEASONS.
      repeat (constructor; [cbn; intuition discriminate|]). constructor.
Qed.

(** ** Top scorers *)

Lemma filter_filter_and {A : Type} (p q : A -> bool) (l : list A) :
  List.filter q (List.filter p l) = List.filter (fun x => p x && q x) l.
Proof.
  induction l as [|x l IH]; [reflexivity|].
  cbn [List.filter]. destruct (p x); cbn [andb List.filter];
    [destruct (q x)|]; rewrite IH; reflexivity.
Qed.

(** X24.  The top scorers are made from the 10 xG rows with most goals
    among the named rows with at least one goal, best first: no row left
    out has more goals than a listed one.  A row carries the player's
    columns, empty cells read as 0, and goals minus xG as shown to 2
    decimals; every listed player has a name and at least one goal. *)
Theorem top_scorers_top (xg_players_df : list XGPlayerStats.t) :
  exists kept,
    top_of (fun a b => safe_int (XGPlayerStats.goals b)
                       <= safe_int (XGPlayerStats.goals a))
      10 (List.filter is_scorer xg_players_df) kept
    /\ Forall2 top_scorer_of kept (top_scorers_of xg_players_df)
    /\ forall s, In s (top_scorers_of xg_players_df) -> 0 < TopScorer.goals s.
Proof.
  unfold top_scorers_of. rewrite filter_filter_and.
  assert (Ef : List.filter
                 (fun x =>
                    match XGPlayer.player_name (XGPlayerStats.player x) with
                    | Some _ => true
                    | None => false
                    end
                    && match XGPlayerStats.goals x with
                       | Some g => 0 <? g
                       | None => false
                       end) xg_players_df
               = List.filter is_scorer xg_players_df).
  { apply filter_ext. intros r. unfold is_scorer.
    destruct (XGPlayer.player_name (XGPlayerStats.player r)); reflexivity. }
  rewrite Ef. set (pool := List.filter is_scorer xg_players_df).
  pose proof (take_sort_desc_Z (fun r => safe_int (XGPlayerStats.goals r))
                10 pool) as Htop.
  set (kept := take 10 (sort_desc_Z _ pool)) in *.
  assert (Hkept : forall p, In p kept -> is_scorer p = true).
  { intros p Hp. destruct Htop as (_ & _ & rest & Hperm & _).
    assert (Hin : In p pool)
      by (apply (Permutation_in _ Hperm), in_or_app; left; exact Hp).
    apply filter_In in Hin as [_ H]. exact H. }
  exists kept. split; [exact Htop|]. split.
  - clear Htop. induction kept as [|p kept IH]; constructor.
    + specialize (Hkept p (or_introl eq_refl)). unfold is_scorer in Hkept.
      unfold top_scorer_of, top_scorer_row. cbn.
      destruct (XGPlayer.player_name (XGPlayerStats.player p));
        [|discriminate].
      destruct (XGPlayerStats.goals p); [|discriminate].
      repeat split.
    + apply IH. intros q Hq. apply Hkept. right. exact Hq.
  - intros s Hs. apply in_map_iff in Hs as (p & <- & Hp).
    specialize (Hkept p Hp). unfold is_scorer in Hkept. cbn.
    destruct (XGPlayer.player_name (XGPlayerStats.player p)); [|discriminate].
    destruct (XGPlayerStats.goals p); [cbn; lia|discriminate].
Qed.

(** ** Team names *)

Lemma dict_get_cases (d : list (string * string)) (key : string) :
  (exists v, In (key, v) d /\ dict_get d key key = v)
  \/ (dict_get d key key = key
      /\ List.find (fun kv => String.eqb (fst kv) key) d = None).
Proof.
  unfold dict_get.
  destruct (List.find (fun kv => String.eqb (fst kv) key) d) as [[k v]|] eqn:E.
  - left. apply find_some in E as [Hin Hk]. cbn in Hk.
    apply String.eqb_eq in Hk. subst k. exists v. auto.
  - right. auto.
Qed.

(** A dictionary whose values it leaves alone maps every name to a name it
    leaves alone. *)
Lemma dict_get_idempotent (d : list (string * string)) :
  forallb (fun kv => String.eqb (dict_get d (snd kv) (snd kv)) (snd kv)) d
  = true ->
  forall name,
    dict_get d (dict_get d name name) (dict_get d name name)
    = dict_get d name name.
Proof.
  intros Hd name. rewrite forallb_forall in Hd.
  destruct (dict_get_cases d name) as [(v & Hin & ->)|[-> Hnone]].
  - apply String.eqb_eq, (Hd (name, v) Hin).
  - unfold dict_get. rewrite Hnone. reflexivity.
Qed.

Lemma replace_char_idempotent (a b : ascii) (s : string) :
  a <> b -> replace_char a b (replace_char a b s) = replace_char a b s.
Proof.
  intros Hab. induction s as [|c s IH]; [reflexivity|].
  cbn [replace_char]. rewrite IH. f_equal.
  destruct (Ascii.eqb_spec c a) as [->|Hc].
  - destruct (Ascii.eqb_spec b a) as [E|_]; [congruence|reflexivity].
  - destruct (Ascii.eqb_spec c a); [contradiction|reflexivity].
Qed.

(** X25.  Each of the three team-name normalisers, of the match cleaner,
    of the fantasy fetcher and of the xG fetcher, is idempotent: a name it
    returns is a name it leaves alone.  Each leaves every team name of
    [CANONICAL_TEAMS] alone, and every name a dictionary maps to is a team
    name of [CANONICAL_TEAMS]. *)
Theorem team_names_normalised (name : string) :
  Clean.standardize_team (Clean.standardize_team name)
  = Clean.standardize_team name
  /\ FetchFpl.normalize_team (FetchFpl.normalize_team name)
     = FetchFpl.normalize_team name
  /\ FetchXg.normalize_team (FetchXg.normalize_team name)
     = FetchXg.normalize_team name
  /\ (is_canonical name = true ->
      Clean.standardize_team name = name
      /\ FetchFpl.normalize_team name = name
      /\ FetchXg.normalize_team name = name)
  /\ (Clean.standardize_team name <> name ->
      is_canonical (Clean.standardize_team name) = true)
  /\ (FetchFpl.normalize_team name <> name ->
      is_canonical (FetchFpl.normalize_team name) = true)
  /\ (FetchXg.normalize_team name <> replace_char "_" " " name ->
      is_canonical (FetchXg.normalize_team name) = true).
Proof.
  assert (Hvals : forall d,
             forallb (fun kv => is_canonical (snd kv)) d = true ->
             forall key, dict_get d key key <> key ->
                         is_canonical (dict_get d key key) = true).
  { intros d Hd key Hne. rewrite forallb_forall in Hd.
    destruct (dict_get_cases d key) as [(v & Hin & E)|[E _]];
      [|contradiction].
    rewrite E. apply (Hd (key, v) Hin). }
  assert (Hfix : forall d,
             forallb (fun st =>
                        forallb (fun t => String.eqb (dict_get d t t) t)
                                (snd st)) CANONICAL_TEAMS = true ->
             forall t, is_canonical t = true -> dict_get d t t = t).
  { intros d Hd t Ht. rewrite forallb_forall in Hd.
    unfold is_canonical in Ht. apply existsb_exists in Ht as (st & Hst & Ht).
    apply existsb_exists in Ht as (t' & Ht' & E).
    apply String.eqb_eq in E. subst t'.
    specialize (Hd st Hst). rewrite forallb_forall in Hd.
    apply String.eqb_eq, Hd, Ht'. }
  split; [apply dict_get_idempotent; reflexivity|].
  split; [apply dict_get_idempotent; reflexivity|].
  split.
  { unfold FetchXg.normalize_team. cbv zeta.
    set (clean := replace_char "_" " " name).
    destruct (dict_get_cases UNDERSTAT_NAME_MAP clean)
      as [(v & Hin & ->)|[-> Hnone]].
    - assert (Hv : forallb
                     (fun kv =>
                        String.eqb
                          (dict_get UNDERSTAT_NAME_MAP
                             (replace_char "_" " " (snd kv))
                             (replace_char "_" " " (snd kv))) (snd kv))
                     UNDERSTAT_NAME_MAP = true) by reflexivity.
      rewrite forallb_forall in Hv.
      apply String.eqb_eq, (Hv (clean, v) Hin).
    - unfold clean at 1 2.
      rewrite replace_char_idempotent by discriminate. fold clean.
      unfold dict_get. rewrite Hnone. reflexivity. }
  split.
  { intros Hc. split; [apply Hfix; [reflexivity|exact Hc]|].
    split; [apply Hfix; [reflexivity|exact Hc]|].
    unfold FetchXg.normalize_team. cbv zeta.
    assert (Hu : forallb
                   (fun st =>
                      forallb (fun t => String.eqb
                                          (replace_char "_" " " t) t)
                              (snd st)) CANONICAL_TEAMS = true)
      by reflexivity.
    assert (E : replace_char "_" " " name = name).
    { rewrite forallb_forall in Hu. unfold is_canonical in Hc.
      apply existsb_exists in Hc as (st & Hst & Ht).
      apply existsb_exists in Ht as (t' & Ht' & E).
      apply String.eqb_eq in E. subst t'.
      specialize (Hu st Hst). rewrite forallb_forall in Hu.
      apply String.eqb_eq, Hu, Ht'. }
    rewrite E. apply Hfix; [reflexivity|exact Hc]. }
  split; [apply Hvals; reflexivity|].
  split; [apply Hvals; reflexivity|].
  unfold FetchXg.normalize_team. cbv zeta. apply Hvals. reflexivity.
Qed.

(** ** Goals by position *)

Lemma position_goals_of_ret (fpl : list Player.t) (pos : string)
  (r : PositionGoals.t) :
  position_goals_of fpl pos = Ret r ->
  PositionGoals.position r = pos
  /\ PositionGoals.total_goals r
     = col_sum Player.goals (position_players fpl pos)
  /\ PositionGoals.total_assists r
     = col_sum Player.assists (position_players fpl pos)
  /\ PositionGoals.player_count r = len (position_active fpl pos)
  /\ (if 0 <? PositionGoals.player_count r
      then rounds_to 2
             (inject_Z (PositionGoals.total_goals r)
              / inject_Z (PositionGoals.player_count r))
             (PositionGoals.avg_goals r)
      else PositionGoals.avg_goals r = 0%Q).
Proof.
  unfold position_goals_of. fold (position_players fpl pos).
  fold (position_active fpl pos). cbn [safe_int].
  destruct (Z.ltb_spec 0 (len (position_active fpl pos))) as [Hpos|Hle].
  - rewrite py_div_pos by exact Hpos. cbn [py_bind]. intros [= <-].
    cbn [PositionGoals.position PositionGoals.total_goals
         PositionGoals.total_assists PositionGoals.player_count
         PositionGoals.avg_goals safe_float].
    destruct (Z.ltb_spec 0 (len (position_active fpl pos))); [|lia].
    do 4 (split; [reflexivity|]). apply py_round_rounds_to.
  - cbn [py_bind]. intros [= <-].
    cbn [PositionGoals.position PositionGoals.total_goals
         PositionGoals.total_assists PositionGoals.player_count
         PositionGoals.avg_goals safe_float].
    destruct (Z.ltb_spec 0 (len (position_active fpl pos))); [lia|].
    do 4 (split; [reflexivity|]). apply py_round_zero.
Qed.

(** X26.  The goals-by-position board has the four rows FWD, MID, DEF and
    GK, in this order, whatever the player table.  A row carries the goals
    and the assists of all players of the position, the number of those who
    have played, and the goals per such player to 2 decimals (within 0.005
    of the ratio, whichever way a tie is rounded), which is 0 when nobody
    of the position has played: no division by zero.  The goals
    of the four rows add up to the goals of the players who have one of the
    four positions. *)
Theorem goals_by_position_board (strip_accents lower : string -> string)
  (idx : XGIndex.t) (fpl : list Player.t) :
  exists lb,
    player_leaderboards_of strip_accents lower idx fpl = Ret lb
    /\ map PositionGoals.position (Leaderboards.goals_by_position lb)
       = POSITIONS
    /\ (forall r, In r (Leaderboards.goals_by_position lb) ->
          PositionGoals.total_goals r
          = col_sum Player.goals
              (position_players fpl (PositionGoals.position r))
          /\ PositionGoals.total_assists r
             = col_sum Player.assists
                 (position_players fpl (PositionGoals.position r))
          /\ PositionGoals.player_count r
             = len (position_active fpl (PositionGoals.position r))
          /\ (if 0 <? PositionGoals.player_count r
              then rounds_to 2
                     (inject_Z (PositionGoals.total_goals r)
                      / inject_Z (PositionGoals.player_count r))
                     (PositionGoals.avg_goals r)
              else PositionGoals.avg_goals r = 0%Q))
    /\ col_sum PositionGoals.total_goals (Leaderboards.goals_by_position lb)
       = col_sum Player.goals
           (List.filter
              (fun p => existsb (String.eqb (Player.position p)) POSITIONS)
              fpl).
Proof.
  destruct (player_leaderboards_of_total strip_accents lower idx fpl)
    as [lb Hlb].
  exists lb. split; [exact Hlb|].
  apply player_leaderboards_of_ret in Hlb as (_ & _ & _ & Hgp & _).
  fold POSITIONS in Hgp. apply py_for_Forall2 in Hgp.
  assert (Hrows : Forall2
            (fun pos r =>
               PositionGoals.position r = pos
               /\ PositionGoals.total_goals r
                  = col_sum Player.goals (position_players fpl pos)
               /\ PositionGoals.total_assists r
                  = col_sum Player.assists (position_players fpl pos)
               /\ PositionGoals.player_count r
                  = len (position_active fpl pos)
               /\ (if 0 <? PositionGoals.player_count r
                   then rounds_to 2
                          (inject_Z (PositionGoals.total_goals r)
                           / inject_Z (PositionGoals.player_count r))
                          (PositionGoals.avg_goals r)
                   else PositionGoals.avg_goals r = 0%Q))
            POSITIONS (Leaderboards.goals_by_position lb)).
  { eapply Forall2_impl; [exact Hgp|].
    intros pos r Hr. apply position_goals_of_ret, Hr. }
  clear Hgp. split; [|split].
  - induction Hrows as [|pos r ps rs (Hp & _) _ IH]; [reflexivity|].
    cbn [map]. rewrite Hp, IH. reflexivity.
  - intros r Hr. apply list_elem_of_In, list_elem_of_lookup in Hr as [i Hi].
    destruct (Forall2_lookup_r _ _ _ i r Hrows Hi)
      as (pos & _ & <- & H). exact H.
  - rewrite <- (col_sum_by_key Player.position Player.goals POSITIONS fpl).
    + induction Hrows as [|pos r ps rs (_ & Hg & _) _ IH]; [reflexivity|].
      rewrite !col_sum_cons, IH, Hg. reflexivity.
    + unfold POSITIONS.
      repeat (constructor; [cbn; intuition discriminate|]). constructor.
Qed.

(** ** The head of the document *)

Lemma league_table_played_sum (current : list Match.t) (table : list Team.t) :
  league_table current = Ret table ->
  col_sum Team.played table = 2 * len current.
Proof.
  intros Htab.
  rewrite (league_table_sum current table Team.played
             (fun _ => 1) (fun _ => 1) Htab).
  - rewrite <- len_col_sum. lia.
  - reflexivity.
  - intros t r Hr.
    destruct (build_team_stats_fields current t)
      as (r1 & Hr1 & Hhw & Hhd & Hhl & Haw & Had & Hal & Hw & Hd & Hl & Hp
          & _).
    rewrite Hr1 in Hr. injection Hr as <-.
    pose proof (len_results (home_fixtures current t)) as Eh.
    pose proof (len_results (away_fixtures current t)) as Ea.
    rewrite <- !len_col_sum. lia.
Qed.

Lemma transform_header (strip_accents lower : string -> string)
  (df : list Match.t) (inp : Inputs.t) (now : string) (doc : Document.t) :
  transform strip_accents lower df inp now = Ret doc ->
  Document.generated_at doc = now
  /\ Document.season doc = CURRENT_SEASON
  /\ Document.source doc = "football-data.co.uk"
  /\ Document.goals_per_match doc
     = py_round (inject_Z (col_sum Match.total_goals (current_of df))
                 / inject_Z (if 0 <? len (current_of df)
                             then len (current_of df) else 1)) 2.
Proof.
  unfold transform. fold (current_of df). intros H.
  apply py_bind_ret in H as (table & _ & H).
  apply py_bind_ret in H as (xg & _ & H).
  apply py_bind_ret in H as (lb & _ & H).
  apply py_bind_ret in H as (mvp & _ & H).
  apply py_bind_ret in H as (gpm & Hgpm & H).
  injection H as <-. cbn.
  do 3 (split; [reflexivity|]).
  set (total := if 0 <? len (current_of df) then len (current_of df) else 1)
    in *.
  assert (Htot : 0 < total).
  { unfold total. destruct (Z.ltb_spec 0 (len (current_of df))); lia. }
  destruct (Z.ltb_spec 0 total); [|lia].
  cbn [safe_int] in Hgpm. rewrite py_div_pos in Hgpm by exact Htot.
  injection Hgpm as <-. reflexivity.
Qed.

(** X27.  The head of the saved document agrees with its sections.  It
    names the current season and the source; [total_matches] is the number
    of matches of the current season, which is also what the status section
    reports and half of the games played that the league table adds up to;
    [total_goals] is the sum of the total-goals column; goals per match is
    their ratio to 2 decimals (within 0.005 of it, whichever way a tie is
    rounded), and 0 for a season without a match, so nothing is divided by
    zero; and the cumulative-points section has a
    series for exactly the teams of the league table. *)
Theorem document_consistent (strip_accents lower : string -> string)
  (df : list Match.t) (players : option (list Player.t))
  (xg_teams : option (list XGTeam.t)) (xg_players : option (list XGPlayer.t))
  (now : string) :
  exists doc,
    main strip_accents lower
      (Inputs.mk (Some df) players xg_teams xg_players) now = Saved doc
    /\ Document.generated_at doc = now
    /\ Document.season doc = CURRENT_SEASON
    /\ Document.source doc = "football-data.co.uk"
    /\ Document.total_matches doc = len (current_of df)
    /\ Document.total_goals doc = col_sum Match.total_goals (current_of df)
    /\ (if 0 <? Document.total_matches doc
        then rounds_to 2
               (inject_Z (Document.total_goals doc)
                / inject_Z (Document.total_matches doc))
               (Document.goals_per_match doc)
        else Document.goals_per_match doc = 0%Q)
    /\ SeasonStatus.matches_played (Document.season_status doc)
       = Document.total_matches doc
    /\ col_sum Team.played (Document.league_table doc)
       = 2 * Document.total_matches doc
    /\ Permutation (map fst (Document.cumulative_points doc))
         (map Team.team (Document.league_table doc)).
Proof.
  set (inp := Inputs.mk (Some df) players xg_teams xg_players).
  destruct (main_saved strip_accents lower df inp eq_refl) as (doc0 & Hm & Ht).
  specialize (Hm now). specialize (Ht now).
  set (doc := Document.set_generated_at now doc0) in *. clearbody doc.
  exists doc. split; [exact Hm|].
  pose proof (transform_header _ _ _ _ _ _ Ht) as (Hg & Hs & Hsrc & Hgpm).
  apply transform_inv in Ht as (Htab & Hcum & Hst & Hn & Hgoals & _).
  fold (current_of df) in Htab, Hcum, Hst, Hn, Hgoals.
  split; [exact Hg|]. split; [exact Hs|]. split; [exact Hsrc|].
  split; [exact Hn|]. split; [exact Hgoals|]. split.
  { rewrite Hgpm, Hn, Hgoals.
    destruct (Z.ltb_spec 0 (len (current_of df))) as [|Hle];
      [apply py_round_rounds_to|].
    assert (E : current_of df = []).
    { destruct (current_of df); [reflexivity|].
      unfold len in Hle. cbn [length] in Hle. lia. }
    rewrite E. vm_compute. reflexivity. }
  split; [rewrite Hst, Hn; reflexivity|].
  split; [rewrite Hn; apply league_table_played_sum, Htab|].
  rewrite Hcum. unfold cumulative_points. rewrite map_map. cbn [fst].
  rewrite map_id.
  destruct (league_table_ret (current_of df)) as (table & Htab' & Hperm).
  rewrite Htab in Htab'. injection Htab' as <-. symmetry. exact Hperm.
Qed.

(** ** The further properties on the sample inputs *)

Lemma money_residuals_balance_witness :
  exists m,
    money_vs_points_of sample_table sample_squads = Ret (Some m)
    /\ (Qabs (q_sum (map MoneyRow.over_under (MoneyVsPoints.teams m)))
        <= inject_Z (len (MoneyVsPoints.teams m)) * (1 # 200))%Q.
Proof.
  destruct (money_residuals_balance sample_table sample_squads)
    as (res & Hres & H).
  destruct res as [m|]; [|vm_compute in Hres; discriminate].
  exists m. split; [exact Hres|]. apply (H m eq_refl).
Defined.

Lemma r_squared_unit_interval_witness :
  exists m,
    money_vs_points_of sample_table sample_squads = Ret (Some m)
    /\ (0 <= Regression.r_squared (MoneyVsPoints.regression m) <= 1)%Q.
Proof.
  destruct (r_squared_unit_interval sample_table sample_squads)
    as (res & Hres & H).
  destruct res as [m|]; [|vm_compute in Hres; discriminate].
  exists m. split; [exact Hres|]. apply (H m eq_refl).
Defined.

Example month_of_sample : month_of sample_goalless = "2025-08".
Proof. reflexivity. Qed.

Example str_prefix_two_bytes :
  str_prefix 1 (String (ascii_of_nat 195) (String (ascii_of_nat 169) "a"))
  = String (ascii_of_nat 195) (String (ascii_of_nat 169) "").
Proof. reflexivity. Qed.

Example score_of_sample : score_of sample_goalless = "0-0".
Proof. reflexivity. Qed.

Example py_str_int_negative : py_str_int (-12) = "-12".
Proof. reflexivity. Qed.

Example normalize_team_underscore :
  FetchXg.normalize_team "West_Ham" = "West Ham United".
Proof. reflexivity. Qed.

Example sanitize_for_json_sample :
  sanitize_for_json
    (Json.JDict [("a", Json.JList [Json.JFloat PyFloat.NaN; Json.JInt 1]);
                 ("b", Json.JFloat PyFloat.NegInf)])
  = Json.JDict [("a", Json.JList [Json.JFloat (PyFloat.Finite 0); Json.JInt 1]);
                ("b", Json.JFloat (PyFloat.Finite 0))].
Proof. reflexivity. Qed.

(** ** Name matching against the file *)



Section EnrichMatching.
Variable strip_accents : string -> string.
Variable lower : string -> string.






End EnrichMatching.


(** ** The regression on equal squad values *)

(** C7.  The regression as the code computes it, in binary64 with either
    of Python's summations, on three teams whose squad value is 185.3
    each and whose points are 40, 50 and 62.  The squad values are equal,
    so their variance is 0 and the slope is to be 0; but the mean the code
    computes, 555.9000000000001 / 3, is not 185.3, the variance it
    computes is 3 x 2^-90 and passes the guard [var > 0], and the run
    reports slope -0.0833 and intercept 66.11.  Exact arithmetic on the
    same numbers gives variance 0, slope 0 and intercept 50.67.  For
    squad values 10, 20, 30 and points 40, 50, 60 every step is exact and
    the report is slope 1, intercept 30, R-squared 1. *)
Theorem regression_equal_squad_values :
  Forall (fun v => v = B64.of_tenths 1853) equal_squad_values
  /\ (forall sum,
        sum = B64.sum_left \/ sum = B64.sum_compensated ->
        exists f,
          B64.linear_fit sum equal_squad_values equal_squad_points = Ret f
          /\ PrimFloat.ltb B64.zero (B64.Fit.var f) = true
          /\ B64.to_Q (B64.Fit.var f) = ((3 # 1) * Qpower 2 (-90))%Q
          /\ B64.regression_of f
             = Regression.mk (- 833 # 10000)%Q (6611 # 100)%Q 0%Q)
  /\ (exists f,
        linear_fit (map B64.to_Q equal_squad_values) equal_squad_points
        = Ret f
        /\ (Fit.var f == 0)%Q
        /\ regression_of f = Regression.mk 0%Q (5067 # 100)%Q 0%Q)
  /\ (forall sum,
        sum = B64.sum_left \/ sum = B64.sum_compensated ->
        B64.reported sum (map B64.of_int [10; 20; 30]) [40; 50; 60]
        = Ret (Regression.mk 1%Q 30%Q 1%Q)).
Proof.
  split; [repeat constructor|]. split.
  { intros sum [-> | ->]; eexists;
      (split; [vm_compute; reflexivity|]);
      cbn [B64.Fit.var]; repeat split; vm_compute; reflexivity. }
  split.
  { eexists. split; [vm_compute; reflexivity|].
    split; vm_compute; reflexivity. }
  intros sum [-> | ->]; vm_compute; reflexivity.
Qed.

(** ** Two runs on the same files *)

Lemma teams_in_valid (env : Env.t) (current : list Match.t) :
  Env.valid env -> teams_in env current = teams_of current.
Proof.
  intros Hv. unfold teams_in, teams_of.
  apply sorted_enumeration_unique; [|apply Hv].
  eapply Permutation_NoDup; [symmetry; apply Hv|].
  apply NoDup_ListNoDup, NoDup_elements.
Qed.

Lemma league_table_in_valid (env : Env.t) (current : list Match.t) :
  Env.valid env -> league_table_in env current = league_table current.
Proof.
  intros Hv. unfold league_table_in, league_table.
  rewrite teams_in_valid by exact Hv. reflexivity.
Qed.

Lemma cumulative_points_in_valid (env : Env.t) (current : list Match.t) :
  Env.valid env ->
  cumulative_points_in env current = cumulative_points current.
Proof.
  intros Hv. unfold cumulative_points_in, cumulative_points.
  rewrite teams_in_valid by exact Hv. reflexivity.
Qed.

Lemma home_away_of_total (current : list Match.t) :
  exists ha, home_away_of current = Ret ha.
Proof.
  unfold home_away_of.
  assert (Htotal : 0 < (if 0 <? len current then len current else 1)).
  { destruct (Z.ltb_spec 0 (len current)); lia. }
  rewrite !py_div_pos by exact Htotal. cbn [py_bind].
  eexists. reflexivity.
Qed.

Section RunInEnvFacts.
Variable strip_accents : string -> string.
Variable lower : string -> string.

(** In valid surroundings the full run computes the 14 entries of
    [Document.t] as [transform] does, and the other 7 from the files
    alone. *)
Lemma dashboard_transform (env : Env.t) (dfs : list MatchStats.t)
  (files : Files.t) :
  Env.valid env ->
  let inp := Files.inputs files in
  let current := current_of (map MatchStats.row dfs) in
  exists ha,
    home_away_of current = Ret ha
    /\ dashboard strip_accents lower env dfs files
       = (doc <- transform strip_accents lower (map MatchStats.row dfs) inp
                   (Env.now env) ;;
          Ret (Dashboard.mk doc
                 (monthly_trends_of current) ha
                 (referee_stats_of
                    (List.filter
                       (fun m => String.eqb (MatchStats.season m)
                                   CURRENT_SEASON) dfs))
                 (scoreline_frequency_of current)
                 (season_comparison_of dfs)
                 (match has_xg inp, Files.xg_players files with
                  | true, Some xg_players_df =>
                      Some (top_scorers_of xg_players_df)
                  | _, _ => None
                  end)
                 (match Files.players files with
                  | Some players_df => Some (player_value_of players_df)
                  | None => None
                  end))).
Proof.
  intros Hv inp current.
  destruct (home_away_of_total current) as [ha Hha].
  exists ha. split; [exact Hha|].
  unfold dashboard, transform. fold inp. fold (current_of (map MatchStats.row dfs)).
  fold current.
  rewrite league_table_in_valid, cumulative_points_in_valid by exact Hv.
  destruct (league_table current) as [table|e]; cbn [py_bind];
    [|reflexivity].
  rewrite Hha. cbn [py_bind].
  assert (Hpl : Inputs.players inp = Files.players files) by reflexivity.
  assert (Hxt : Inputs.xg_teams inp = Files.xg_teams files) by reflexivity.
  assert (Hxp : Inputs.xg_players inp
                = map XGPlayerStats.player <$> Files.xg_players files)
    by reflexivity.
  rewrite Hpl, Hxt, Hxp.
  destruct (has_xg inp); destruct (Files.xg_teams files) as [xt|];
    destruct (Files.xg_players files) as [xp|];
    destruct (Files.players files) as [pl|];
    cbn [fmap option_fmap option_map py_bind];
    repeat match goal with
           | |- context [py_bind ?m _] =>
               lazymatch m with
               | Ret _ => fail
               | _ => destruct m; cbn [py_bind]; try reflexivity
               end
           end; reflexivity.
Qed.

Lemma run_written (env : Env.t) (dfs : list MatchStats.t) (files : Files.t) :
  Env.valid env ->
  Files.matches_clean files = Some dfs ->
  exists d0,
    Dashboard.generated_at d0 = ""
    /\ run strip_accents lower env files
       = Written (Dashboard.set_generated_at (Env.now env) d0)
    /\ main strip_accents lower (Files.inputs files) (Env.now env)
       = Saved (Document.set_generated_at (Env.now env)
                  (Dashboard.document d0))
    /\ forall env', Env.valid env' ->
         run strip_accents lower env' files
         = Written (Dashboard.set_generated_at (Env.now env') d0).
Proof.
  intros Hv Hdf.
  assert (Hin : Inputs.matches_clean (Files.inputs files)
                = Some (map MatchStats.row dfs)).
  { unfold Files.inputs. cbn [Inputs.matches_clean]. rewrite Hdf.
    reflexivity. }
  destruct (main_saved strip_accents lower (map MatchStats.row dfs)
              (Files.inputs files) Hin) as (doc0 & Hmain & Htr).
  destruct (dashboard_transform env dfs files Hv) as (ha & Hha & _).
  set (doc00 := Document.set_generated_at "" doc0).
  assert (Hst : forall now, Document.set_generated_at now doc00
                            = Document.set_generated_at now doc0)
    by (intros now; destruct doc0; reflexivity).
  eexists (Dashboard.mk doc00 _ ha _ _ _ _ _).
  split; [destruct doc0; reflexivity|].
  assert (Hall : forall env', Env.valid env' ->
            run strip_accents lower env' files
            = Written (Dashboard.set_generated_at (Env.now env')
                (Dashboard.mk doc00
                 (monthly_trends_of (current_of (map MatchStats.row dfs))) ha
                 (referee_stats_of
                    (List.filter
                       (fun m => String.eqb (MatchStats.season m)
                                   CURRENT_SEASON) dfs))
                 (scoreline_frequency_of (current_of (map MatchStats.row dfs)))
                 (season_comparison_of dfs)
                 (match has_xg (Files.inputs files), Files.xg_players files with
                  | true, Some xg_players_df =>
                      Some (top_scorers_of xg_players_df)
                  | _, _ => None
                  end)
                 (match Files.players files with
                  | Some players_df => Some (player_value_of players_df)
                  | None => None
                  end)))).
  { intros env' Hv'.
    destruct (dashboard_transform env' dfs files Hv') as (ha' & Hha' & Hd).
    rewrite Hha in Hha'. injection Hha' as <-.
    unfold run. rewrite Hdf, Hd, Htr. cbn [py_bind].
    unfold Dashboard.set_generated_at.
    cbn [Dashboard.document Dashboard.monthly_trends Dashboard.home_away
         Dashboard.referee_stats Dashboard.scoreline_frequency
         Dashboard.season_comparison Dashboard.top_scorers
         Dashboard.player_value].
    rewrite Hst. reflexivity. }
  split; [apply Hall, Hv|]. split; [|exact Hall].
  cbn [Dashboard.document]. rewrite Hst. apply Hmain.
Qed.

(** C8.  Two runs on the same files, each in its own surroundings (its
    clock, and its order of enumerating a set of strings), end alike
    except for [generated_at]: either both stop because matches_clean.csv
    is missing, or both write a document, the 21 entries of the second
    being those of the first with the time of the second run as
    [generated_at].  With the match file present a run always writes.  No
    entry depends on the order in which the set of team names is
    enumerated: the sorted team list, the league table and the points
    series are the same in any two surroundings, the team list being the
    one any enumeration of the set sorts to.  The 14 entries of
    [Document.t] are those [main] computes from the same files at the same
    time. *)
Theorem rerun_same_but_timestamp (files : Files.t) (env1 env2 : Env.t) :
  Env.valid env1 ->
  Env.valid env2 ->
  same_run_but_timestamp (run strip_accents lower env1 files)
                         (run strip_accents lower env2 files)
  /\ (forall d1 d2,
        run strip_accents lower env1 files = Written d1 ->
        run strip_accents lower env2 files = Written d2 ->
        Dashboard.generated_at d1 = Env.now env1
        /\ Dashboard.generated_at d2 = Env.now env2
        /\ d2 = Dashboard.set_generated_at (Env.now env2) d1)
  /\ (Files.matches_clean files <> None ->
      exists d1, run strip_accents lower env1 files = Written d1)
  /\ (Files.matches_clean files = None ->
      run strip_accents lower env1 files = Stopped 1)
  /\ document_of (run strip_accents lower env1 files)
     = main strip_accents lower (Files.inputs files) (Env.now env1)
  /\ (forall current,
        teams_in env1 current = teams_in env2 current
        /\ league_table_in env1 current = league_table_in env2 current
        /\ cumulative_points_in env1 current
           = cumulative_points_in env2 current)
  /\ (forall (current : list Match.t) (names : list string),
        Permutation names (elements (team_set current)) ->
        py_sort String.leb names = teams_of current).
Proof.
  intros Hv1 Hv2.
  assert (Hset : forall now d, Dashboard.generated_at
                                 (Dashboard.set_generated_at now d) = now)
    by (intros now [[] ? ? ? ? ? ? ?]; reflexivity).
  assert (Hset2 : forall now now' d,
             Dashboard.set_generated_at now'
               (Dashboard.set_generated_at now d)
             = Dashboard.set_generated_at now' d)
    by (intros now now' [[] ? ? ? ? ? ? ?]; reflexivity).
  assert (Hteams : forall current,
             teams_in env1 current = teams_in env2 current
             /\ league_table_in env1 current = league_table_in env2 current
             /\ cumulative_points_in env1 current
                = cumulative_points_in env2 current).
  { intros current.
    rewrite !teams_in_valid, !league_table_in_valid,
      !cumulative_points_in_valid by assumption.
    auto. }
  assert (Hnames : forall (current : list Match.t) (names : list string),
             Permutation names (elements (team_set current)) ->
             py_sort String.leb names = teams_of current).
  { intros current names Hperm. unfold teams_of.
    apply sorted_enumeration_unique; [|exact Hperm].
    eapply Permutation_NoDup; [symmetry; exact Hperm|].
    apply NoDup_ListNoDup, NoDup_elements. }
  destruct (Files.matches_clean files) as [dfs|] eqn:Hdf.
  - destruct (run_written env1 dfs files Hv1 Hdf)
      as (d0 & Hd0 & Hr1 & Hmain & Hall).
    pose proof (Hall env2 Hv2) as Hr2.
    split.
    { rewrite Hr1, Hr2. unfold same_run_but_timestamp.
      rewrite !Hset2. reflexivity. }
    split.
    { intros d1 d2 E1 E2. rewrite Hr1 in E1. rewrite Hr2 in E2.
      injection E1 as <-. injection E2 as <-.
      rewrite !Hset, Hset2. auto. }
    split; [intros _; eexists; exact Hr1|].
    split; [discriminate|].
    split.
    { rewrite Hr1, Hmain. destruct d0 as [[] ? ? ? ? ? ? ?]. reflexivity. }
    split; [exact Hteams|].
    exact Hnames.
  - assert (Hstop : forall env, run strip_accents lower env files = Stopped 1)
      by (intros env; unfold run; rewrite Hdf; reflexivity).
    rewrite !Hstop.
    split; [reflexivity|]. split; [discriminate|].
    split; [intros H; contradiction|]. split; [reflexivity|].
    split.
    { unfold main, Files.inputs. cbn [Inputs.matches_clean document_of].
      rewrite Hdf. reflexivity. }
    split; [exact Hteams|].
    exact Hnames.
Qed.
End RunInEnvFacts.

Lemma morning_valid : Env.valid morning.
Proof. intros s. reflexivity. Qed.

Lemma evening_valid : Env.valid evening.
Proof. intros s. symmetry. apply Permutation_rev. Qed.

(** Two runs on two matches between four sides, one in the morning and
    one in the evening with the set of team names enumerated the other
    way round: the 21 entries agree except for the two times. *)
Lemma rerun_same_but_timestamp_witness :
  Env.valid morning
  /\ Env.valid evening
  /\ Env.set_order morning (team_set [sample_goalless])
     <> Env.set_order evening (team_set [sample_goalless])
  /\ same_run_but_timestamp
       (run (fun s => s) ascii_lower morning sample_files)
       (run (fun s => s) ascii_lower evening sample_files)
  /\ exists d1 d2,
       run (fun s => s) ascii_lower morning sample_files = Written d1
       /\ run (fun s => s) ascii_lower evening sample_files = Written d2
       /\ Dashboard.generated_at d1 = "2026-01-05T09:00:00"
       /\ Dashboard.generated_at d2 = "2026-01-05T21:30:00"
       /\ d1 <> d2.
Proof.
  split; [exact morning_valid|]. split; [exact evening_valid|].
  split; [vm_compute; discriminate|].
  destruct (rerun_same_but_timestamp (fun s => s) ascii_lower sample_files
              morning evening morning_valid evening_valid)
    as (Hsame & Hstamp & Hwr & _).
  split; [exact Hsame|].
  destruct Hwr as [d1 Hd1]; [discriminate|].
  destruct (rerun_same_but_timestamp (fun s => s) ascii_lower sample_files
              evening morning evening_valid morning_valid)
    as (_ & _ & [d2 Hd2] & _); [discriminate|].
  exists d1, d2. split; [exact Hd1|]. split; [exact Hd2|].
  destruct (Hstamp d1 d2 Hd1 Hd2) as (H1 & H2 & _).
  split; [exact H1|]. split; [exact H2|].
  intros E. rewrite E, H2 in H1. discriminate H1.
Defined.
